(** * Analytics engine of the personal expense tracker

    A shallow embedding of [utils/analysis_utils.py] (with the [Expense]
    record of [database/models.py]) and the properties of its five
    functions: [parse_date], [calculate_category_stats],
    [calculate_mom_growth], [detect_outliers] and
    [predict_monthly_expense].

    Conventions of the embedding.
    - Python [float] amounts are real numbers ([R]).  Part I gives the code
      in exact arithmetic, where no operation rounds and [np.sqrt] is
      [sqrt]; the section on floating point gives it again for any rounding
      of the operations and any result of NumPy and scikit-learn (an
      [arithmetic]).  A property stated in exact arithmetic is proved of the
      former; a property of the code as it runs is proved of the latter, for
      every arithmetic.
    - A Python [dict] (and [defaultdict]) is an association list in insertion
      order with unique keys; a [set] is a duplicate-free list.
    - A call that can raise returns an [outcome]; [try]/[except] is a match
      on it.
    - [date.today()] is an explicit argument [today].

    Beside the five functions the development embeds the code around them:
    [Expense.to_dict] and [Expense.from_dict] of [database/models.py],
    [CategoryClassifier.classify] of [utils/llm_utils.py], for any language
    model, and the dates of the month-on-month tool of
    [agents/analysis_agent.py]. *)

From Stdlib Require Import Reals Lra Lia ZArith String Ascii List Bool Psatz.
From Stdlib Require Import Permutation Sorted.
Import ListNotations.

Set Implicit Arguments.

(* ================================================================== *)
(** * Part I: the model *)
(* ================================================================== *)

(** ** Exceptions and outcomes *)

(** The exceptions the five functions and the library calls they make can
    raise.  [DateParseError] is the [ValueError] built at the end of
    [parse_date], whose message holds the date string and [str(e)] of the
    error it wraps.  [RegressionFitFailure] is what scikit-learn raises on a
    sample it cannot fit.  [NotANumber] is not an exception: NumPy answers [nan]
    (under a RuntimeWarning) for the mean of an empty array; [nan] is no real
    number, so the model stops with it. *)
Inductive exn : Type :=
| NoneDateError
| EmptyDateError
| IsoformatError (arg : string)
| DateRangeError (y m d : Z)
| DateParseError (date_str : string) (cause : exn)
| DateOverflowError
| EmptySequenceError
| ZeroDivisionError
| RegressionFitFailure
| NotANumber.

Inductive outcome (A : Type) : Type :=
| Ok (a : A)
| Raise (e : exn).

Arguments Ok {A} a.
Arguments Raise {A} e.

Definition bind {A B : Type} (m : outcome A) (k : A -> outcome B) : outcome B :=
  match m with
  | Ok a => k a
  | Raise e => Raise e
  end.

Notation "x <- m ;; k" := (bind m (fun x => k))
  (at level 61, m at next level, right associativity).

Fixpoint foldM {A B : Type} (f : B -> A -> outcome B) (l : list A) (b : B)
  : outcome B :=
  match l with
  | [] => Ok b
  | a :: l' => b' <- f b a ;; foldM f l' b'
  end.

Fixpoint mapM {A B : Type} (f : A -> outcome B) (l : list A) : outcome (list B) :=
  match l with
  | [] => Ok []
  | a :: l' => b <- f a ;; bs <- mapM f l' ;; Ok (b :: bs)
  end.

(** ** Dictionaries *)

Section Dict.
Variables K V : Type.
Variable K_eqb : K -> K -> bool.

Definition dict : Type := list (K * V).

Fixpoint dict_get (d : dict) (k : K) : option V :=
  match d with
  | [] => None
  | (k', v) :: d' => if K_eqb k k' then Some v else dict_get d' k
  end.

Definition dict_mem (d : dict) (k : K) : bool :=
  match dict_get d k with Some _ => true | None => false end.

Definition dict_keys (d : dict) : list K := map fst d.

Definition dict_values (d : dict) : list V := map snd d.

(** [d[k] = f(d[k])] on a [defaultdict] whose factory gives [default]:
    a missing key is first inserted, at the end. *)
Fixpoint dict_update (default : V) (k : K) (f : V -> V) (d : dict) : dict :=
  match d with
  | [] => [(k, f default)]
  | (k', v) :: d' =>
      if K_eqb k k' then (k', f v) :: d'
      else (k', v) :: dict_update default k f d'
  end.

(** [d[k] = v] *)
Definition dict_set (d : dict) (k : K) (v : V) : dict :=
  dict_update v k (fun _ => v) d.

(** [d.get(k, default)]. *)
Definition dict_get_default (d : dict) (k : K) (default : V) : V :=
  match dict_get d k with Some v => v | None => default end.

(** [set(l)], and [s.update(l)]: the elements without repetition. *)
Definition set_add (s : list K) (k : K) : list K :=
  if existsb (K_eqb k) s then s else (s ++ [k])%list.

Definition set_update (s : list K) (l : list K) : list K :=
  fold_left set_add l s.

(** The shape of the bucketing loops: each selected element updates the
    entry of its key. *)
Section Accumulate.
Variable E : Type.
Variable sel : E -> bool.
Variable key : E -> K.
Variable upd : E -> V -> V.
Variable v0 : V.

Definition accumulate (es : list E) (d : dict) : dict :=
  fold_left
    (fun d e => if sel e then dict_update v0 (key e) (upd e) d else d)
    es d.

Definition selected (k : K) (e : E) : bool := sel e && K_eqb (key e) k.
End Accumulate.
End Dict.

(** ** Strings *)

Open Scope string_scope.

Definition code (c : ascii) : Z := Z.of_nat (nat_of_ascii c).

(** [str.isspace] on the ASCII range. *)
Definition is_space (c : ascii) : bool :=
  ((9 <=? code c) && (code c <=? 13) || (28 <=? code c) && (code c <=? 32))%Z.

Definition is_empty (s : string) : bool :=
  match s with EmptyString => true | _ => false end.

Fixpoint lstrip (s : string) : string :=
  match s with
  | EmptyString => EmptyString
  | String c s' => if is_space c then lstrip s' else s
  end.

Fixpoint rstrip (s : string) : string :=
  match s with
  | EmptyString => EmptyString
  | String c s' =>
      let r := rstrip s' in
      if is_space c && is_empty r then EmptyString else String c r
  end.

(** [s.strip()] *)
Definition strip (s : string) : string := rstrip (lstrip s).

(** [c in s] *)
Fixpoint contains (c : ascii) (s : string) : bool :=
  match s with
  | EmptyString => false
  | String c' s' => Ascii.eqb c c' || contains c s'
  end.

(** [s.split(c)[0]] *)
Fixpoint split_head (c : ascii) (s : string) : string :=
  match s with
  | EmptyString => EmptyString
  | String c' s' => if Ascii.eqb c c' then EmptyString else String c' (split_head c s')
  end.

(** [s.replace(c, r)] for a one-character pattern. *)
Fixpoint replace (c : ascii) (r : string) (s : string) : string :=
  match s with
  | EmptyString => EmptyString
  | String c' s' =>
      if Ascii.eqb c c' then r ++ replace c r s' else String c' (replace c r s')
  end.

(** ** Calendar dates *)

Open Scope Z_scope.

Record date : Type := mkdate { year : Z; month : Z; day : Z }.

Definition MINYEAR : Z := 1.
Definition MAXYEAR : Z := 9999.

Definition is_leap (y : Z) : bool :=
  (y mod 4 =? 0) && (negb (y mod 100 =? 0) || (y mod 400 =? 0)).

Definition days_in_month (y m : Z) : Z :=
  if m =? 2 then (if is_leap y then 29 else 28)
  else if (m =? 4) || (m =? 6) || (m =? 9) || (m =? 11) then 30
  else 31.

Definition valid_ymd (y m d : Z) : bool :=
  (MINYEAR <=? y) && (y <=? MAXYEAR) && (1 <=? m) && (m <=? 12)
  && (1 <=? d) && (d <=? days_in_month y m).

Definition valid_date (d : date) : Prop :=
  valid_ymd (year d) (month d) (day d) = true.

(** The constructor [date(y, m, d)]. *)
Definition date_new (y m d : Z) : outcome date :=
  if valid_ymd y m d then Ok (mkdate y m d) else Raise (DateRangeError y m d).

(** Dates compare as the triples (year, month, day). *)
Definition date_leb (a b : date) : bool :=
  (year a <? year b)
  || ((year a =? year b)
      && ((month a <? month b)
          || ((month a =? month b) && (day a <=? day b)))).

(** [d + timedelta(days=1)] and [d - timedelta(days=1)]. *)
Definition next_day (d : date) : outcome date :=
  if day d <? days_in_month (year d) (month d)
  then Ok (mkdate (year d) (month d) (day d + 1))
  else if month d <? 12 then Ok (mkdate (year d) (month d + 1) 1)
  else if year d <? MAXYEAR then Ok (mkdate (year d + 1) 1 1)
  else Raise DateOverflowError.

Definition prev_day (d : date) : outcome date :=
  if 1 <? day d then Ok (mkdate (year d) (month d) (day d - 1))
  else if 1 <? month d
       then Ok (mkdate (year d) (month d - 1) (days_in_month (year d) (month d - 1)))
  else if MINYEAR <? year d then Ok (mkdate (year d - 1) 12 31)
  else Raise DateOverflowError.

(** [d + timedelta(days=n)] and [d - timedelta(days=n)] for [n >= 0]. *)
Fixpoint date_add_days (d : date) (n : nat) : outcome date :=
  match n with
  | O => Ok d
  | S n' => d' <- next_day d ;; date_add_days d' n'
  end.

Fixpoint date_sub_days (d : date) (n : nat) : outcome date :=
  match n with
  | O => Ok d
  | S n' => d' <- prev_day d ;; date_sub_days d' n'
  end.

(** Decimal digits. *)
Definition digit_value (c : ascii) : option Z :=
  if (48 <=? code c) && (code c <=? 57) then Some (code c - 48) else None.

Definition digit_char (n : Z) : ascii := ascii_of_nat (Z.to_nat (48 + n)).

Fixpoint digits_value (acc : Z) (l : list ascii) : option Z :=
  match l with
  | [] => Some acc
  | c :: l' =>
      match digit_value c with
      | Some v => digits_value (10 * acc + v) l'
      | None => None
      end
  end.

(** [date.fromisoformat(s)] on the form [YYYY-MM-DD]: ten characters, digits
    and two hyphens, then the constructor's range check. *)
Definition date_fromisoformat (s : string) : outcome date :=
  match list_ascii_of_string s with
  | [y1; y2; y3; y4; h1; m1; m2; h2; d1; d2] =>
      if Ascii.eqb h1 "-" && Ascii.eqb h2 "-" then
        match digits_value 0 [y1; y2; y3; y4],
              digits_value 0 [m1; m2],
              digits_value 0 [d1; d2] with
        | Some y, Some m, Some d => date_new y m d
        | _, _, _ => Raise (IsoformatError s)
        end
      else Raise (IsoformatError s)
  | _ => Raise (IsoformatError s)
  end.

(** [d.isoformat()]: ["%04d-%02d-%02d"]. *)
Definition date_isoformat (d : date) : string :=
  string_of_list_ascii
    ([digit_char (year d / 1000); digit_char (year d / 100 mod 10);
      digit_char (year d / 10 mod 10); digit_char (year d mod 10);
      "-"%char;
      digit_char (month d / 10); digit_char (month d mod 10);
      "-"%char;
      digit_char (day d / 10); digit_char (day d mod 10)]).

(** A [datetime]: a date and a time of day (the offset, if any, plays no
    part in [dt.date()]). *)
Record datetime : Type := mkdatetime {
  dt_date : date;
  dt_hour : Z;
  dt_minute : Z;
  dt_second : Z
}.

(** ** DateParser: [parse_date] *)

(** What [parse_date] looks at once a [datetime] is set apart: a [date]
    that is no [datetime], [None], or the string that [str()] makes of
    anything else.  [isinstance(date_str, date)] holds for a [datetime] too,
    which is returned as it is: that case needs a result that is no [date]
    and is embedded in [parse_date_value] below, the function on every
    value. *)
Inductive pyvalue : Type :=
| PyDate (d : date)
| PyNone
| PyStr (s : string).

Section ParseDate.
(** [datetime.fromisoformat], the standard library's parser of combined
    date and time strings.  Its grammar differs between Python versions;
    [parse_date] is embedded for any such parser. *)
Variable datetime_fromisoformat : string -> outcome datetime.

Definition parse_date (date_str : pyvalue) : outcome date :=
  match date_str with
  | PyDate d => Ok d
  | PyNone => Raise NoneDateError
  | PyStr s =>
      let date_str := strip s in
      if is_empty date_str then Raise EmptyDateError
      else if contains "T" date_str then
        let date_part := split_head "T" date_str in
        match date_fromisoformat date_part with
        | Ok d => Ok d
        | Raise _ =>
            match datetime_fromisoformat (replace "Z" "+00:00" date_str) with
            | Ok dt => Ok (dt_date dt)
            | Raise _ => date_fromisoformat (strip date_part)
            end
        end
      else if contains " " date_str then
        let date_part := split_head " " date_str in
        match date_fromisoformat date_part with
        | Ok d => Ok d
        | Raise _ =>
            match datetime_fromisoformat date_str with
            | Ok dt => Ok (dt_date dt)
            | Raise _ => date_fromisoformat (strip date_part)
            end
        end
      else
        match date_fromisoformat date_str with
        | Ok d => Ok d
        | Raise e => Raise (DateParseError date_str e)
        end
  end.
End ParseDate.

(** A [datetime.fromisoformat] for the form [YYYY-MM-DD], alone or followed
    by one separator character and [HH:MM:SS]. *)
Definition datetime_fromisoformat_hms (s : string) : outcome datetime :=
  match date_fromisoformat (substring 0 10 s) with
  | Raise _ => Raise (IsoformatError s)
  | Ok d =>
      match list_ascii_of_string (substring 11 (String.length s) s) with
      | [] => if (String.length s <=? 10)%nat then Ok (mkdatetime d 0 0 0)
              else Raise (IsoformatError s)
      | [h1; h2; c1; m1; m2; c2; s1; s2] =>
          match digits_value 0 [h1; h2], digits_value 0 [m1; m2],
                digits_value 0 [s1; s2] with
          | Some hh, Some mm, Some ss =>
              if Ascii.eqb c1 ":" && Ascii.eqb c2 ":"
                 && (hh <? 24) && (mm <? 60) && (ss <? 60)
              then Ok (mkdatetime d hh mm ss) else Raise (IsoformatError s)
          | _, _, _ => Raise (IsoformatError s)
          end
      | _ => Raise (IsoformatError s)
      end
  end.

(** ** Numbers *)

Open Scope R_scope.

Definition Rltb (x y : R) : bool := if Rlt_dec x y then true else false.
Definition Rleb (x y : R) : bool := if Rle_dec x y then true else false.
Definition Reqb (x y : R) : bool := if Req_dec_T x y then true else false.

(** [sum(l)] in exact arithmetic: the additions do not round, where those
    of Python round to binary64 and so depend on the order of the list. *)
Definition py_sum (l : list R) : R := fold_left Rplus l 0.

(** [min(l)] and [max(l)]: the first least (greatest) element; [ValueError]
    on the empty sequence. *)
Definition py_min (l : list R) : outcome R :=
  match l with
  | [] => Raise EmptySequenceError
  | x :: l' => Ok (fold_left (fun m y => if Rltb y m then y else m) l' x)
  end.

Definition py_max (l : list R) : outcome R :=
  match l with
  | [] => Raise EmptySequenceError
  | x :: l' => Ok (fold_left (fun m y => if Rltb m y then y else m) l' x)
  end.

(** [a / b] on floats *)
Definition py_div (a b : R) : outcome R :=
  if Reqb b 0 then Raise ZeroDivisionError else Ok (a / b).

(** [np.mean(l)] in exact arithmetic: the exact sum over the length, where
    NumPy rounds the sum and the quotient. *)
Definition np_mean (l : list R) : outcome R :=
  match l with
  | [] => Raise NotANumber
  | _ => Ok (py_sum l / INR (length l))
  end.

Fixpoint insert_sorted (x : R) (l : list R) : list R :=
  match l with
  | [] => [x]
  | y :: l' => if Rleb x y then x :: l else y :: insert_sorted x l'
  end.

Definition np_sort (l : list R) : list R := fold_right insert_sorted [] l.

(** [np.median(l)]: the middle element of the sorted values, or the mean of
    the two middle ones. *)
Definition np_median (l : list R) : outcome R :=
  match l with
  | [] => Raise NotANumber
  | _ =>
      let s := np_sort l in
      let n := length l in
      if Nat.even n
      then np_mean [nth (n / 2 - 1) s 0; nth (n / 2) s 0]
      else Ok (nth (n / 2) s 0)
  end.

(** [np.std(l)]: [sqrt(mean(abs(l - mean(l)) ** 2))], the population
    standard deviation, in exact arithmetic: NumPy rounds each step, and
    can answer a small positive number for equal amounts. *)
Definition np_std (l : list R) : outcome R :=
  m <- np_mean l ;;
  v <- np_mean (map (fun x => (x - m) * (x - m)) l) ;;
  Ok (sqrt v).

(** ** Data model *)

(** [Expense] of [database/models.py].  [category] and [amount] are
    mandatory for every record the analytics functions consume; [created_at]
    plays no part in them. *)
Record Expense : Type := mkExpense {
  expense_id : option Z;
  expense_date : option date;
  category : string;
  description : string;
  amount : R;
  merchant : option string
}.

Record CategoryStat : Type := mkCategoryStat {
  s_total : R;
  s_count : nat;
  s_mean : R;
  s_median : R;
  s_min : R;
  s_max : R;
  s_std : R
}.

(** A value of the month-on-month mapping: [float('inf')] or a percentage. *)
Inductive growth : Type :=
| Infinity
| Percent (p : R).

Record Outlier : Type := mkOutlier {
  o_id : option Z;
  o_date : option string;
  o_category : string;
  o_description : string;
  o_amount : R;
  o_threshold : R;
  o_mean : R;
  o_std : R
}.

(** ** CategoryStatistics: [calculate_category_stats] *)

Definition category_stat (amounts : list R) : outcome CategoryStat :=
  mean <- np_mean amounts ;;
  median <- np_median amounts ;;
  mn <- py_min amounts ;;
  mx <- py_max amounts ;;
  sd <- (if (1 <? length amounts)%nat then np_std amounts else Ok 0) ;;
  Ok {| s_total := py_sum amounts;
        s_count := length amounts;
        s_mean := mean;
        s_median := median;
        s_min := mn;
        s_max := mx;
        s_std := sd |}.

(** The loop [category_data[expense.category].append(expense.amount)]. *)
Definition category_data (expenses : list Expense) : dict string (list R) :=
  fold_left
    (fun cd expense =>
       dict_update String.eqb [] (category expense)
                   (fun amounts => (amounts ++ [amount expense])%list) cd)
    expenses [].

Definition calculate_category_stats (expenses : list Expense)
  : outcome (dict string CategoryStat) :=
  match expenses with
  | [] => Ok []
  | _ =>
      mapM (fun item : string * list R =>
              st <- category_stat (snd item) ;; Ok (fst item, st))
           (category_data expenses)
  end.

(** ** OutlierDetector: [detect_outliers] *)

Definition detect_outliers (expenses : list Expense) : outcome (list Outlier) :=
  match expenses with
  | [] => Ok []
  | _ =>
      category_stats <- calculate_category_stats expenses ;;
      Ok (fold_left
            (fun outliers expense =>
               match dict_get String.eqb category_stats (category expense) with
               | None => outliers
               | Some stats =>
                   let threshold := s_mean stats + 2 * s_std stats in
                   if Rltb threshold (amount expense) then
                     (outliers ++
                       [ {| o_id := expense_id expense;
                            o_date := option_map date_isoformat (expense_date expense);
                            o_category := category expense;
                            o_description := description expense;
                            o_amount := amount expense;
                            o_threshold := threshold;
                            o_mean := s_mean stats;
                            o_std := s_std stats |} ])%list
                   else outliers
               end)
            expenses [])
  end.

(** ** GrowthAnalyzer: [calculate_mom_growth] *)

(** The four bounds [(prev_start, prev_end, current_start, current_end)]. *)
Definition month_windows (current_month : date)
  : outcome (date * date * date * date) :=
  current_start <- date_new (year current_month) (month current_month) 1 ;;
  prev <- (if (month current_month =? 1)%Z then
             prev_start <- date_new (year current_month - 1) 12 1 ;;
             prev_end <- date_new (year current_month - 1) 12 31 ;;
             Ok (prev_start, prev_end)
           else
             prev_start <- date_new (year current_month) (month current_month - 1) 1 ;;
             first <- date_new (year current_month) (month current_month) 1 ;;
             prev_end <- date_sub_days first 1 ;;
             Ok (prev_start, prev_end)) ;;
  current_end <- date_add_days current_start 32 ;;
  first <- date_new (year current_end) (month current_end) 1 ;;
  current_end <- date_sub_days first 1 ;;
  Ok (fst prev, snd prev, current_start, current_end).

(** One turn of the bucketing loop, on the pair
    [(current_month_data, prev_month_data)]. *)
Definition mom_bucket (w : date * date * date * date)
    (data : dict string R * dict string R) (expense : Expense)
  : dict string R * dict string R :=
  let '(prev_start, prev_end, current_start, current_end) := w in
  match expense_date expense with
  | None => data
  | Some exp_date =>
      if date_leb prev_start exp_date && date_leb exp_date prev_end then
        (fst data,
         dict_update String.eqb 0 (category expense)
                     (fun t => t + amount expense) (snd data))
      else if date_leb current_start exp_date && date_leb exp_date current_end then
        (dict_update String.eqb 0 (category expense)
                     (fun t => t + amount expense) (fst data),
         snd data)
      else data
  end.

Definition mom_rate (prev_total current_total : R) : outcome growth :=
  if Reqb prev_total 0 then
    if Rltb 0 current_total then Ok Infinity else Ok (Percent 0)
  else
    q <- py_div (current_total - prev_total) prev_total ;;
    Ok (Percent (q * 100)).

(** The loop over [all_categories] runs in the order of the set, which
    Python leaves open; the mapping it fills is read by key. *)
Definition calculate_mom_growth (today : date) (expenses : list Expense)
    (current_month : option date) : outcome (dict string growth) :=
  match expenses with
  | [] => Ok []
  | _ =>
      let current_month :=
        match current_month with Some d => d | None => today end in
      w <- month_windows current_month ;;
      let data := fold_left (mom_bucket w) expenses ([], []) in
      let current_month_data := fst data in
      let prev_month_data := snd data in
      let all_categories :=
        set_update String.eqb []
          (dict_keys current_month_data ++ dict_keys prev_month_data) in
      mapM (fun category =>
              let prev_total := dict_get_default String.eqb prev_month_data category 0 in
              let current_total := dict_get_default String.eqb current_month_data category 0 in
              g <- mom_rate prev_total current_total ;;
              Ok (category, g))
           all_categories
  end.

(** ** ExpenseForecaster: [predict_monthly_expense] *)

(** The key [(year, month)] of a monthly bucket; tuples compare
    lexicographically. *)
Definition month_key : Type := (Z * Z)%type.

Definition month_key_eqb (a b : month_key) : bool :=
  ((fst a =? fst b) && (snd a =? snd b))%Z.

Definition month_key_ltb (a b : month_key) : bool :=
  ((fst a <? fst b) || ((fst a =? fst b) && (snd a <? snd b)))%Z.

Definition py_min_key (l : list month_key) : outcome month_key :=
  match l with
  | [] => Raise EmptySequenceError
  | k :: l' => Ok (fold_left (fun m k' => if month_key_ltb k' m then k' else m) l' k)
  end.

(** [sklearn.linear_model.LinearRegression] with one feature, in exact
    arithmetic.  [fit] centres the data and solves the least-squares
    problem; when all predictors are equal the solution of least norm has
    coefficient 0.  It raises on an empty sample and on samples of different
    lengths.  The solver of scikit-learn works in binary64 and returns this
    line up to rounding. *)
Record LinearRegression : Type := mkLinearRegression {
  coef_ : R;
  intercept_ : R
}.

Definition linear_regression_fit (X : list Z) (y : list R)
  : outcome LinearRegression :=
  if (length X =? 0)%nat || negb (length X =? length y)%nat
  then Raise RegressionFitFailure
  else
    let xs := map IZR X in
    let X_offset := py_sum xs / INR (length xs) in
    let y_offset := py_sum y / INR (length y) in
    let sxx := py_sum (map (fun x => (x - X_offset) * (x - X_offset)) xs) in
    let sxy := py_sum (map (fun p => (fst p - X_offset) * (snd p - y_offset))
                           (combine xs y)) in
    let coef := if Reqb sxx 0 then 0 else sxy / sxx in
    Ok {| coef_ := coef; intercept_ := y_offset - X_offset * coef |}.

Definition linear_regression_predict (model : LinearRegression) (x : Z) : R :=
  IZR x * coef_ model + intercept_ model.

(** The loop [monthly_data[month_key][expense.category] += expense.amount]. *)
Definition monthly_data (expenses : list Expense)
  : dict month_key (dict string R) :=
  fold_left
    (fun md expense =>
       match expense_date expense with
       | None => md
       | Some d =>
           dict_update month_key_eqb [] (year d, month d)
             (fun month_data =>
                dict_update String.eqb 0 (category expense)
                            (fun t => t + amount expense) month_data)
             md
       end)
    expenses [].

(** The entry of key [k] in the dictionary [months_since_start], which
    holds one entry for each key of [monthly_data]. *)
Definition months_since_start (min_year min_month : Z) (k : month_key) : Z :=
  ((fst k - min_year) * 12 + (snd k - min_month))%Z.

(** The lists [X] and [y] of one category. *)
Definition category_series (md : dict month_key (dict string R))
    (min_year min_month : Z) (category : string) : list Z * list R :=
  fold_left
    (fun Xy item =>
       match dict_get String.eqb (snd item) category with
       | Some total =>
           ((fst Xy ++ [months_since_start min_year min_month (fst item)])%list,
            (snd Xy ++ [total])%list)
       | None => Xy
       end)
    md ([], []).

(** One turn of the loop over [all_categories]. *)
Definition predict_category (md : dict month_key (dict string R))
    (min_year min_month : Z) (target_month : date)
    (predictions : dict string R) (category : string)
  : outcome (dict string R) :=
  let Xy := category_series md min_year min_month category in
  let X := fst Xy in
  let y := snd Xy in
  if (length X <? 2)%nat then
    if (0 <? length y)%nat
    then m <- np_mean y ;; Ok (dict_set String.eqb predictions category m)
    else Ok predictions
  else
    match (model <- linear_regression_fit X y ;;
           let target_months :=
             ((year target_month - min_year) * 12
              + (month target_month - min_month))%Z in
           Ok (linear_regression_predict model target_months)) with
    | Ok prediction =>
        Ok (dict_set String.eqb predictions category
                     (if Rltb 0 prediction then prediction else 0))
    | Raise _ =>
        if (0 <? length y)%nat
        then m <- np_mean y ;; Ok (dict_set String.eqb predictions category m)
        else Ok (dict_set String.eqb predictions category 0)
    end.

Definition predict_monthly_expense (today : date) (expenses : list Expense)
    (target_month : option date) : outcome (dict string R) :=
  match expenses with
  | [] => Ok []
  | _ =>
      let target_month :=
        match target_month with Some d => d | None => today end in
      let md := monthly_data expenses in
      match md with
      | [] => Ok []
      | _ =>
          let all_categories :=
            fold_left (fun s month_data =>
                         set_update String.eqb s (dict_keys month_data))
                      (dict_values md) [] in
          mk <- py_min_key (dict_keys md) ;;
          foldM (predict_category md (fst mk) (snd mk) target_month)
                all_categories []
      end
  end.

(* ================================================================== *)
(** * Part II: the notions of the specification *)
(* ================================================================== *)

Open Scope list_scope.

(** The claims speak of sums, means and deviations of the amounts of a
    category, and of the records of a calendar month.  These are their
    definitions, independent of the loops of the code. *)

Fixpoint Rsum (l : list R) : R :=
  match l with
  | [] => 0
  | x :: l' => x + Rsum l'
  end.

(** Arithmetic mean. *)
Definition mean_of (l : list R) : R := Rsum l / INR (length l).

(** Population standard deviation: squared deviations divided by N. *)
Definition population_std (l : list R) : R :=
  sqrt (Rsum (map (fun x => (x - mean_of l) * (x - mean_of l)) l) / INR (length l)).

(** The records of a category, and their amounts, in input order. *)
Definition in_category (c : string) (e : Expense) : bool :=
  String.eqb (category e) c.

Definition amounts_of (c : string) (es : list Expense) : list R :=
  map amount (filter (in_category c) es).

(** The two-sigma high-side cutoff of a category. *)
Definition outlier_threshold (es : list Expense) (c : string) : R :=
  mean_of (amounts_of c es) + 2 * population_std (amounts_of c es).

Definition exceeds_threshold (es : list Expense) (e : Expense) : bool :=
  Rltb (outlier_threshold es (category e)) (amount e).

(** The report of a record. *)
Definition outlier_of (es : list Expense) (e : Expense) : Outlier :=
  {| o_id := expense_id e;
     o_date := option_map date_isoformat (expense_date e);
     o_category := category e;
     o_description := description e;
     o_amount := amount e;
     o_threshold := outlier_threshold es (category e);
     o_mean := mean_of (amounts_of (category e) es);
     o_std := population_std (amounts_of (category e) es) |}.

(** The statistics of a group of amounts (of a non-empty one, on which
    [category_stat] answers). *)
Definition stat_of (amounts : list R) : CategoryStat :=
  match category_stat amounts with
  | Ok st => st
  | Raise _ => mkCategoryStat 0 0 0 0 0 0 0
  end.


(** The calendar month before month [m] of year [y]. *)
Definition previous_month (y m : Z) : Z * Z :=
  if (m =? 1)%Z then ((y - 1)%Z, 12%Z) else (y, (m - 1)%Z).

(** The calendar month after it. *)
Definition following_month (y m : Z) : Z * Z :=
  if (m =? 12)%Z then ((y + 1)%Z, 1%Z) else (y, (m + 1)%Z).

(** [d] lies between the first and the last day of month [m] of year [y],
    both included. *)
Definition in_month (y m : Z) (d : date) : bool :=
  date_leb (mkdate y m 1) d && date_leb d (mkdate y m (days_in_month y m)).

Definition dated_in_month (y m : Z) (e : Expense) : bool :=
  match expense_date e with
  | Some d => in_month y m d
  | None => false
  end.

(** The total of a category over the records dated in a month. *)
Definition month_total (es : list Expense) (y m : Z) (c : string) : R :=
  Rsum (map amount (filter (fun e => dated_in_month y m e && in_category c e) es)).

Definition has_record_in_month (es : list Expense) (y m : Z) (c : string) : Prop :=
  exists e, In e es /\ dated_in_month y m e = true /\ category e = c.

(** The two buckets of [calculate_mom_growth] for reference month [m] of
    year [y]: a record of the previous month goes to the previous bucket,
    any other record of the month itself to the current one. *)
Definition in_previous_bucket (y m : Z) (e : Expense) : bool :=
  dated_in_month (fst (previous_month y m)) (snd (previous_month y m)) e.

Definition in_current_bucket (y m : Z) (e : Expense) : bool :=
  negb (in_previous_bucket y m e) && dated_in_month y m e.

(** Percent change of a total, with the sentinel for a new category. *)
Definition growth_of (prev cur : R) : growth :=
  if Reqb prev 0 then (if Rltb 0 cur then Infinity else Percent 0)
  else Percent ((cur - prev) / prev * 100).

(** The reference month is one whose window and whose previous month's
    window exist in the calendar of [date]. *)
Definition windows_exist (ref : date) : Prop :=
  (1 <= year ref <= 9999)%Z /\ (1 <= month ref <= 12)%Z
  /\ ~ (year ref = 1 /\ month ref = 1)%Z
  /\ ~ (year ref = 9999 /\ month ref = 12)%Z.

(** Monthly buckets.  The bucket of a dated record is its (year, month);
    [months_of] lists the buckets of the data in order of first
    appearance. *)
Definition is_dated (e : Expense) : bool :=
  match expense_date e with Some _ => true | None => false end.

Definition month_key_of (e : Expense) : month_key :=
  match expense_date e with
  | Some d => (year d, month d)
  | None => (0%Z, 0%Z)
  end.

Definition in_bucket (k : month_key) (c : string) (e : Expense) : bool :=
  (is_dated e && month_key_eqb (month_key_of e) k) && in_category c e.

Definition months_of (es : list Expense) : list month_key :=
  set_update month_key_eqb [] (map month_key_of (filter is_dated es)).

Definition bucket_total_of (es : list Expense) (k : month_key) (c : string) : R :=
  Rsum (map amount (filter (in_bucket k c) es)).

Definition has_dated_record (es : list Expense) (c : string) : Prop :=
  exists e, In e es /\ is_dated e = true /\ category e = c.

(** [k0] is the earliest month of the data. *)
Definition is_earliest_month (es : list Expense) (k0 : month_key) : Prop :=
  In k0 (months_of es)
  /\ forall k, In k (months_of es) -> month_key_ltb k k0 = false.

(** Months elapsed since [k0]. *)
Definition month_index (k0 k : month_key) : Z :=
  ((fst k - fst k0) * 12 + (snd k - snd k0))%Z.

(** The data points of a category: one (month index, monthly total) pair
    per month in which the category has a record. *)
Definition data_points (es : list Expense) (k0 : month_key) (c : string)
  : list (Z * R) :=
  map (fun k => (month_index k0 k, bucket_total_of es k c))
      (filter (fun k => existsb (in_bucket k c) es) (months_of es)).

(** Ordinary least squares on points (x, y): the line
    [y = intercept + slope * x] with
    slope = sum (x - mx)(y - my) / sum (x - mx)^2 (0 when all x are equal)
    and intercept = my - slope * mx. *)
Definition xs_of (pts : list (Z * R)) : list R := map (fun p => IZR (fst p)) pts.
Definition ys_of (pts : list (Z * R)) : list R := map snd pts.

Definition sxx (pts : list (Z * R)) : R :=
  Rsum (map (fun p => (IZR (fst p) - mean_of (xs_of pts))
                      * (IZR (fst p) - mean_of (xs_of pts))) pts).

Definition sxy (pts : list (Z * R)) : R :=
  Rsum (map (fun p => (IZR (fst p) - mean_of (xs_of pts))
                      * (snd p - mean_of (ys_of pts))) pts).

Definition ols_slope (pts : list (Z * R)) : R :=
  if Reqb (sxx pts) 0 then 0 else sxy pts / sxx pts.

Definition ols_intercept (pts : list (Z * R)) : R :=
  mean_of (ys_of pts) - ols_slope pts * mean_of (xs_of pts).

Definition ols_at (pts : list (Z * R)) (t : Z) : R :=
  ols_intercept pts + ols_slope pts * IZR t.

(** Sum of squared residuals of the line [y = a + b * x]. *)
Definition squared_error (pts : list (Z * R)) (a b : R) : R :=
  Rsum (map (fun p => (snd p - (a + b * IZR (fst p)))
                      * (snd p - (a + b * IZR (fst p)))) pts).

(** The forecast of a category: the mean of its monthly totals when it has
    fewer than two data points, else the least-squares line at the target
    index, not below zero. *)
Definition forecast_of (es : list Expense) (k0 : month_key) (t : Z) (c : string) : R :=
  let pts := data_points es k0 c in
  if (length pts <? 2)%nat then mean_of (ys_of pts) else Rmax 0 (ols_at pts t).

(** Sample records: an undated record, a dated one, and a category of four
    records of 100 and one of [x]. *)
Definition undated (c : string) (a : R) : Expense :=
  mkExpense None None c "" a None.

Definition dated (y m d : Z) (c : string) (a : R) : Expense :=
  mkExpense None (Some (mkdate y m d)) c "" a None.

Definition three_months (a b c : R) : list Expense :=
  [dated 2024 1 10 "food" a; dated 2024 2 10 "food" b; dated 2024 3 10 "food" c].

Definition four_hundreds_and (x : R) : list Expense :=
  [undated "shopping" 100; undated "shopping" 100; undated "shopping" 100;
   undated "shopping" 100; undated "shopping" x].

(** Every character of [s] satisfies [p]. *)
Fixpoint string_forall (p : ascii -> bool) (s : string) : bool :=
  match s with
  | EmptyString => true
  | String c s' => p c && string_forall p s'
  end.

(** A string of whitespace only (the empty string included). *)
Definition blank (s : string) : bool := string_forall is_space s.


(** How many reports of [outs] are of category [c], and how many records of
    [es] are. *)
Definition outliers_in (c : string) (outs : list Outlier) : nat :=
  length (filter (fun o => String.eqb (o_category o) c) outs).

Definition records_in (c : string) (es : list Expense) : nat :=
  length (filter (in_category c) es).


(** The records GrowthAnalyzer looks at for reference month [m] of year
    [y]: those dated in that month or in the month before. *)
Definition in_either_month (y m : Z) (e : Expense) : bool :=
  dated_in_month (fst (previous_month y m)) (snd (previous_month y m)) e
  || dated_in_month y m e.


(** ** CategoryClassifier: [classify] of [utils/llm_utils.py] *)

Definition DEFAULT_CATEGORIES : list string :=
  ["식비"; "교통비"; "쇼핑"; "의료"; "교육"; "통신비";
   "주거비"; "문화/여가"; "보험"; "기타"].

(** [sep.join(l)] *)
Fixpoint join (sep : string) (l : list string) : string :=
  match l with
  | [] => EmptyString
  | s :: l' =>
      match l' with
      | [] => s
      | _ => (s ++ sep ++ join sep l')%string
      end
  end.

(** [p in s] on strings: [p] occurs in [s]. *)
Fixpoint str_in (p s : string) : bool :=
  prefix p s
  || match s with
     | EmptyString => false
     | String _ s' => str_in p s'
     end.

Section Classify.
(** The language model, reached through [prompt_template.format_messages]
    and [llm.invoke]: from the joined category list and the stripped
    description to [response.content], or to an exception.  [classify] is
    embedded for any such model. *)
Variable llm : string -> string -> outcome string.

Definition classify (description : string) (categories : option (list string))
  : string :=
  if is_empty description || is_empty (strip description) then "기타"
  else
    let categories :=
      match categories with Some l => l | None => DEFAULT_CATEGORIES end in
    let categories_str := join ", " categories in
    match llm categories_str (strip description) with
    | Ok content =>
        let category := strip content in
        if existsb (String.eqb category) categories then category
        else
          match find (fun cat => str_in cat category) categories with
          | Some cat => cat
          | None => "기타"
          end
    | Raise _ => "기타"
    end.
End Classify.


(** ** [Expense.to_dict] and [Expense.from_dict] of [database/models.py] *)

(** The values a field of the dataclass or an entry of the dictionary can
    hold.  A dataclass does not check its annotations, so each field holds
    any value. *)
Inductive value : Type :=
| VNone
| VInt (z : Z)
| VFloat (r : R)
| VStr (s : string)
| VDate (d : date)
| VDatetime (dt : datetime).

(** [bool(v)] *)
Definition truthy (v : value) : bool :=
  match v with
  | VNone => false
  | VInt z => negb (z =? 0)%Z
  | VFloat r => negb (Reqb r 0)
  | VStr s => negb (is_empty s)
  | VDate _ => true
  | VDatetime _ => true
  end.

Record ExpenseObject : Type := mkExpenseObject {
  f_id : value;
  f_date : value;
  f_category : value;
  f_description : value;
  f_amount : value;
  f_merchant : value;
  f_created_at : value
}.

(** What the two methods can raise: [AttributeError] of a value without
    [isoformat], [TypeError] of [datetime.fromisoformat] on a value that is
    no string, and the [ValueError]s of the date parsers. *)
Inductive py_error : Type :=
| AttributeError
| TypeError
| ValueError (e : exn).

Inductive attempt (A : Type) : Type :=
| Returns (a : A)
| Raises (e : py_error).

Arguments Returns {A} a.
Arguments Raises {A} e.

(** [data.get(k)] *)
Definition data_get (data : dict string value) (k : string) : value :=
  match dict_get String.eqb data k with
  | Some v => v
  | None => VNone
  end.

Section Models.
(** [datetime.fromisoformat] and [datetime.isoformat] of the standard
    library, and [str()] of a number. *)
Variable datetime_fromisoformat : string -> outcome datetime.
Variable datetime_isoformat : datetime -> string.
Variable py_str : value -> string.

(** [v.isoformat() if v else None] *)
Definition isoformat_or_none (v : value) : attempt value :=
  if truthy v then
    match v with
    | VDate d => Returns (VStr (date_isoformat d))
    | VDatetime dt => Returns (VStr (datetime_isoformat dt))
    | _ => Raises AttributeError
    end
  else Returns VNone.

Definition to_dict (self : ExpenseObject) : attempt (dict string value) :=
  match isoformat_or_none (f_date self) with
  | Raises e => Raises e
  | Returns date_entry =>
      match isoformat_or_none (f_created_at self) with
      | Raises e => Raises e
      | Returns created_at_entry =>
          Returns [("id", f_id self);
                   ("date", date_entry);
                   ("category", f_category self);
                   ("description", f_description self);
                   ("amount", f_amount self);
                   ("merchant", f_merchant self);
                   ("created_at", created_at_entry)]
      end
  end.

(** [parse_date(v)] on a value: a [datetime] is a [date] and is returned
    as it is. *)
Definition parse_date_value (v : value) : attempt value :=
  match v with
  | VDatetime dt => Returns (VDatetime dt)
  | VDate d => Returns (VDate d)
  | VNone => Raises (ValueError NoneDateError)
  | VStr s =>
      match parse_date datetime_fromisoformat (PyStr s) with
      | Ok d => Returns (VDate d)
      | Raise e => Raises (ValueError e)
      end
  | _ =>
      match parse_date datetime_fromisoformat (PyStr (py_str v)) with
      | Ok d => Returns (VDate d)
      | Raise e => Raises (ValueError e)
      end
  end.

Definition from_dict (data : dict string value) : attempt ExpenseObject :=
  match (if truthy (data_get data "date")
         then parse_date_value (data_get data "date")
         else Returns VNone) with
  | Raises e => Raises e
  | Returns date_field =>
      match (if truthy (data_get data "created_at") then
               match data_get data "created_at" with
               | VStr s =>
                   match datetime_fromisoformat s with
                   | Ok dt => Returns (VDatetime dt)
                   | Raise e => Raises (ValueError e)
                   end
               | _ => Raises TypeError
               end
             else Returns VNone) with
      | Raises e => Raises e
      | Returns created_at_field =>
          Returns {| f_id := data_get data "id";
                     f_date := date_field;
                     f_category := data_get data "category";
                     f_description := data_get data "description";
                     f_amount := data_get data "amount";
                     f_merchant := data_get data "merchant";
                     f_created_at := created_at_field |}
      end
  end.
End Models.

(** [dt.isoformat()] of a datetime without microseconds and offset:
    [YYYY-MM-DDTHH:MM:SS]. *)
Definition datetime_isoformat_hms (dt : datetime) : string :=
  (date_isoformat (dt_date dt)
   ++ string_of_list_ascii
        ["T"%char;
         digit_char (dt_hour dt / 10); digit_char (dt_hour dt mod 10); ":"%char;
         digit_char (dt_minute dt / 10); digit_char (dt_minute dt mod 10); ":"%char;
         digit_char (dt_second dt / 10); digit_char (dt_second dt mod 10)])%string.

(** A stored record. *)
Definition sample_object : ExpenseObject :=
  {| f_id := VInt 7;
     f_date := VDate (mkdate 2024 3 10);
     f_category := VStr "food";
     f_description := VStr "";
     f_amount := VFloat 4500;
     f_merchant := VNone;
     f_created_at := VDatetime (mkdatetime (mkdate 2024 3 10) 9 30 0) |}.


(** The same records in another unit of currency: every amount multiplied
    by [k]; and a report with its four amounts multiplied by [k]. *)
Definition scale (k : R) (e : Expense) : Expense :=
  mkExpense (expense_id e) (expense_date e) (category e) (description e)
            (k * amount e) (merchant e).

Definition scale_outlier (k : R) (o : Outlier) : Outlier :=
  mkOutlier (o_id o) (o_date o) (o_category o) (o_description o)
            (k * o_amount o) (k * o_threshold o) (k * o_mean o) (k * o_std o).

Definition scale_totals (k : R) (d : dict string R) : dict string R :=
  map (fun item => (fst item, k * snd item)) d.


(** The statistics of a category in another unit, and a result mapped
    through a function. *)
Definition scale_stat (k : R) (st : CategoryStat) : CategoryStat :=
  mkCategoryStat (k * s_total st) (s_count st) (k * s_mean st)
                 (k * s_median st) (k * s_min st) (k * s_max st) (k * s_std st).

Definition outcome_map (A B : Type) (f : A -> B) (m : outcome A) : outcome B :=
  match m with
  | Ok a => Ok (f a)
  | Raise e => Raise e
  end.


(** ** AnalysisAgent: the records fetched for the month-on-month tool *)

(** The two dates of [calculate_mom_growth_analysis] of
    [agents/analysis_agent.py], once it has read the year and the month of
    its argument: the reference date it passes to [calculate_mom_growth], and
    the date from which it fetches the records of the store. *)
Definition mom_analysis_dates (today : date) (current_month : option (Z * Z))
  : outcome (date * date) :=
  target_date <- match current_month with
                 | Some (y, m) => date_new y m 15
                 | None => Ok today
                 end ;;
  start_date <- date_sub_days target_date 90 ;;
  Ok (target_date, start_date).

(** The records a query [WHERE date >= start_date] keeps. *)
Definition dated_from (start_date : date) (e : Expense) : bool :=
  match expense_date e with
  | Some d => date_leb start_date d
  | None => false
  end.


(** Nine records of 100 and one of [x], of one category. *)
Definition nine_hundreds_and (x : R) : list Expense :=
  [undated "shopping" 100; undated "shopping" 100; undated "shopping" 100;
   undated "shopping" 100; undated "shopping" 100; undated "shopping" 100;
   undated "shopping" 100; undated "shopping" 100; undated "shopping" 100;
   undated "shopping" x].


(* ================================================================== *)
(** * The code in floating point *)
(* ================================================================== *)

(** Python floats are binary64 numbers.  An operation of Python on floats
    is the exact operation followed by a rounding to such a number; the
    reductions of NumPy and the regression of scikit-learn round inside, in
    an order of their own.  An [arithmetic] gathers that rounding and those
    library functions, and the functions below are the code for any
    arithmetic: what is proved of them holds of the code as it runs.  The
    functions above are the code in the arithmetic [exact], without
    rounding. *)
Record arithmetic : Type := mkArithmetic {
  (** the rounding of [+], [-], [*] and [/] on floats *)
  rnd : R -> R;
  (** [sum(l)] *)
  sum_of : list R -> R;
  (** [np.mean(l)], [np.median(l)] and [np.std(l)] *)
  np_mean_of : list R -> outcome R;
  np_median_of : list R -> outcome R;
  np_std_of : list R -> outcome R;
  (** [LinearRegression().fit(X, y).predict([[t]])[0]] *)
  fit_predict : list Z -> list R -> Z -> outcome R
}.

Definition exact : arithmetic :=
  {| rnd := fun x => x;
     sum_of := py_sum;
     np_mean_of := np_mean;
     np_median_of := np_median;
     np_std_of := np_std;
     fit_predict := fun X y t =>
                      model <- linear_regression_fit X y ;;
                      Ok (linear_regression_predict model t) |}.

Section FloatingPoint.
Variable A : arithmetic.

(** [calculate_category_stats] *)
Definition category_stat_with (amounts : list R) : outcome CategoryStat :=
  mean <- np_mean_of A amounts ;;
  median <- np_median_of A amounts ;;
  mn <- py_min amounts ;;
  mx <- py_max amounts ;;
  sd <- (if (1 <? length amounts)%nat then np_std_of A amounts else Ok 0) ;;
  Ok {| s_total := sum_of A amounts;
        s_count := length amounts;
        s_mean := mean;
        s_median := median;
        s_min := mn;
        s_max := mx;
        s_std := sd |}.

Definition calculate_category_stats_with (expenses : list Expense)
  : outcome (dict string CategoryStat) :=
  match expenses with
  | [] => Ok []
  | _ =>
      mapM (fun item : string * list R =>
              st <- category_stat_with (snd item) ;; Ok (fst item, st))
           (category_data expenses)
  end.

(** [detect_outliers]: [stats['mean'] + 2 * stats['std']] is a product and a
    sum of floats. *)
Definition detect_outliers_with (expenses : list Expense)
  : outcome (list Outlier) :=
  match expenses with
  | [] => Ok []
  | _ =>
      category_stats <- calculate_category_stats_with expenses ;;
      Ok (fold_left
            (fun outliers expense =>
               match dict_get String.eqb category_stats (category expense) with
               | None => outliers
               | Some stats =>
                   let threshold :=
                     rnd A (s_mean stats + rnd A (2 * s_std stats)) in
                   if Rltb threshold (amount expense) then
                     (outliers ++
                       [ {| o_id := expense_id expense;
                            o_date := option_map date_isoformat (expense_date expense);
                            o_category := category expense;
                            o_description := description expense;
                            o_amount := amount expense;
                            o_threshold := threshold;
                            o_mean := s_mean stats;
                            o_std := s_std stats |} ])%list
                   else outliers
               end)
            expenses [])
  end.

(** [predict_monthly_expense]: [+=] on the monthly totals is a sum of
    floats. *)
Definition monthly_data_with (expenses : list Expense)
  : dict month_key (dict string R) :=
  fold_left
    (fun md expense =>
       match expense_date expense with
       | None => md
       | Some d =>
           dict_update month_key_eqb [] (year d, month d)
             (fun month_data =>
                dict_update String.eqb 0 (category expense)
                            (fun t => rnd A (t + amount expense)) month_data)
             md
       end)
    expenses [].

Definition predict_category_with (md : dict month_key (dict string R))
    (min_year min_month : Z) (target_month : date)
    (predictions : dict string R) (category : string)
  : outcome (dict string R) :=
  let Xy := category_series md min_year min_month category in
  let X := fst Xy in
  let y := snd Xy in
  if (length X <? 2)%nat then
    if (0 <? length y)%nat
    then m <- np_mean_of A y ;; Ok (dict_set String.eqb predictions category m)
    else Ok predictions
  else
    let target_months :=
      ((year target_month - min_year) * 12
       + (month target_month - min_month))%Z in
    match fit_predict A X y target_months with
    | Ok prediction =>
        Ok (dict_set String.eqb predictions category
                     (if Rltb 0 prediction then prediction else 0))
    | Raise _ =>
        if (0 <? length y)%nat
        then m <- np_mean_of A y ;; Ok (dict_set String.eqb predictions category m)
        else Ok (dict_set String.eqb predictions category 0)
    end.

Definition predict_monthly_expense_with (today : date) (expenses : list Expense)
    (target_month : option date) : outcome (dict string R) :=
  match expenses with
  | [] => Ok []
  | _ =>
      let target_month :=
        match target_month with Some d => d | None => today end in
      let md := monthly_data_with expenses in
      match md with
      | [] => Ok []
      | _ =>
          let all_categories :=
            fold_left (fun s month_data =>
                         set_update String.eqb s (dict_keys month_data))
                      (dict_values md) [] in
          mk <- py_min_key (dict_keys md) ;;
          foldM (predict_category_with md (fst mk) (snd mk) target_month)
                all_categories []
      end
  end.

(** The notions of the claims, as computed. *)

(** The cutoff of a category, from its entry of the statistics. *)
Definition threshold_of (st : CategoryStat) : R :=
  rnd A (s_mean st + rnd A (2 * s_std st)).

Definition above_threshold (stats : dict string CategoryStat) (e : Expense)
  : bool :=
  match dict_get String.eqb stats (category e) with
  | Some st => Rltb (threshold_of st) (amount e)
  | None => false
  end.

Definition report_of (stats : dict string CategoryStat) (e : Expense)
  : Outlier :=
  let st := match dict_get String.eqb stats (category e) with
            | Some st => st
            | None => mkCategoryStat 0 0 0 0 0 0 0
            end in
  {| o_id := expense_id e;
     o_date := option_map date_isoformat (expense_date e);
     o_category := category e;
     o_description := description e;
     o_amount := amount e;
     o_threshold := threshold_of st;
     o_mean := s_mean st;
     o_std := s_std st |}.

(** The total of a category in a month, added up record by record, and the
    data points of a category. *)
Definition bucket_total_with (es : list Expense) (k : month_key) (c : string)
  : R :=
  fold_left (fun t e => rnd A (t + amount e)) (filter (in_bucket k c) es) 0.

Definition data_points_with (es : list Expense) (k0 : month_key) (c : string)
  : list (Z * R) :=
  map (fun k => (month_index k0 k, bucket_total_with es k c))
      (filter (fun k => existsb (in_bucket k c) es) (months_of es)).

(** The forecast of a category: the mean of its monthly totals when it has
    fewer than two data points or the regression fails, else what the
    regression predicts at the target index, not below zero. *)
Definition forecast_with (es : list Expense) (k0 : month_key) (t : Z)
    (c : string) : outcome R :=
  let pts := data_points_with es k0 c in
  if (length pts <? 2)%nat then np_mean_of A (ys_of pts)
  else
    match fit_predict A (map fst pts) (ys_of pts) t with
    | Ok p => Ok (Rmax 0 p)
    | Raise _ => np_mean_of A (ys_of pts)
    end.
End FloatingPoint.

(* ================================================================== *)
(** * Part III: properties *)
(* ================================================================== *)

(** ** Outcomes *)

Lemma bind_Ok_inv (A B : Type) (m : outcome A) (k : A -> outcome B) (b : B) :
  bind m k = Ok b -> exists a, m = Ok a /\ k a = Ok b.
Proof.
  destruct m as [a | e]; simpl; intros H; [eauto | discriminate].
Qed.

Lemma mapM_Ok (A B : Type) (f : A -> outcome B) (g : A -> B) (l : list A) :
  (forall a, In a l -> f a = Ok (g a)) -> mapM f l = Ok (map g l).
Proof.
  induction l as [| a l IH]; simpl; intros H; [reflexivity |].
  rewrite (H a) by auto. simpl. rewrite IH by auto. reflexivity.
Qed.

(** ** Comparisons of reals *)

Lemma Rltb_true (x y : R) : Rltb x y = true <-> x < y.
Proof. unfold Rltb. destruct (Rlt_dec x y); split; auto; discriminate. Qed.

Lemma Rltb_false (x y : R) : Rltb x y = false <-> y <= x.
Proof.
  unfold Rltb. destruct (Rlt_dec x y); split; auto; try discriminate; lra.
Qed.

Lemma Reqb_true (x y : R) : Reqb x y = true <-> x = y.
Proof. unfold Reqb. destruct (Req_dec_T x y); split; auto; discriminate. Qed.

Lemma Reqb_false (x y : R) : Reqb x y = false <-> x <> y.
Proof.
  unfold Reqb. destruct (Req_dec_T x y); split; auto; try discriminate.
  intros H; contradiction.
Qed.

Lemma Rleb_true (x y : R) : Rleb x y = true <-> x <= y.
Proof. unfold Rleb. destruct (Rle_dec x y); split; auto; discriminate. Qed.

(** ** Sums *)

Lemma fold_left_Rplus (l : list R) (a : R) : fold_left Rplus l a = a + Rsum l.
Proof.
  revert a. induction l as [| x l IH]; simpl; intros a; [lra |].
  rewrite IH. lra.
Qed.

Lemma py_sum_Rsum (l : list R) : py_sum l = Rsum l.
Proof. unfold py_sum. rewrite fold_left_Rplus. lra. Qed.


Lemma Rsum_nonneg (l : list R) : Forall (fun x => 0 <= x) l -> 0 <= Rsum l.
Proof. induction 1; simpl; lra. Qed.

(** ** Lists *)

Lemma filter_none (A : Type) (f : A -> bool) (l : list A) :
  (forall a, In a l -> f a = false) -> filter f l = [].
Proof.
  induction l as [| a l IH]; simpl; intros H; [reflexivity |].
  rewrite (H a) by auto. apply IH. auto.
Qed.

Lemma map_combine_fst_snd (g : R -> R -> R) (l : list (Z * R)) :
  map (fun q => g (fst q) (snd q)) (combine (map IZR (map fst l)) (map snd l))
  = map (fun p => g (IZR (fst p)) (snd p)) l.
Proof.
  induction l as [| p l IH]; [reflexivity |].
  cbn [map combine fst snd]. rewrite IH. reflexivity.
Qed.

(** ** Dictionaries *)

Section DictFacts.
Variables K V : Type.
Variable K_eqb : K -> K -> bool.
Hypothesis K_eqb_eq : forall a b, K_eqb a b = true <-> a = b.

Lemma K_eqb_refl (k : K) : K_eqb k k = true.
Proof. apply K_eqb_eq. reflexivity. Qed.

Lemma K_eqb_neq (a b : K) : a <> b -> K_eqb a b = false.
Proof.
  intros H. destruct (K_eqb a b) eqn:E; [| reflexivity].
  apply K_eqb_eq in E. contradiction.
Qed.

Lemma K_eq_dec (a b : K) : a = b \/ a <> b.
Proof.
  destruct (K_eqb a b) eqn:E.
  - left. apply K_eqb_eq. exact E.
  - right. intros H. apply K_eqb_eq in H. congruence.
Qed.

Lemma dict_get_update_eq (v0 : V) (k : K) (f : V -> V) (d : dict K V) :
  dict_get K_eqb (dict_update K_eqb v0 k f d) k
  = Some (f (dict_get_default K_eqb d k v0)).
Proof.
  unfold dict_get_default.
  induction d as [| [k' v] d IH]; simpl.
  - rewrite K_eqb_refl. reflexivity.
  - destruct (K_eqb k k') eqn:E; simpl; rewrite E; [reflexivity | exact IH].
Qed.

Lemma dict_get_update_neq (v0 : V) (k k' : K) (f : V -> V) (d : dict K V) :
  k' <> k ->
  dict_get K_eqb (dict_update K_eqb v0 k f d) k' = dict_get K_eqb d k'.
Proof.
  intros Hne. induction d as [| [k1 v] d IH]; simpl.
  - rewrite K_eqb_neq by exact Hne. reflexivity.
  - destruct (K_eqb k k1) eqn:E; simpl.
    + apply K_eqb_eq in E. subst k1.
      rewrite K_eqb_neq by exact Hne. reflexivity.
    + rewrite IH. reflexivity.
Qed.

Lemma dict_get_In (d : dict K V) (k : K) (v : V) :
  dict_get K_eqb d k = Some v -> In (k, v) d.
Proof.
  induction d as [| [k' v'] d IH]; simpl; [discriminate |].
  destruct (K_eqb k k') eqn:E.
  - intros H. injection H as ->. apply K_eqb_eq in E. subst. auto.
  - auto.
Qed.

Lemma dict_get_None (d : dict K V) (k : K) :
  dict_get K_eqb d k = None <-> ~ In k (dict_keys d).
Proof.
  induction d as [| [k' v'] d IH]; simpl.
  - tauto.
  - destruct (K_eqb k k') eqn:E.
    + apply K_eqb_eq in E. subst. split; [discriminate | tauto].
    + rewrite IH. split; [| tauto].
      intros H [H1 | H1]; [| tauto].
      subst. rewrite K_eqb_refl in E. discriminate.
Qed.

Lemma dict_get_Some_keys (d : dict K V) (k : K) :
  In k (dict_keys d) <-> exists v, dict_get K_eqb d k = Some v.
Proof.
  destruct (dict_get K_eqb d k) as [v |] eqn:E.
  - split; [eauto |]. intros _.
    apply dict_get_In in E. apply (in_map fst) in E. exact E.
  - split.
    + intros H. apply dict_get_None in E. contradiction.
    + intros [v H]. discriminate.
Qed.

Lemma dict_get_NoDup (d : dict K V) (k : K) (v : V) :
  NoDup (dict_keys d) -> In (k, v) d -> dict_get K_eqb d k = Some v.
Proof.
  induction d as [| [k' v'] d IH]; simpl; [tauto |].
  intros Hnd [H | H].
  - injection H as -> ->. rewrite K_eqb_refl. reflexivity.
  - inversion Hnd as [| ? ? Hnot Hnd']; subst.
    destruct (K_eqb k k') eqn:E.
    + apply K_eqb_eq in E. subst. exfalso. apply Hnot.
      apply (in_map fst) in H. exact H.
    + apply IH; assumption.
Qed.

Lemma dict_keys_update (v0 : V) (k : K) (f : V -> V) (d : dict K V) :
  dict_keys (dict_update K_eqb v0 k f d)
  = if dict_mem K_eqb d k then dict_keys d else dict_keys d ++ [k].
Proof.
  unfold dict_mem.
  induction d as [| [k' v] d IH]; simpl; [reflexivity |].
  destruct (K_eqb k k') eqn:E; simpl; [reflexivity |].
  rewrite IH. destruct (dict_get K_eqb d k); reflexivity.
Qed.

Lemma dict_keys_update_NoDup (v0 : V) (k : K) (f : V -> V) (d : dict K V) :
  NoDup (dict_keys d) -> NoDup (dict_keys (dict_update K_eqb v0 k f d)).
Proof.
  intros Hnd. rewrite dict_keys_update. unfold dict_mem.
  destruct (dict_get K_eqb d k) eqn:E; [exact Hnd |].
  apply dict_get_None in E.
  apply NoDup_app; [exact Hnd | repeat constructor; simpl; tauto |].
  intros x Hx [Hk | []]. subst. contradiction.
Qed.

Section AccumulateFacts.
Variable E : Type.
Variable sel : E -> bool.
Variable key : E -> K.
Variable upd : E -> V -> V.
Variable v0 : V.

Lemma accumulate_get (es : list E) (d : dict K V) (k : K) :
  dict_get K_eqb (accumulate K_eqb sel key upd v0 es d) k
  = match filter (selected K_eqb sel key k) es with
    | [] => dict_get K_eqb d k
    | l => Some (fold_left (fun v e => upd e v) l
                           (dict_get_default K_eqb d k v0))
    end.
Proof.
  revert d. induction es as [| e es IH]; intros d; [reflexivity |].
  unfold accumulate in *. simpl. unfold selected at 1.
  destruct (sel e); simpl.
  - rewrite IH. destruct (K_eqb (key e) k) eqn:E1.
    + apply K_eqb_eq in E1. subst k.
      unfold dict_get_default at 1. rewrite dict_get_update_eq.
      destruct (filter (selected K_eqb sel key (key e)) es); reflexivity.
    + assert (Hne : k <> key e).
      { intros ->. rewrite K_eqb_refl in E1. discriminate. }
      unfold dict_get_default.
      rewrite (dict_get_update_neq _ _ _ Hne). reflexivity.
  - apply IH.
Qed.

Lemma accumulate_NoDup (es : list E) (d : dict K V) :
  NoDup (dict_keys d) ->
  NoDup (dict_keys (accumulate K_eqb sel key upd v0 es d)).
Proof.
  revert d. induction es as [| e es IH]; intros d Hnd; [exact Hnd |].
  unfold accumulate in *. simpl. apply IH.
  destruct (sel e); [apply dict_keys_update_NoDup |]; exact Hnd.
Qed.

Lemma accumulate_keys (es : list E) (k : K) :
  In k (dict_keys (accumulate K_eqb sel key upd v0 es [])) <->
  exists e, In e es /\ sel e = true /\ key e = k.
Proof.
  rewrite dict_get_Some_keys, accumulate_get. simpl.
  destruct (filter (selected K_eqb sel key k) es) as [| e l] eqn:Ef.
  - split; [intros [v H]; discriminate |].
    intros [e [Hin [Hs Hk]]].
    assert (Hf : In e (filter (selected K_eqb sel key k) es)).
    { apply filter_In. split; [exact Hin |]. unfold selected.
      rewrite Hs, Hk, K_eqb_refl. reflexivity. }
    rewrite Ef in Hf. destruct Hf.
  - split; [| eauto]. intros _.
    assert (Hf : In e (filter (selected K_eqb sel key k) es)) by (rewrite Ef; left; reflexivity).
    apply filter_In in Hf. destruct Hf as [Hin Hs].
    unfold selected in Hs. apply andb_true_iff in Hs. destruct Hs as [Hs Hk].
    exists e. repeat split; try assumption. apply K_eqb_eq. exact Hk.
Qed.
End AccumulateFacts.
End DictFacts.

(** ** Sets and keys *)

Section SetFacts.
Variable K : Type.
Variable K_eqb : K -> K -> bool.
Hypothesis K_eqb_eq : forall a b, K_eqb a b = true <-> a = b.

Lemma existsb_K_eqb_In (l : list K) (k : K) :
  existsb (K_eqb k) l = true <-> In k l.
Proof.
  rewrite existsb_exists. split.
  - intros [k' [Hin Hk]]. apply K_eqb_eq in Hk. subst. exact Hin.
  - intros H. exists k. split; [exact H | apply K_eqb_eq; reflexivity].
Qed.

Lemma set_add_In_gen (s : list K) (k x : K) :
  In x (set_add K_eqb s k) <-> In x s \/ x = k.
Proof.
  unfold set_add. destruct (existsb (K_eqb k) s) eqn:E.
  - split; [tauto |]. intros [H | ->]; [exact H |].
    apply existsb_K_eqb_In. exact E.
  - rewrite in_app_iff. simpl. intuition congruence.
Qed.

Lemma set_add_NoDup_gen (s : list K) (k : K) :
  NoDup s -> NoDup (set_add K_eqb s k).
Proof.
  intros Hnd. unfold set_add. destruct (existsb (K_eqb k) s) eqn:E;
    [exact Hnd |].
  apply NoDup_app; [exact Hnd | repeat constructor; simpl; tauto |].
  intros x Hx [<- | []].
  apply existsb_K_eqb_In in Hx. congruence.
Qed.

Lemma set_update_In_gen (l s : list K) (x : K) :
  In x (set_update K_eqb s l) <-> In x s \/ In x l.
Proof.
  unfold set_update. revert s. induction l as [| k l IH]; intros s; simpl.
  - tauto.
  - rewrite IH, set_add_In_gen. intuition congruence.
Qed.

Lemma set_update_NoDup_gen (l s : list K) :
  NoDup s -> NoDup (set_update K_eqb s l).
Proof.
  unfold set_update. revert s. induction l as [| k l IH]; intros s H; simpl.
  - exact H.
  - apply IH, set_add_NoDup_gen, H.
Qed.

Variable V : Type.

Lemma dict_mem_existsb (d : dict K V) (k : K) :
  dict_mem K_eqb d k = existsb (K_eqb k) (dict_keys d).
Proof.
  unfold dict_mem. induction d as [| [k' v] d IH]; simpl; [reflexivity |].
  destruct (K_eqb k k'); [reflexivity | exact IH].
Qed.

(** The keys of a bucketing loop, in order of first appearance. *)
Lemma accumulate_keys_list (E : Type) (sel : E -> bool) (key : E -> K)
    (upd : E -> V -> V) (v0 : V) (es : list E) (d : dict K V) :
  dict_keys (accumulate K_eqb sel key upd v0 es d)
  = set_update K_eqb (dict_keys d) (map key (filter sel es)).
Proof.
  unfold accumulate, set_update. revert d.
  induction es as [| e es IH]; intros d; [reflexivity |].
  cbn [fold_left filter]. destruct (sel e); [| apply IH].
  cbn [map fold_left]. rewrite IH, dict_keys_update, dict_mem_existsb.
  reflexivity.
Qed.

Lemma dict_get_set (d : dict K V) (k k' : K) (v : V) :
  dict_get K_eqb (dict_set K_eqb d k v) k'
  = if K_eqb k' k then Some v else dict_get K_eqb d k'.
Proof.
  unfold dict_set. destruct (K_eqb k' k) eqn:E.
  - apply K_eqb_eq in E. subst k'.
    rewrite (dict_get_update_eq K_eqb K_eqb_eq). reflexivity.
  - apply (dict_get_update_neq K_eqb K_eqb_eq).
    intros ->. rewrite (proj2 (K_eqb_eq k k) eq_refl) in E. discriminate.
Qed.
End SetFacts.

Lemma filter_filter (A : Type) (f g : A -> bool) (l : list A) :
  filter f (filter g l) = filter (fun x => g x && f x) l.
Proof.
  induction l as [| a l IH]; [reflexivity |].
  simpl. destruct (g a); simpl; [destruct (f a) |]; rewrite IH; reflexivity.
Qed.

Lemma existsb_filter (A : Type) (f : A -> bool) (l : list A) :
  existsb f l = match filter f l with [] => false | _ => true end.
Proof.
  induction l as [| a l IH]; [reflexivity |].
  simpl. destruct (f a); [reflexivity | exact IH].
Qed.

(** ** CategoryStatistics *)

Lemma dict_get_map_values (V W : Type) (g : V -> W) (d : dict string V) (c : string) :
  dict_get String.eqb (map (fun item => (fst item, g (snd item))) d) c
  = option_map g (dict_get String.eqb d c).
Proof.
  induction d as [| [k v] d IH]; simpl; [reflexivity |].
  destruct (String.eqb c k); [reflexivity | exact IH].
Qed.

Lemma fold_left_append (E : Type) (f : E -> R) (l : list E) (v : list R) :
  fold_left (fun v e => v ++ [f e]) l v = v ++ map f l.
Proof.
  revert v. induction l as [| e l IH]; simpl; intros v.
  - rewrite app_nil_r. reflexivity.
  - rewrite IH, <- app_assoc. reflexivity.
Qed.

Lemma category_data_accumulate (es : list Expense) :
  category_data es
  = accumulate String.eqb (fun _ => true) category
               (fun e amounts => amounts ++ [amount e]) [] es [].
Proof. reflexivity. Qed.

(** The group of a category holds the amounts of its records, in input
    order; a category without record has no group. *)
Lemma category_data_get (es : list Expense) (c : string) :
  dict_get String.eqb (category_data es) c
  = match amounts_of c es with
    | [] => None
    | l => Some l
    end.
Proof.
  rewrite category_data_accumulate, (accumulate_get String.eqb String.eqb_eq).
  unfold amounts_of.
  change (selected String.eqb (fun _ : Expense => true) category c)
    with (in_category c).
  destruct (filter (in_category c) es) as [| e l]; [reflexivity |].
  rewrite (fold_left_append amount). reflexivity.
Qed.

Lemma category_data_NoDup (es : list Expense) :
  NoDup (dict_keys (category_data es)).
Proof.
  rewrite category_data_accumulate.
  apply (accumulate_NoDup String.eqb String.eqb_eq). constructor.
Qed.

Lemma category_data_In (es : list Expense) (c : string) (l : list R) :
  In (c, l) (category_data es) -> l = amounts_of c es /\ l <> [].
Proof.
  intros H.
  apply (dict_get_NoDup String.eqb String.eqb_eq) in H; [| apply category_data_NoDup].
  rewrite category_data_get in H.
  destruct (amounts_of c es); [discriminate |].
  injection H as <-. split; [reflexivity | discriminate].
Qed.

Lemma np_mean_Ok (l : list R) : l <> [] -> np_mean l = Ok (mean_of l).
Proof.
  intros H. unfold np_mean, mean_of. rewrite py_sum_Rsum.
  destruct l; [contradiction | reflexivity].
Qed.

Lemma np_std_Ok (l : list R) : l <> [] -> np_std l = Ok (population_std l).
Proof.
  intros H. unfold np_std. rewrite (np_mean_Ok H). simpl.
  rewrite np_mean_Ok.
  - simpl. unfold population_std, mean_of at 1.
    rewrite length_map. reflexivity.
  - destruct l; [contradiction | discriminate].
Qed.

Lemma np_median_Ok (l : list R) : l <> [] -> exists m, np_median l = Ok m.
Proof.
  intros H. unfold np_median. destruct l as [| x l]; [contradiction |].
  destruct (Nat.even (length (x :: l))); [| eauto].
  rewrite np_mean_Ok by discriminate. eauto.
Qed.

Lemma population_std_singleton (a : R) : population_std [a] = 0.
Proof.
  unfold population_std, mean_of. simpl.
  replace ((a - (a + 0) / 1) * (a - (a + 0) / 1) + 0) with 0 by (field).
  replace (0 / 1) with 0 by field. apply sqrt_0.
Qed.

(** On a non-empty group [category_stat] answers, with the sum, the count,
    the arithmetic mean and the population standard deviation. *)
Lemma category_stat_Ok (l : list R) :
  l <> [] ->
  category_stat l = Ok (stat_of l)
  /\ s_total (stat_of l) = Rsum l
  /\ s_count (stat_of l) = length l
  /\ s_mean (stat_of l) = mean_of l
  /\ s_std (stat_of l) = population_std l.
Proof.
  intros H.
  destruct (np_median_Ok H) as [med Hmed].
  assert (Hsd : (if (1 <? length l)%nat then np_std l else Ok 0)
                = Ok (population_std l)).
  { destruct l as [| a [| b l]]; [contradiction | |].
    - simpl. rewrite population_std_singleton. reflexivity.
    - change (1 <? length (a :: b :: l))%nat with true. cbv iota.
      apply np_std_Ok. discriminate. }
  assert (Hst : exists mn mx,
             category_stat l
             = Ok (mkCategoryStat (py_sum l) (length l) (mean_of l) med mn mx
                                  (population_std l))).
  { unfold category_stat. rewrite (np_mean_Ok H), Hmed, Hsd.
    destruct l as [| a l]; [contradiction |]. simpl. eauto. }
  destruct Hst as [mn [mx Hst]].
  unfold stat_of. rewrite Hst. simpl. rewrite py_sum_Rsum. auto.
Qed.

(** What [calculate_category_stats] returns: one entry per group, in the
    order in which the categories first occur. *)
Lemma calculate_category_stats_Ok (es : list Expense) :
  calculate_category_stats es
  = Ok (map (fun item => (fst item, stat_of (snd item))) (category_data es)).
Proof.
  unfold calculate_category_stats. destruct es as [| e es]; [reflexivity |].
  apply mapM_Ok. intros [c l] Hin. simpl.
  apply category_data_In in Hin. destruct Hin as [_ Hne].
  destruct (category_stat_Ok Hne) as [-> _]. reflexivity.
Qed.

Lemma calculate_category_stats_get (es : list Expense) (c : string) :
  exists stats,
    calculate_category_stats es = Ok stats
    /\ dict_get String.eqb stats c
       = match amounts_of c es with
         | [] => None
         | l => Some (stat_of l)
         end.
Proof.
  eexists. split; [apply calculate_category_stats_Ok |].
  rewrite dict_get_map_values, category_data_get.
  destruct (amounts_of c es); reflexivity.
Qed.






(** ** OutlierDetector *)

Lemma amounts_of_In (es : list Expense) (e : Expense) :
  In e es -> amounts_of (category e) es <> [].
Proof.
  intros Hin Hnil.
  assert (H : In (amount e) (amounts_of (category e) es)).
  { unfold amounts_of. apply in_map. apply filter_In. split; [exact Hin |].
    unfold in_category. apply String.eqb_refl. }
  rewrite Hnil in H. destruct H.
Qed.

(** The loop of [detect_outliers], run over records of the input. *)
Lemma detect_outliers_loop (es l : list Expense) (acc : list Outlier) :
  (forall e, In e l -> In e es) ->
  fold_left
    (fun outliers expense =>
       match dict_get String.eqb
               (map (fun item => (fst item, stat_of (snd item))) (category_data es))
               (category expense) with
       | None => outliers
       | Some stats =>
           let threshold := s_mean stats + 2 * s_std stats in
           if Rltb threshold (amount expense) then
             outliers ++
               [ {| o_id := expense_id expense;
                    o_date := option_map date_isoformat (expense_date expense);
                    o_category := category expense;
                    o_description := description expense;
                    o_amount := amount expense;
                    o_threshold := threshold;
                    o_mean := s_mean stats;
                    o_std := s_std stats |} ]
           else outliers
       end)
    l acc
  = acc ++ map (outlier_of es) (filter (exceeds_threshold es) l).
Proof.
  revert acc. induction l as [| e l IH]; intros acc Hsub; simpl.
  - rewrite app_nil_r. reflexivity.
  - rewrite IH by (intros; apply Hsub; simpl; auto).
    assert (Hin : In e es) by (apply Hsub; simpl; auto).
    pose proof (amounts_of_In _ _ Hin) as Hne.
    rewrite dict_get_map_values, category_data_get.
    destruct (category_stat_Ok Hne) as [_ [_ [_ [Hmean Hstd]]]].
    destruct (amounts_of (category e) es) as [| a l'] eqn:Ea; [contradiction |].
    simpl. rewrite Hmean, Hstd.
    unfold exceeds_threshold, outlier_threshold. rewrite Ea.
    destruct (Rltb _ (amount e)); simpl.
    + rewrite <- app_assoc. simpl. unfold outlier_of, outlier_threshold.
      rewrite Ea. reflexivity.
    + reflexivity.
Qed.

(** [detect_outliers] reports, in input order, the records above the
    threshold of their category. *)
Lemma detect_outliers_Ok (es : list Expense) :
  detect_outliers es
  = Ok (map (outlier_of es) (filter (exceeds_threshold es) es)).
Proof.
  unfold detect_outliers. destruct es as [| e es]; [reflexivity |].
  rewrite calculate_category_stats_Ok. cbn [bind].
  rewrite detect_outliers_loop by auto. reflexivity.
Qed.

Lemma exceeds_threshold_iff (es : list Expense) (e : Expense) :
  In e (filter (exceeds_threshold es) es)
  <-> In e es /\ outlier_threshold es (category e) < amount e.
Proof.
  rewrite filter_In. unfold exceeds_threshold. rewrite Rltb_true. tauto.
Qed.

(** Four equal amounts and a larger one: the threshold is the larger one. *)
Lemma threshold_four_and_one (a x : R) :
  a <= x ->
  mean_of [a; a; a; a; x] + 2 * population_std [a; a; a; a; x] = x.
Proof.
  intros Hax.
  assert (Hm : mean_of [a; a; a; a; x] = a + (x - a) / 5).
  { unfold mean_of. simpl. field. }
  unfold population_std. rewrite Hm.
  replace (INR (length [a; a; a; a; x])) with 5 by (simpl; lra).
  assert (Hs : Rsum (map (fun y => (y - (a + (x - a) / 5)) * (y - (a + (x - a) / 5)))
                         [a; a; a; a; x]) / 5
               = (2 * (x - a) / 5) * (2 * (x - a) / 5)).
  { simpl. field. }
  rewrite Hs, sqrt_square by lra. field.
Qed.

Lemma outlier_threshold_four_hundreds_and (x : R) :
  100 <= x -> outlier_threshold (four_hundreds_and x) "shopping" = x.
Proof.
  intros Hx. unfold outlier_threshold.
  change (amounts_of "shopping" (four_hundreds_and x)) with [100; 100; 100; 100; x].
  apply threshold_four_and_one. exact Hx.
Qed.

Lemma detect_outliers_four_hundreds_and (x : R) :
  100 <= x -> detect_outliers (four_hundreds_and x) = Ok [].
Proof.
  intros Hx. rewrite detect_outliers_Ok. f_equal.
  assert (Hf : forall e, In e (four_hundreds_and x) ->
                         exceeds_threshold (four_hundreds_and x) e = false).
  { intros e Hin. unfold exceeds_threshold. apply Rltb_false.
    assert (Hc : category e = "shopping" /\ amount e <= x).
    { unfold four_hundreds_and in Hin. simpl in Hin.
      repeat (destruct Hin as [<- | Hin]; [simpl; split; [reflexivity | lra] |]).
      destruct Hin. }
    destruct Hc as [-> Ha].
    rewrite outlier_threshold_four_hundreds_and by exact Hx. exact Ha. }
  rewrite (filter_none _ _ Hf). reflexivity.
Qed.

(** C2 as first stated fails: in the category [100, 100, 100, 100, 501],
    whose threshold is 501 in exact arithmetic, no record valued 501 is
    returned. *)
Lemma outlier_501_not_returned :
  ~ (exists outs o,
        detect_outliers (four_hundreds_and 501) = Ok outs
        /\ In o outs /\ o_amount o = 501).
Proof.
  intros (outs & o & H & Hin & _).
  rewrite detect_outliers_four_hundreds_and in H by lra.
  injection H as <-. destruct Hin.
Qed.

(** ** Categories of a single record *)

Lemma stat_of_singleton (a : R) :
  s_total (stat_of [a]) = a
  /\ s_count (stat_of [a]) = 1%nat
  /\ s_mean (stat_of [a]) = a
  /\ s_median (stat_of [a]) = a
  /\ s_min (stat_of [a]) = a
  /\ s_max (stat_of [a]) = a
  /\ s_std (stat_of [a]) = 0.
Proof.
  unfold stat_of, category_stat, np_mean, np_median, py_min, py_max, py_sum.
  simpl. repeat split; try reflexivity; try lra; try field.
Qed.

(** C5.  When a category has exactly one record in the input,
    CategoryStatistics yields, for that category, std = 0 and
    mean = median = min = max = the record's amount; and OutlierDetector
    reports no record of that category. *)
Theorem sole_record_of_category (es : list Expense) (c : string) (e : Expense) :
  filter (in_category c) es = [e] ->
  exists stats st,
    calculate_category_stats es = Ok stats
    /\ dict_get String.eqb stats c = Some st
    /\ s_std st = 0
    /\ s_mean st = amount e
    /\ s_median st = amount e
    /\ s_min st = amount e
    /\ s_max st = amount e
    /\ exists outs,
        detect_outliers es = Ok outs
        /\ forall o, In o outs -> o_category o <> c.
Proof.
  intros Hsole.
  assert (Ha : amounts_of c es = [amount e]).
  { unfold amounts_of. rewrite Hsole. reflexivity. }
  destruct (calculate_category_stats_get es c) as [stats [Hstats Hget]].
  rewrite Ha in Hget.
  destruct (stat_of_singleton (amount e)) as [_ [_ [Hmean [Hmed [Hmin [Hmax Hstd]]]]]].
  exists stats, (stat_of [amount e]).
  repeat (split; [assumption |]).
  eexists. split; [apply detect_outliers_Ok |].
  intros o Hin Hc.
  apply in_map_iff in Hin. destruct Hin as [e' [<- Hin]].
  apply exceeds_threshold_iff in Hin. destruct Hin as [Hin Hlt].
  simpl in Hc.
  assert (He : In e' (filter (in_category c) es)).
  { apply filter_In. split; [exact Hin |]. unfold in_category.
    rewrite Hc. apply String.eqb_refl. }
  rewrite Hsole in He. destruct He as [<- | []].
  unfold outlier_threshold in Hlt. rewrite Hc, Ha in Hlt.
  destruct (category_stat_Ok (l := [amount e])) as [_ [_ [_ [Hm Hs]]]];
    [discriminate |].
  rewrite <- Hm, <- Hs, Hmean, Hstd in Hlt. lra.
Qed.

(** C5 at a concrete input. *)
Lemma sole_record_of_category_witness :
  filter (in_category "rent")
         [undated "food" 50; undated "rent" 700; undated "food" 60]
  = [undated "rent" 700]
  /\ exists stats st,
      calculate_category_stats
        [undated "food" 50; undated "rent" 700; undated "food" 60] = Ok stats
      /\ dict_get String.eqb stats "rent" = Some st
      /\ s_std st = 0
      /\ s_mean st = amount (undated "rent" 700)
      /\ s_median st = amount (undated "rent" 700)
      /\ s_min st = amount (undated "rent" 700)
      /\ s_max st = amount (undated "rent" 700)
      /\ exists outs,
          detect_outliers
            [undated "food" 50; undated "rent" 700; undated "food" 60] = Ok outs
          /\ forall o, In o outs -> o_category o <> "rent".
Proof.
  split; [reflexivity |].
  apply sole_record_of_category. reflexivity.
Defined.

(** ** DateParser *)

Section DateParserFacts.
Local Open Scope Z_scope.

Lemma digit_char_facts (n : Z) :
  0 <= n <= 9 ->
  digit_value (digit_char n) = Some n
  /\ is_space (digit_char n) = false
  /\ Ascii.eqb "T" (digit_char n) = false
  /\ Ascii.eqb " " (digit_char n) = false.
Proof.
  intros H.
  assert (Hk : (Z.to_nat n < 10)%nat) by lia.
  rewrite <- (Z2Nat.id n) by lia.
  clear H. generalize dependent (Z.to_nat n). intros k Hk.
  do 10 (destruct k as [| k]; [vm_compute; auto |]).
  lia.
Qed.

Lemma valid_ymd_bounds (y m d : Z) :
  valid_ymd y m d = true ->
  1 <= y <= 9999 /\ 1 <= m <= 12 /\ 1 <= d <= 31 /\ d <= days_in_month y m.
Proof.
  unfold valid_ymd, MINYEAR, MAXYEAR. intros H.
  repeat (apply andb_true_iff in H; destruct H as [H ?]).
  assert (Hdim : days_in_month y m <= 31).
  { unfold days_in_month.
    destruct (m =? 2); [destruct (is_leap y); lia |].
    destruct ((m =? 4) || (m =? 6) || (m =? 9) || (m =? 11)); lia. }
  lia.
Qed.



Variable datetime_fromisoformat : string -> outcome datetime.

(** The ISO form of a date parses back to it. *)
Lemma parse_date_isoformat (d : date) :
  valid_date d ->
  parse_date datetime_fromisoformat (PyStr (date_isoformat d)) = Ok d.
Proof.
  destruct d as [y m dd]. unfold valid_date. simpl. intros Hv.
  pose proof (valid_ymd_bounds _ _ _ Hv) as (Hy & Hm & Hd & _).
  unfold date_isoformat. simpl.
  destruct (@digit_char_facts (y / 1000)) as (V1 & S1 & T1 & B1);
    [Z.div_mod_to_equations; lia |].
  destruct (@digit_char_facts (y / 100 mod 10)) as (V2 & S2 & T2 & B2);
    [Z.div_mod_to_equations; lia |].
  destruct (@digit_char_facts (y / 10 mod 10)) as (V3 & S3 & T3 & B3);
    [Z.div_mod_to_equations; lia |].
  destruct (@digit_char_facts (y mod 10)) as (V4 & S4 & T4 & B4);
    [Z.div_mod_to_equations; lia |].
  destruct (@digit_char_facts (m / 10)) as (V5 & S5 & T5 & B5);
    [Z.div_mod_to_equations; lia |].
  destruct (@digit_char_facts (m mod 10)) as (V6 & S6 & T6 & B6);
    [Z.div_mod_to_equations; lia |].
  destruct (@digit_char_facts (dd / 10)) as (V7 & S7 & T7 & B7);
    [Z.div_mod_to_equations; lia |].
  destruct (@digit_char_facts (dd mod 10)) as (V8 & S8 & T8 & B8);
    [Z.div_mod_to_equations; lia |].
  remember (digit_char (y / 1000)) as c1.
  remember (digit_char (y / 100 mod 10)) as c2.
  remember (digit_char (y / 10 mod 10)) as c3.
  remember (digit_char (y mod 10)) as c4.
  remember (digit_char (m / 10)) as c5.
  remember (digit_char (m mod 10)) as c6.
  remember (digit_char (dd / 10)) as c7.
  remember (digit_char (dd mod 10)) as c8.
  unfold parse_date, strip. cbn [lstrip]. rewrite S1.
  cbn [rstrip]. rewrite S1, S2, S3, S4, S5, S6, S7, S8.
  change (is_space "-") with false. cbn [andb is_empty].
  cbn [contains]. rewrite T1, T2, T3, T4, T5, T6, T7, T8.
  rewrite B1, B2, B3, B4, B5, B6, B7, B8.
  change (Ascii.eqb "T" "-") with false. change (Ascii.eqb " " "-") with false.
  cbn [orb].
  unfold date_fromisoformat. cbn [list_ascii_of_string].
  change (Ascii.eqb "-" "-") with true. cbn [andb digits_value].
  rewrite V1, V2, V3, V4, V5, V6, V7, V8.
  replace (10 * (10 * (10 * (10 * 0 + y / 1000) + y / 100 mod 10)
                 + y / 10 mod 10) + y mod 10) with y
    by (Z.div_mod_to_equations; lia).
  replace (10 * (10 * 0 + m / 10) + m mod 10) with m
    by (Z.div_mod_to_equations; lia).
  replace (10 * (10 * 0 + dd / 10) + dd mod 10) with dd
    by (Z.div_mod_to_equations; lia).
  unfold date_new. rewrite Hv. reflexivity.
Qed.

(** A string with a [T] or a space in it never ends in the error of the
    plain branch: the last attempt lets the library's error through. *)
Lemma parse_date_separated_error (s : string) (e : exn) :
  contains "T" (strip s) || contains " " (strip s) = true ->
  parse_date datetime_fromisoformat (PyStr s) = Raise e ->
  e = EmptyDateError
  \/ date_fromisoformat (strip (split_head "T" (strip s))) = Raise e
  \/ date_fromisoformat (strip (split_head " " (strip s))) = Raise e.
Proof.
  unfold parse_date. intros Hc.
  destruct (is_empty (strip s)); [intros H; injection H as <-; auto |].
  destruct (contains "T" (strip s)).
  - destruct (date_fromisoformat (split_head "T" (strip s))); [discriminate |].
    destruct (datetime_fromisoformat _); [discriminate | auto].
  - simpl in Hc. rewrite Hc.
    destruct (date_fromisoformat (split_head " " (strip s))); [discriminate |].
    destruct (datetime_fromisoformat _); [discriminate | auto].
Qed.

(** The plain branch wraps the library's error with the stripped string. *)
Lemma parse_date_plain_error (s : string) (e : exn) :
  is_empty (strip s) = false ->
  contains "T" (strip s) = false ->
  contains " " (strip s) = false ->
  date_fromisoformat (strip s) = Raise e ->
  parse_date datetime_fromisoformat (PyStr s)
  = Raise (DateParseError (strip s) e).
Proof.
  intros H1 H2 H3 H4. unfold parse_date. rewrite H1, H2, H3, H4. reflexivity.
Qed.
End DateParserFacts.


(** C7 on the code.  A malformed date followed by a time: the string has a
    [T] (or a space), every attempt fails, and what [parse_date] raises is
    the library's error on the date part, not the error that carries the
    string; the same date alone is wrapped. *)
Theorem parse_date_error_not_wrapped
    (datetime_fromisoformat : string -> outcome datetime) :
  (forall e, datetime_fromisoformat "2024-13-45T10:00:00" = Raise e ->
             parse_date datetime_fromisoformat (PyStr "2024-13-45T10:00:00")
             = Raise (DateRangeError 2024 13 45))
  /\ (forall e, datetime_fromisoformat "2024-13-45 10:00:00" = Raise e ->
                parse_date datetime_fromisoformat (PyStr "2024-13-45 10:00:00")
                = Raise (DateRangeError 2024 13 45))
  /\ (forall s cause,
         parse_date datetime_fromisoformat (PyStr "2024-13-45T10:00:00")
         <> Raise (DateParseError s cause))
  /\ parse_date datetime_fromisoformat (PyStr "2024-13-45")
     = Raise (DateParseError "2024-13-45" (DateRangeError 2024 13 45)).
Proof.
  repeat split.
  - intros e He. unfold parse_date.
    change (strip "2024-13-45T10:00:00") with "2024-13-45T10:00:00"%string.
    cbv iota beta zeta.
    change (is_empty "2024-13-45T10:00:00") with false.
    change (contains "T" "2024-13-45T10:00:00") with true.
    change (date_fromisoformat (split_head "T" "2024-13-45T10:00:00"))
      with (@Raise date (DateRangeError 2024 13 45)).
    change (replace "Z" "+00:00" "2024-13-45T10:00:00")
      with "2024-13-45T10:00:00"%string.
    cbv iota. rewrite He. reflexivity.
  - intros e He. unfold parse_date.
    change (strip "2024-13-45 10:00:00") with "2024-13-45 10:00:00"%string.
    cbv iota beta zeta.
    change (is_empty "2024-13-45 10:00:00") with false.
    change (contains "T" "2024-13-45 10:00:00") with false.
    change (contains " " "2024-13-45 10:00:00") with true.
    change (date_fromisoformat (split_head " " "2024-13-45 10:00:00"))
      with (@Raise date (DateRangeError 2024 13 45)).
    cbv iota. rewrite He. reflexivity.
  - intros s cause H.
    apply parse_date_separated_error in H; [| reflexivity].
    destruct H as [H | [H | H]]; discriminate H.
Qed.

(** C7 on the code, with a date-time parser at hand. *)
Lemma parse_date_error_not_wrapped_witness :
  datetime_fromisoformat_hms "2024-13-45T10:00:00"
  = Raise (IsoformatError "2024-13-45T10:00:00")
  /\ parse_date datetime_fromisoformat_hms (PyStr "2024-13-45T10:00:00")
     = Raise (DateRangeError 2024 13 45).
Proof.
  split; [reflexivity |].
  exact (proj1 (parse_date_error_not_wrapped datetime_fromisoformat_hms)
               (IsoformatError "2024-13-45T10:00:00") eq_refl).
Defined.

(** ** Month windows *)

Section CalendarFacts.
Local Open Scope Z_scope.

Lemma days_in_month_bounds (y m : Z) : 28 <= days_in_month y m <= 31.
Proof.
  unfold days_in_month.
  destruct (m =? 2); [destruct (is_leap y); lia |].
  destruct ((m =? 4) || (m =? 6) || (m =? 9) || (m =? 11)); lia.
Qed.

Lemma date_add_days_within (y m d : Z) (n : nat) :
  d + Z.of_nat n <= days_in_month y m ->
  date_add_days (mkdate y m d) n = Ok (mkdate y m (d + Z.of_nat n)).
Proof.
  revert d. induction n as [| n IH]; intros d H.
  - simpl. rewrite Z.add_0_r. reflexivity.
  - cbn [date_add_days]. unfold next_day. cbn [year month day].
    replace (d <? days_in_month y m) with true by (symmetry; apply Z.ltb_lt; lia).
    cbn [bind]. rewrite IH by lia. do 2 f_equal. lia.
Qed.

Lemma date_add_days_plus (d : date) (a b : nat) :
  date_add_days d (a + b)
  = (d' <- date_add_days d a ;; date_add_days d' b).
Proof.
  revert d. induction a as [| a IH]; intros d; [reflexivity |].
  cbn [Nat.add date_add_days]. destruct (next_day d); cbn [bind]; auto.
Qed.

(** Thirty-two days after the first of a month is a day of the month
    that follows. *)
Lemma date_add_32_days (y m : Z) :
  1 <= m <= 12 -> ~ (y = 9999 /\ m = 12) -> y <= 9999 ->
  exists d,
    date_add_days (mkdate y m 1) 32
    = Ok (mkdate (fst (following_month y m)) (snd (following_month y m)) d).
Proof.
  intros Hm Hedge Hy.
  pose proof (days_in_month_bounds y m) as Hdim.
  set (a := Z.to_nat (days_in_month y m - 1)).
  set (b := Z.to_nat (32 - days_in_month y m)).
  replace 32%nat with (a + S b)%nat by (subst a b; lia).
  rewrite date_add_days_plus.
  rewrite date_add_days_within by (subst a; lia).
  cbn [bind date_add_days]. unfold next_day. cbn [year month day].
  replace (1 + Z.of_nat a <? days_in_month y m) with false
    by (symmetry; apply Z.ltb_ge; subst a; lia).
  unfold following_month, MAXYEAR.
  destruct (m =? 12) eqn:E12.
  - apply Z.eqb_eq in E12. subst m.
    change (12 <? 12) with false. cbv iota.
    replace (y <? 9999) with true by (symmetry; apply Z.ltb_lt; lia).
    cbn [bind fst snd].
    pose proof (days_in_month_bounds (y + 1) 1).
    rewrite date_add_days_within by (subst b; lia). eauto.
  - apply Z.eqb_neq in E12.
    replace (m <? 12) with true by (symmetry; apply Z.ltb_lt; lia).
    cbn [bind fst snd].
    pose proof (days_in_month_bounds y (m + 1)).
    rewrite date_add_days_within by (subst b; lia). eauto.
Qed.

Lemma date_new_first (y m : Z) :
  1 <= y <= 9999 -> 1 <= m <= 12 -> date_new y m 1 = Ok (mkdate y m 1).
Proof.
  intros Hy Hm. unfold date_new, valid_ymd, MINYEAR, MAXYEAR.
  pose proof (days_in_month_bounds y m).
  replace (1 <=? y) with true by (symmetry; apply Z.leb_le; lia).
  replace (y <=? 9999) with true by (symmetry; apply Z.leb_le; lia).
  replace (1 <=? m) with true by (symmetry; apply Z.leb_le; lia).
  replace (m <=? 12) with true by (symmetry; apply Z.leb_le; lia).
  replace (1 <=? days_in_month y m) with true by (symmetry; apply Z.leb_le; lia).
  reflexivity.
Qed.

Lemma date_new_Ok_inv (y m d : Z) (r : date) :
  date_new y m d = Ok r ->
  r = mkdate y m d /\ 1 <= y <= 9999 /\ 1 <= m <= 12.
Proof.
  unfold date_new. destruct (valid_ymd y m d) eqn:E; [| discriminate].
  intros H. injection H as <-. apply valid_ymd_bounds in E.
  split; [reflexivity | lia].
Qed.

(** The day before the first of the month that follows is the last day of
    the month. *)
Lemma last_day_of_month (y m : Z) :
  1 <= y -> 1 <= m <= 12 ->
  prev_day (mkdate (fst (following_month y m)) (snd (following_month y m)) 1)
  = Ok (mkdate y m (days_in_month y m)).
Proof.
  intros Hy Hm. unfold prev_day, following_month, MINYEAR.
  destruct (m =? 12) eqn:E12; cbn [fst snd year month day].
  - apply Z.eqb_eq in E12. subst m.
    change (1 <? 1) with false. cbv iota.
    replace (1 <? y + 1) with true by (symmetry; apply Z.ltb_lt; lia).
    replace (y + 1 - 1) with y by lia. reflexivity.
  - apply Z.eqb_neq in E12.
    change (1 <? 1) with false. cbv iota.
    replace (1 <? m + 1) with true by (symmetry; apply Z.ltb_lt; lia).
    replace (m + 1 - 1) with m by lia. reflexivity.
Qed.

(** The four bounds [calculate_mom_growth] computes. *)
Lemma month_windows_Ok (ref : date) :
  windows_exist ref ->
  month_windows ref
  = Ok (mkdate (fst (previous_month (year ref) (month ref)))
               (snd (previous_month (year ref) (month ref))) 1,
        mkdate (fst (previous_month (year ref) (month ref)))
               (snd (previous_month (year ref) (month ref)))
               (days_in_month (fst (previous_month (year ref) (month ref)))
                              (snd (previous_month (year ref) (month ref)))),
        mkdate (year ref) (month ref) 1,
        mkdate (year ref) (month ref) (days_in_month (year ref) (month ref))).
Proof.
  destruct ref as [y m d]. unfold windows_exist. cbn [year month].
  intros (Hy & Hm & Hfirst & Hlast).
  unfold month_windows. cbn [year month].
  rewrite (date_new_first Hy Hm). cbn [bind].
  destruct (date_add_32_days Hm Hlast (proj2 Hy)) as [d32 H32].
  assert (Hfoll : 1 <= fst (following_month y m) <= 9999
                  /\ 1 <= snd (following_month y m) <= 12).
  { unfold following_month. destruct (m =? 12) eqn:E; cbn [fst snd].
    - apply Z.eqb_eq in E. lia.
    - apply Z.eqb_neq in E. lia. }
  assert (Hend : (current_end <- date_add_days (mkdate y m 1) 32 ;;
                  first <- date_new (year current_end) (month current_end) 1 ;;
                  date_sub_days first 1)
                 = Ok (mkdate y m (days_in_month y m))).
  { rewrite H32. cbn [bind year month].
    rewrite (date_new_first (proj1 Hfoll) (proj2 Hfoll)). cbn [bind date_sub_days].
    rewrite last_day_of_month by lia. reflexivity. }
  unfold previous_month. destruct (m =? 1) eqn:E1.
  - apply Z.eqb_eq in E1. subst m. cbn [fst snd].
    assert (Hy1 : 1 <= y - 1 <= 9999) by lia.
    rewrite (date_new_first Hy1 (m := 12)) by lia. cbn [bind].
    replace (date_new (y - 1) 12 31) with (Ok (mkdate (y - 1) 12 31)).
    2:{ unfold date_new, valid_ymd, MINYEAR, MAXYEAR.
        replace (1 <=? y - 1) with true by (symmetry; apply Z.leb_le; lia).
        replace (y - 1 <=? 9999) with true by (symmetry; apply Z.leb_le; lia).
        reflexivity. }
    cbn [bind fst snd].
    destruct (date_add_days (mkdate y 1 1) 32) as [ce |]; [| discriminate Hend].
    cbn [bind] in *.
    destruct (date_new (year ce) (month ce) 1) as [f |]; [| discriminate Hend].
    cbn [bind] in *. rewrite Hend. reflexivity.
  - apply Z.eqb_neq in E1. cbn [fst snd].
    assert (Hm1 : 1 <= m - 1 <= 12) by lia.
    rewrite (date_new_first Hy Hm1). cbn [bind date_sub_days].
    cbn [date_sub_days] in Hend.
    unfold prev_day at 1. cbn [year month day].
    change (1 <? 1) with false. cbv iota.
    replace (1 <? m) with true by (symmetry; apply Z.ltb_lt; lia).
    cbn [bind fst snd].
    destruct (date_add_days (mkdate y m 1) 32) as [ce |]; [| discriminate Hend].
    cbn [bind] in *.
    destruct (date_new (year ce) (month ce) 1) as [f |]; [| discriminate Hend].
    cbn [bind] in *. rewrite Hend. reflexivity.
Qed.

(** The bounds exist for no other reference month. *)
Lemma month_windows_Ok_inv (ref : date) (w : date * date * date * date) :
  month_windows ref = Ok w -> windows_exist ref.
Proof.
  destruct ref as [y m d]. unfold month_windows, windows_exist.
  cbn [year month]. intros H.
  apply bind_Ok_inv in H. destruct H as [cs [Hcs H]].
  apply date_new_Ok_inv in Hcs. destruct Hcs as [-> [Hy Hm]].
  apply bind_Ok_inv in H. destruct H as [prev [Hprev H]].
  apply bind_Ok_inv in H. destruct H as [ce [Hce _]].
  repeat split; try lia.
  - intros [-> ->]. discriminate Hprev.
  - intros [-> ->]. vm_compute in Hce. discriminate Hce.
Qed.
End CalendarFacts.

(** ** GrowthAnalyzer *)

Lemma set_update_In (l s : list string) (x : string) :
  In x (set_update String.eqb s l) <-> In x s \/ In x l.
Proof. apply (set_update_In_gen String.eqb String.eqb_eq). Qed.

Lemma set_update_NoDup (l s : list string) :
  NoDup s -> NoDup (set_update String.eqb s l).
Proof. apply (set_update_NoDup_gen String.eqb String.eqb_eq). Qed.

Lemma dict_get_map_keys (V : Type) (f : string -> V) (l : list string) (c : string) :
  dict_get String.eqb (map (fun k => (k, f k)) l) c
  = if existsb (String.eqb c) l then Some (f c) else None.
Proof.
  induction l as [| k l IH]; simpl; [reflexivity |].
  destruct (String.eqb c k) eqn:E; simpl.
  - apply String.eqb_eq in E. subst. reflexivity.
  - exact IH.
Qed.

Lemma existsb_eqb_In (l : list string) (c : string) :
  existsb (String.eqb c) l = true <-> In c l.
Proof. apply (existsb_K_eqb_In String.eqb String.eqb_eq). Qed.

Lemma fold_left_add (l : list Expense) (a : R) :
  fold_left (fun v e => v + amount e) l a = a + Rsum (map amount l).
Proof.
  revert a. induction l as [| e l IH]; intros a; simpl; [lra |].
  rewrite IH. lra.
Qed.

(** The entry of a category in a bucket is the total of the selected
    records of the category. *)
Lemma bucket_total (sel : Expense -> bool) (es : list Expense) (c : string) :
  dict_get_default String.eqb
    (accumulate String.eqb sel category (fun e t => t + amount e) 0 es []) c 0
  = Rsum (map amount (filter (fun e => sel e && in_category c e) es)).
Proof.
  unfold dict_get_default. rewrite (accumulate_get String.eqb String.eqb_eq).
  change (selected String.eqb sel category c)
    with (fun e => sel e && in_category c e).
  destruct (filter (fun e => sel e && in_category c e) es) as [| e l];
    [reflexivity |].
  rewrite fold_left_add. unfold dict_get_default. simpl. lra.
Qed.

Lemma bucket_keys (sel : Expense -> bool) (es : list Expense) (c : string) :
  In c (dict_keys (accumulate String.eqb sel category
                              (fun e t => t + amount e) 0 es []))
  <-> exists e, In e es /\ sel e = true /\ category e = c.
Proof. apply (accumulate_keys String.eqb String.eqb_eq). Qed.

Lemma in_month_iff (y m : Z) (d : date) :
  in_month y m d = true
  <-> (year d = y /\ month d = m /\ 1 <= day d <= days_in_month y m)%Z.
Proof.
  unfold in_month, date_leb. cbn [year month day].
  rewrite !andb_true_iff, !orb_true_iff, !andb_true_iff, !orb_true_iff,
    !andb_true_iff, !Z.ltb_lt, !Z.eqb_eq, !Z.leb_le.
  lia.
Qed.

(** For a date of the calendar, lying in a month is having its year and
    its month. *)
Lemma in_month_valid_date (y m : Z) (d : date) :
  valid_date d ->
  (in_month y m d = true <-> year d = y /\ month d = m).
Proof.
  intros Hv. rewrite in_month_iff.
  apply valid_ymd_bounds in Hv. split; [tauto |].
  intros [<- <-]. lia.
Qed.

Lemma previous_month_differs (y m : Z) :
  (fst (previous_month y m) = y /\ snd (previous_month y m) = m)%Z -> False.
Proof.
  unfold previous_month. destruct (m =? 1)%Z eqn:E; cbn [fst snd]; lia.
Qed.

(** The two windows do not overlap, so the [elif] loses no record of the
    current month. *)
Lemma in_current_bucket_eq (y m : Z) (e : Expense) :
  in_current_bucket y m e = dated_in_month y m e.
Proof.
  unfold in_current_bucket, in_previous_bucket, dated_in_month.
  destruct (expense_date e) as [d |]; [| reflexivity].
  destruct (in_month y m d) eqn:Ec; [| apply andb_false_r].
  destruct (in_month (fst (previous_month y m)) (snd (previous_month y m)) d)
    eqn:Ep; [| reflexivity].
  apply in_month_iff in Ec. apply in_month_iff in Ep.
  exfalso. apply (@previous_month_differs y m). lia.
Qed.

(** The bucketing loop fills two independent buckets. *)
Lemma mom_bucket_fold (y m : Z) (es : list Expense) (cd pd : dict string R) :
  fold_left
    (mom_bucket
       (mkdate (fst (previous_month y m)) (snd (previous_month y m)) 1,
        mkdate (fst (previous_month y m)) (snd (previous_month y m))
               (days_in_month (fst (previous_month y m))
                              (snd (previous_month y m))),
        mkdate y m 1,
        mkdate y m (days_in_month y m)))
    es (cd, pd)
  = (accumulate String.eqb (in_current_bucket y m) category
                (fun e t => t + amount e) 0 es cd,
     accumulate String.eqb (in_previous_bucket y m) category
                (fun e t => t + amount e) 0 es pd).
Proof.
  revert cd pd. induction es as [| e es IH]; intros cd pd; [reflexivity |].
  unfold accumulate in *. cbn [fold_left].
  unfold mom_bucket at 2, in_current_bucket, in_previous_bucket, dated_in_month.
  destruct (expense_date e) as [d |]; [| apply IH].
  fold (in_month (fst (previous_month y m)) (snd (previous_month y m)) d).
  fold (in_month y m d).
  destruct (in_month (fst (previous_month y m)) (snd (previous_month y m)) d);
    cbn [negb andb fst snd]; [apply IH |].
  destruct (in_month y m d); apply IH.
Qed.

Lemma mom_rate_Ok (prev cur : R) : mom_rate prev cur = Ok (growth_of prev cur).
Proof.
  unfold mom_rate, growth_of, py_div.
  destruct (Reqb prev 0); [destruct (Rltb 0 cur); reflexivity |].
  reflexivity.
Qed.

Lemma month_total_nonneg (es : list Expense) (y m : Z) (c : string) :
  Forall (fun e => 0 <= amount e) es -> 0 <= month_total es y m c.
Proof.
  intros H. unfold month_total. apply Rsum_nonneg.
  apply Forall_forall. intros x Hx.
  apply in_map_iff in Hx. destruct Hx as [e [<- He]].
  apply filter_In in He. destruct He as [He _].
  rewrite Forall_forall in H. apply H, He.
Qed.

Lemma month_total_no_record (es : list Expense) (y m : Z) (c : string) :
  ~ has_record_in_month es y m c -> month_total es y m c = 0.
Proof.
  intros H. unfold month_total. rewrite filter_none; [reflexivity |].
  intros e Hin. destruct (dated_in_month y m e) eqn:Ed; [| reflexivity].
  unfold in_category. destruct (String.eqb (category e) c) eqn:Ec; [| reflexivity].
  exfalso. apply H. exists e. apply String.eqb_eq in Ec. auto.
Qed.

(** What [calculate_mom_growth] returns: one entry per category of the two
    buckets, computed from the two monthly totals. *)
Lemma calculate_mom_growth_Ok (today : date) (es : list Expense)
    (current_month : option date) :
  let ref := match current_month with Some d => d | None => today end in
  let y := year ref in
  let m := month ref in
  let py := fst (previous_month y m) in
  let pm := snd (previous_month y m) in
  es = [] \/ windows_exist ref ->
  exists cats,
    calculate_mom_growth today es current_month
    = Ok (map (fun c => (c, growth_of (month_total es py pm c)
                                      (month_total es y m c))) cats)
    /\ forall c, In c cats
                 <-> has_record_in_month es py pm c \/ has_record_in_month es y m c.
Proof.
  intros ref. cbv zeta. intros Hcase.
  destruct es as [| e0 es0].
  { exists []. split; [reflexivity |]. intros c. split; [intros [] |].
    intros [[e [[] _]] | [e [[] _]]]. }
  destruct Hcase as [Hnil | Hw]; [discriminate |].
  unfold calculate_mom_growth. fold ref.
  rewrite (month_windows_Ok Hw). cbn [bind].
  rewrite mom_bucket_fold. cbn [fst snd].
  set (y := year ref). set (m := month ref).
  set (es := e0 :: es0).
  set (cur := accumulate String.eqb (in_current_bucket y m) category
                         (fun e t => t + amount e) 0 es []).
  set (prev := accumulate String.eqb (in_previous_bucket y m) category
                          (fun e t => t + amount e) 0 es []).
  exists (set_update String.eqb [] (dict_keys cur ++ dict_keys prev)).
  split.
  - apply mapM_Ok. intros c _. rewrite mom_rate_Ok. cbn [bind].
    subst cur prev. rewrite !bucket_total. do 3 f_equal.
    unfold month_total. f_equal. f_equal. apply filter_ext.
    intros e. rewrite in_current_bucket_eq. reflexivity.
  - intros c. rewrite set_update_In, in_app_iff. subst cur prev.
    rewrite !bucket_keys. unfold has_record_in_month.
    split.
    + intros [[] | [[e [Hin [Hs Hc]]] | [e [Hin [Hs Hc]]]]].
      * right. exists e. rewrite in_current_bucket_eq in Hs. auto.
      * left. exists e. auto.
    + intros [[e [Hin [Hs Hc]]] | [e [Hin [Hs Hc]]]].
      * right. right. exists e. auto.
      * right. left. exists e. rewrite in_current_bucket_eq. auto.
Qed.

Lemma calculate_mom_growth_inv (today : date) (es : list Expense)
    (current_month : option date) (g : dict string growth) :
  let ref := match current_month with Some d => d | None => today end in
  let y := year ref in
  let m := month ref in
  let py := fst (previous_month y m) in
  let pm := snd (previous_month y m) in
  calculate_mom_growth today es current_month = Ok g ->
  exists cats,
    g = map (fun c => (c, growth_of (month_total es py pm c)
                                    (month_total es y m c))) cats
    /\ forall c, In c cats
                 <-> has_record_in_month es py pm c \/ has_record_in_month es y m c.
Proof.
  intros ref. cbv zeta. intros Hg.
  assert (Hcase : es = [] \/ windows_exist ref).
  { destruct es as [| e0 es0]; [left; reflexivity | right].
    unfold calculate_mom_growth in Hg. fold ref in Hg.
    apply bind_Ok_inv in Hg. destruct Hg as [w [Hw _]].
    apply (month_windows_Ok_inv _ Hw). }
  destruct (@calculate_mom_growth_Ok today es current_month Hcase) as [cats [H1 H2]].
  exists cats. split; [| exact H2].
  fold ref in H1. rewrite H1 in Hg. injection Hg as <-. reflexivity.
Qed.

(** C3.  GrowthAnalyzer returns a mapping for every reference month whose
    windows exist.  Whatever mapping it returns holds, for each category
    with a record in the previous or the current month: the sentinel when
    the previous total is zero and the current one positive; 0 when both are
    zero; (current - previous) / previous x 100 otherwise, which for
    previous = 200 and current = 150 is -25.  Other categories have no
    entry.  With non-negative amounts the totals are non-negative, so the
    three cases are all the cases. *)
Theorem mom_growth_per_category (today : date) (es : list Expense)
    (current_month : option date) :
  let ref := match current_month with Some d => d | None => today end in
  let y := year ref in
  let m := month ref in
  let py := fst (previous_month y m) in
  let pm := snd (previous_month y m) in
  (windows_exist ref ->
   exists g, calculate_mom_growth today es current_month = Ok g)
  /\ forall g,
      calculate_mom_growth today es current_month = Ok g ->
      forall c,
        let prev := month_total es py pm c in
        let cur := month_total es y m c in
        (has_record_in_month es py pm c \/ has_record_in_month es y m c ->
         (prev = 0 -> 0 < cur -> dict_get String.eqb g c = Some Infinity)
         /\ (prev = 0 -> cur = 0 -> dict_get String.eqb g c = Some (Percent 0))
         /\ (prev <> 0 ->
             dict_get String.eqb g c
             = Some (Percent ((cur - prev) / prev * 100)))
         /\ (prev = 200 -> cur = 150 ->
             dict_get String.eqb g c = Some (Percent (-25))))
        /\ (~ (has_record_in_month es py pm c \/ has_record_in_month es y m c) ->
            dict_get String.eqb g c = None)
        /\ (Forall (fun e => 0 <= amount e) es -> 0 <= prev /\ 0 <= cur).
Proof.
  intros ref. cbv zeta. split.
  - intros Hw.
    destruct (@calculate_mom_growth_Ok today es current_month (or_intror Hw))
      as [cats [H _]].
    eauto.
  - intros g Hg c.
    destruct (calculate_mom_growth_inv _ _ _ Hg) as [cats [-> Hcats]].
    unfold ref in *. clear ref. rewrite dict_get_map_keys.
    split; [| split].
    + intros Hrec. apply Hcats in Hrec. apply existsb_eqb_In in Hrec.
      rewrite Hrec. unfold growth_of.
      repeat split.
      * intros Hp Hc. rewrite (proj2 (Reqb_true _ _) Hp).
        rewrite (proj2 (Rltb_true _ _) Hc). reflexivity.
      * intros Hp Hc. rewrite (proj2 (Reqb_true _ _) Hp).
        rewrite (proj2 (Rltb_false _ _)) by lra. reflexivity.
      * intros Hp. rewrite (proj2 (Reqb_false _ _) Hp). reflexivity.
      * intros Hp Hc. rewrite (proj2 (Reqb_false _ _)) by lra.
        rewrite Hp, Hc. do 2 f_equal. field.
    + intros Hno.
      destruct (existsb (String.eqb c) cats) eqn:E; [| reflexivity].
      apply existsb_eqb_In in E. apply Hcats in E. contradiction.
    + intros Hpos. split; apply month_total_nonneg; exact Hpos.
Qed.

(** C3 at a concrete input: 200 in January 2024 and 150 in February 2024,
    reference month February 2024. *)
Lemma mom_growth_per_category_witness :
  windows_exist (mkdate 2024 2 15)
  /\ exists g,
      calculate_mom_growth (mkdate 2024 6 1)
        [dated 2024 1 10 "food" 200; dated 2024 2 10 "food" 150]
        (Some (mkdate 2024 2 15)) = Ok g
      /\ dict_get String.eqb g "food" = Some (Percent (-25)).
Proof.
  assert (Hw : windows_exist (mkdate 2024 2 15)).
  { unfold windows_exist. simpl. lia. }
  split; [exact Hw |].
  destruct (mom_growth_per_category (mkdate 2024 6 1)
              [dated 2024 1 10 "food" 200; dated 2024 2 10 "food" 150]
              (Some (mkdate 2024 2 15))) as [Htotal Hvalues].
  destruct (Htotal Hw) as [g Hg].
  exists g. split; [exact Hg |].
  apply (Hvalues g Hg "food").
  - left. exists (dated 2024 1 10 "food" 200). simpl. auto.
  - unfold month_total.
    change (filter _ _) with [dated 2024 1 10 "food" 200]. simpl. lra.
  - unfold month_total.
    change (filter _ _) with [dated 2024 2 10 "food" 150]. simpl. lra.
Defined.

(** C10.  With non-negative amounts, every numeric value of the mapping
    GrowthAnalyzer returns is at least -100 (and it returns a mapping for
    every reference month whose windows exist). *)
Theorem mom_growth_at_least_minus_100 (today : date) (es : list Expense)
    (current_month : option date) :
  Forall (fun e => 0 <= amount e) es ->
  (windows_exist (match current_month with Some d => d | None => today end) ->
   exists g, calculate_mom_growth today es current_month = Ok g)
  /\ forall g,
      calculate_mom_growth today es current_month = Ok g ->
      forall c p, In (c, Percent p) g -> -100 <= p.
Proof.
  intros Hpos. split.
  - intros Hw.
    destruct (@calculate_mom_growth_Ok today es current_month (or_intror Hw))
      as [cats [H _]].
    eauto.
  - intros g Hg c p Hin.
    destruct (calculate_mom_growth_inv _ _ _ Hg) as [cats [-> _]].
    apply in_map_iff in Hin. destruct Hin as [c' [Heq _]].
    injection Heq as -> Hgrowth.
    set (ref := match current_month with Some d => d | None => today end) in *.
    pose proof (month_total_nonneg (year ref) (month ref) c Hpos) as Hcur.
    pose proof (month_total_nonneg (fst (previous_month (year ref) (month ref)))
                  (snd (previous_month (year ref) (month ref))) c Hpos) as Hprev.
    revert Hgrowth Hcur Hprev.
    generalize (month_total es (year ref) (month ref) c) as cur.
    generalize (month_total es (fst (previous_month (year ref) (month ref)))
                  (snd (previous_month (year ref) (month ref))) c) as prev.
    intros prev cur Hgrowth Hcur Hprev.
    unfold growth_of in Hgrowth.
    destruct (Reqb prev 0) eqn:E.
    + destruct (Rltb 0 cur); [discriminate |].
      injection Hgrowth as <-. lra.
    + apply Reqb_false in E. injection Hgrowth as <-.
      assert (Hp : 0 < prev) by lra.
      assert (Hq : 0 <= cur / prev).
      { unfold Rdiv. apply Rmult_le_pos; [exact Hcur |].
        left. apply Rinv_0_lt_compat. exact Hp. }
      replace ((cur - prev) / prev * 100) with (cur / prev * 100 - 100)
        by (field; lra).
      lra.
Qed.

(** C10 at a concrete input: the category vanishes in the current month. *)
Lemma mom_growth_at_least_minus_100_witness :
  Forall (fun e => 0 <= amount e)
         [dated 2024 1 10 "food" 200; dated 2024 2 10 "rent" 700]
  /\ windows_exist (mkdate 2024 2 15)
  /\ exists g,
      calculate_mom_growth (mkdate 2024 6 1)
        [dated 2024 1 10 "food" 200; dated 2024 2 10 "rent" 700]
        (Some (mkdate 2024 2 15)) = Ok g
      /\ forall c p, In (c, Percent p) g -> -100 <= p.
Proof.
  assert (Hpos : Forall (fun e => 0 <= amount e)
                        [dated 2024 1 10 "food" 200; dated 2024 2 10 "rent" 700]).
  { repeat constructor; simpl; lra. }
  assert (Hw : windows_exist (mkdate 2024 2 15)).
  { unfold windows_exist. simpl. lia. }
  split; [exact Hpos | split; [exact Hw |]].
  destruct (mom_growth_at_least_minus_100 (mkdate 2024 6 1)
              (Some (mkdate 2024 2 15)) Hpos) as [Htotal Hvalues].
  destruct (Htotal Hw) as [g Hg].
  exists g. split; [exact Hg | exact (Hvalues g Hg)].
Defined.

(** ** Least squares *)

Section LeastSquares.
Variable pts : list (Z * R).

Let n : R := INR (length pts).
Let X : R := Rsum (xs_of pts).
Let Y : R := Rsum (ys_of pts).
Let Q : R := Rsum (map (fun p => IZR (fst p) * IZR (fst p)) pts).
Let P : R := Rsum (map (fun p => IZR (fst p) * snd p) pts).

Lemma sum_residuals (a b : R) :
  Rsum (map (fun p => snd p - (a + b * IZR (fst p))) pts)
  = Y - n * a - b * X.
Proof.
  subst n X Y. unfold xs_of, ys_of.
  induction pts as [| p l IH]; [simpl; ring |].
  cbn [map Rsum length]. rewrite IH, S_INR. ring.
Qed.

Lemma sum_residuals_x (a b : R) :
  Rsum (map (fun p => (snd p - (a + b * IZR (fst p))) * IZR (fst p)) pts)
  = P - a * X - b * Q.
Proof.
  subst P X Q. unfold xs_of.
  induction pts as [| p l IH]; [simpl; ring |].
  cbn [map Rsum]. rewrite IH. ring.
Qed.

Lemma sxx_expand (m : R) :
  Rsum (map (fun p => (IZR (fst p) - m) * (IZR (fst p) - m)) pts)
  = Q - 2 * m * X + n * (m * m).
Proof.
  subst Q X n. unfold xs_of.
  induction pts as [| p l IH]; [simpl; ring |].
  cbn [map Rsum length]. rewrite IH, S_INR. ring.
Qed.

Lemma sxy_expand (m m' : R) :
  Rsum (map (fun p => (IZR (fst p) - m) * (snd p - m')) pts)
  = P - m' * X - m * Y + n * (m * m').
Proof.
  subst P X Y n. unfold xs_of, ys_of.
  induction pts as [| p l IH]; [simpl; ring |].
  cbn [map Rsum length]. rewrite IH, S_INR. ring.
Qed.

(** Moving from the line (a, b) to the line (a', b'). *)
Lemma squared_error_shift (a b a' b' : R) :
  squared_error pts a' b'
  = squared_error pts a b
    + 2 * (a - a') * Rsum (map (fun p => snd p - (a + b * IZR (fst p))) pts)
    + 2 * (b - b')
      * Rsum (map (fun p => (snd p - (a + b * IZR (fst p))) * IZR (fst p)) pts)
    + Rsum (map (fun p => ((a - a') + (b - b') * IZR (fst p))
                          * ((a - a') + (b - b') * IZR (fst p))) pts).
Proof.
  unfold squared_error.
  induction pts as [| p l IH]; [simpl; ring |].
  cbn [map Rsum]. rewrite IH. ring.
Qed.

Lemma Rsum_squares_nonneg (A : Type) (f : A -> R) (l : list A) :
  0 <= Rsum (map (fun p => f p * f p) l).
Proof.
  induction l as [| p l IH]; simpl; [lra |].
  pose proof (Rle_0_sqr (f p)) as H. unfold Rsqr in H. lra.
Qed.

Lemma Rsum_squares_zero (A : Type) (f : A -> R) (g : A -> R) (l : list A) :
  Rsum (map (fun p => f p * f p) l) = 0 ->
  Rsum (map (fun p => f p * g p) l) = 0.
Proof.
  induction l as [| p l IH]; simpl; [reflexivity |].
  intros H.
  pose proof (Rle_0_sqr (f p)) as H1. unfold Rsqr in H1.
  pose proof (Rsum_squares_nonneg f l) as H2.
  assert (H3 : f p * f p = 0) by lra.
  assert (H4 : f p = 0) by (apply Rsqr_0_uniq; exact H3).
  rewrite IH by lra. rewrite H4. ring.
Qed.

Hypothesis nonempty : pts <> [].

Lemma n_positive : 0 < n.
Proof.
  subst n. destruct pts; [contradiction |].
  apply lt_0_INR. simpl. lia.
Qed.

Lemma mean_xs : mean_of (xs_of pts) = X / n.
Proof. unfold mean_of, xs_of. rewrite length_map. reflexivity. Qed.

Lemma mean_ys : mean_of (ys_of pts) = Y / n.
Proof. unfold mean_of, ys_of. rewrite length_map. reflexivity. Qed.

(** The normal equations of the fitted line. *)
Lemma ols_residuals_sum :
  Rsum (map (fun p => snd p - (ols_intercept pts + ols_slope pts * IZR (fst p))) pts)
  = 0.
Proof.
  rewrite sum_residuals. unfold ols_intercept. rewrite mean_xs, mean_ys.
  pose proof n_positive. field. lra.
Qed.

Lemma ols_residuals_x_sum :
  Rsum (map (fun p => (snd p - (ols_intercept pts + ols_slope pts * IZR (fst p)))
                      * IZR (fst p)) pts)
  = 0.
Proof.
  rewrite sum_residuals_x.
  pose proof n_positive as Hn.
  assert (Hxx : sxx pts = Q - X * X / n).
  { unfold sxx. rewrite sxx_expand, mean_xs. field. lra. }
  assert (Hxy : sxy pts = P - X * Y / n).
  { unfold sxy. rewrite sxy_expand, mean_xs, mean_ys. field. lra. }
  transitivity (sxy pts - ols_slope pts * sxx pts).
  { unfold ols_intercept. rewrite mean_xs, mean_ys, Hxx, Hxy. field. lra. }
  unfold ols_slope. destruct (Reqb (sxx pts) 0) eqn:E.
  - apply Reqb_true in E. rewrite E.
    unfold sxx in E. unfold sxy.
    rewrite (Rsum_squares_zero
               (fun p => IZR (fst p) - mean_of (xs_of pts))
               (fun p => snd p - mean_of (ys_of pts)) pts E).
    ring.
  - apply Reqb_false in E. field. exact E.
Qed.

(** No line has a smaller sum of squared residuals than the fitted one. *)
Lemma ols_minimises (a b : R) :
  squared_error pts (ols_intercept pts) (ols_slope pts)
  <= squared_error pts a b.
Proof.
  rewrite (squared_error_shift (ols_intercept pts) (ols_slope pts) a b).
  rewrite ols_residuals_sum, ols_residuals_x_sum.
  pose proof (Rsum_squares_nonneg
                (fun p => (ols_intercept pts - a)
                          + (ols_slope pts - b) * IZR (fst p)) pts).
  lra.
Qed.

(** What the regression of the code fits and predicts. *)
Lemma linear_regression_fit_Ok :
  exists model,
    linear_regression_fit (map fst pts) (map snd pts) = Ok model
    /\ forall t, linear_regression_predict model t = ols_at pts t.
Proof.
  unfold linear_regression_fit. rewrite !length_map, Nat.eqb_refl.
  assert (Hlen : (length pts =? 0)%nat = false)
    by (destruct pts; [contradiction | reflexivity]).
  rewrite Hlen. cbn [orb negb].
  eexists. split; [reflexivity |].
  intros t. unfold linear_regression_predict, ols_at, ols_intercept, ols_slope.
  cbn [coef_ intercept_]. rewrite !py_sum_Rsum.
  assert (Hx : Rsum (map IZR (map fst pts)) / INR (length pts)
               = mean_of (xs_of pts)).
  { unfold mean_of, xs_of. rewrite !length_map, map_map. reflexivity. }
  assert (Hy : Rsum (map snd pts) / INR (length pts) = mean_of (ys_of pts)).
  { unfold mean_of, ys_of. rewrite length_map. reflexivity. }
  rewrite Hx, Hy.
  assert (Hsxx : Rsum (map (fun x => (x - mean_of (xs_of pts))
                                     * (x - mean_of (xs_of pts)))
                           (map IZR (map fst pts)))
                 = sxx pts).
  { unfold sxx. rewrite !map_map. reflexivity. }
  assert (Hsxy : Rsum (map (fun q => (fst q - mean_of (xs_of pts))
                                     * (snd q - mean_of (ys_of pts)))
                           (combine (map IZR (map fst pts)) (map snd pts)))
                 = sxy pts).
  { unfold sxy. f_equal.
    apply (map_combine_fst_snd
             (fun x y => (x - mean_of (xs_of pts)) * (y - mean_of (ys_of pts)))). }
  rewrite Hsxx, Hsxy. ring.
Qed.
End LeastSquares.

(** ** ExpenseForecaster *)

Lemma month_key_eqb_eq (a b : month_key) : month_key_eqb a b = true <-> a = b.
Proof.
  destruct a as [a1 a2], b as [b1 b2]. unfold month_key_eqb. cbn [fst snd].
  rewrite andb_true_iff, !Z.eqb_eq. split.
  - intros [-> ->]. reflexivity.
  - intros H. injection H as -> ->. auto.
Qed.

Lemma monthly_data_accumulate (es : list Expense) :
  monthly_data es
  = accumulate month_key_eqb is_dated month_key_of
      (fun e month_data =>
         dict_update String.eqb 0 (category e) (fun t => t + amount e) month_data)
      [] es [].
Proof.
  unfold monthly_data, accumulate.
  assert (H : forall d : dict month_key (dict string R),
             fold_left
               (fun md expense =>
                  match expense_date expense with
                  | None => md
                  | Some d =>
                      dict_update month_key_eqb [] (year d, month d)
                        (fun month_data =>
                           dict_update String.eqb 0 (category expense)
                                       (fun t => t + amount expense) month_data)
                        md
                  end) es d
             = fold_left
                 (fun d e =>
                    if is_dated e
                    then dict_update month_key_eqb [] (month_key_of e)
                           (fun month_data =>
                              dict_update String.eqb 0 (category e)
                                          (fun t => t + amount e) month_data) d
                    else d) es d).
  { induction es as [| e es IH]; intros d; [reflexivity |].
    cbn [fold_left]. rewrite IH. unfold is_dated, month_key_of.
    destruct (expense_date e); reflexivity. }
  apply H.
Qed.

Lemma monthly_data_keys (es : list Expense) :
  dict_keys (monthly_data es) = months_of es.
Proof.
  rewrite monthly_data_accumulate.
  apply accumulate_keys_list.
Qed.

Lemma months_of_NoDup (es : list Expense) : NoDup (months_of es).
Proof.
  apply (set_update_NoDup_gen month_key_eqb month_key_eqb_eq). constructor.
Qed.

Lemma months_of_In (es : list Expense) (k : month_key) :
  In k (months_of es) <-> exists e, In e es /\ is_dated e = true /\ month_key_of e = k.
Proof.
  unfold months_of.
  rewrite (set_update_In_gen month_key_eqb month_key_eqb_eq), in_map_iff.
  split.
  - intros [[] | [e [Hk He]]]. apply filter_In in He. exists e. tauto.
  - intros [e [Hin [Hd Hk]]]. right. exists e. split; [exact Hk |].
    apply filter_In. auto.
Qed.

(** The entry of a category in the bucket of a month: the total of the
    category's records of that month, if it has any. *)
Lemma monthly_data_entry (es : list Expense) (k : month_key)
    (month_data : dict string R) (c : string) :
  In (k, month_data) (monthly_data es) ->
  dict_get String.eqb month_data c
  = if existsb (in_bucket k c) es then Some (bucket_total_of es k c) else None.
Proof.
  intros Hin.
  apply (dict_get_NoDup month_key_eqb month_key_eqb_eq) in Hin.
  2:{ rewrite monthly_data_keys. apply months_of_NoDup. }
  rewrite monthly_data_accumulate,
    (accumulate_get month_key_eqb month_key_eqb_eq) in Hin.
  set (L := filter (selected month_key_eqb is_dated month_key_of k) es) in Hin.
  assert (Hmd : month_data
                = accumulate String.eqb (fun _ => true) category
                             (fun e t => t + amount e) 0 L []).
  { destruct L; [discriminate |]. injection Hin as <-. reflexivity. }
  rewrite Hmd, (accumulate_get String.eqb String.eqb_eq).
  change (selected String.eqb (fun _ : Expense => true) category c)
    with (in_category c).
  subst L. rewrite filter_filter.
  change (fun x => selected month_key_eqb is_dated month_key_of k x && in_category c x)
    with (in_bucket k c).
  rewrite existsb_filter. unfold bucket_total_of.
  destruct (filter (in_bucket k c) es) as [| e l]; [reflexivity |].
  rewrite fold_left_add. unfold dict_get_default. simpl. f_equal. lra.
Qed.

Lemma in_bucket_iff (k : month_key) (c : string) (e : Expense) :
  in_bucket k c e = true
  <-> is_dated e = true /\ month_key_of e = k /\ category e = c.
Proof.
  unfold in_bucket, in_category.
  rewrite !andb_true_iff, month_key_eqb_eq, String.eqb_eq. tauto.
Qed.

Lemma existsb_in_bucket (es : list Expense) (k : month_key) (c : string) :
  existsb (in_bucket k c) es = true
  <-> exists e, In e es /\ is_dated e = true /\ month_key_of e = k /\ category e = c.
Proof.
  rewrite existsb_exists. split; intros [e [Hin H]]; exists e;
    (split; [exact Hin |]); apply in_bucket_iff; exact H.
Qed.

Lemma category_series_points (md : dict month_key (dict string R))
    (min_year min_month : Z) (c : string) :
  category_series md min_year min_month c
  = (map fst
         (flat_map
            (fun item =>
               match dict_get String.eqb (snd item) c with
               | Some total => [(months_since_start min_year min_month (fst item), total)]
               | None => []
               end) md),
     map snd
         (flat_map
            (fun item =>
               match dict_get String.eqb (snd item) c with
               | Some total => [(months_since_start min_year min_month (fst item), total)]
               | None => []
               end) md)).
Proof.
  unfold category_series.
  assert (H : forall (X0 : list Z) (Y0 : list R),
             fold_left
               (fun Xy item =>
                  match dict_get String.eqb (snd item) c with
                  | Some total =>
                      (fst Xy ++ [months_since_start min_year min_month (fst item)],
                       snd Xy ++ [total])
                  | None => Xy
                  end) md (X0, Y0)
             = (X0 ++ map fst
                         (flat_map
                            (fun item =>
                               match dict_get String.eqb (snd item) c with
                               | Some total =>
                                   [(months_since_start min_year min_month (fst item), total)]
                               | None => []
                               end) md),
                Y0 ++ map snd
                         (flat_map
                            (fun item =>
                               match dict_get String.eqb (snd item) c with
                               | Some total =>
                                   [(months_since_start min_year min_month (fst item), total)]
                               | None => []
                               end) md))).
  { induction md as [| item md' IH]; intros X0 Y0.
    - simpl. rewrite !app_nil_r. reflexivity.
    - cbn [fold_left flat_map].
      destruct (dict_get String.eqb (snd item) c) as [total |].
      + rewrite IH. cbn [fst snd app map]. rewrite <- !app_assoc. reflexivity.
      + rewrite IH. reflexivity. }
  apply (H [] []).
Qed.

Lemma monthly_data_points (es : list Expense) (k0 : month_key) (c : string) :
  flat_map
    (fun item =>
       match dict_get String.eqb (snd item) c with
       | Some total => [(months_since_start (fst k0) (snd k0) (fst item), total)]
       | None => []
       end) (monthly_data es)
  = data_points es k0 c.
Proof.
  unfold data_points. rewrite <- monthly_data_keys. unfold dict_keys.
  assert (H : forall l : dict month_key (dict string R),
             (forall item, In item l -> In item (monthly_data es)) ->
             flat_map
               (fun item =>
                  match dict_get String.eqb (snd item) c with
                  | Some total => [(months_since_start (fst k0) (snd k0) (fst item), total)]
                  | None => []
                  end) l
             = map (fun k => (month_index k0 k, bucket_total_of es k c))
                   (filter (fun k => existsb (in_bucket k c) es) (map fst l))).
  { induction l as [| [k month_data] l IH]; intros Hsub; [reflexivity |].
    cbn [flat_map map filter fst snd].
    rewrite (@monthly_data_entry es k month_data c) by (apply Hsub; left; reflexivity).
    rewrite IH by (intros; apply Hsub; right; assumption).
    destruct (existsb (in_bucket k c) es); reflexivity. }
  apply H. auto.
Qed.

Lemma all_categories_In (vs : list (dict string R)) (s0 : list string) (c : string) :
  In c (fold_left (fun s month_data => set_update String.eqb s (dict_keys month_data))
                  vs s0)
  <-> In c s0 \/ exists month_data, In month_data vs /\ In c (dict_keys month_data).
Proof.
  revert s0. induction vs as [| v vs IH]; intros s0; cbn [fold_left].
  - split; [tauto |]. intros [H | [v [[] _]]]. exact H.
  - rewrite IH, set_update_In. split.
    + intros [[H | H] | [v' [H1 H2]]]; [tauto | |].
      * right. exists v. simpl. auto.
      * right. exists v'. simpl. auto.
    + intros [H | [v' [[<- | H1] H2]]]; [tauto | tauto |].
      right. exists v'. auto.
Qed.

Lemma all_categories_NoDup (vs : list (dict string R)) (s0 : list string) :
  NoDup s0 ->
  NoDup (fold_left (fun s month_data => set_update String.eqb s (dict_keys month_data))
                   vs s0).
Proof.
  revert s0. induction vs as [| v vs IH]; intros s0 H; cbn [fold_left].
  - exact H.
  - apply IH, set_update_NoDup, H.
Qed.

(** The categories of the forecast are those of the dated records. *)
Lemma all_categories_dated (es : list Expense) (c : string) :
  In c (fold_left (fun s month_data => set_update String.eqb s (dict_keys month_data))
                  (dict_values (monthly_data es)) [])
  <-> has_dated_record es c.
Proof.
  rewrite all_categories_In. unfold has_dated_record. split.
  - intros [[] | [month_data [Hin Hc]]].
    unfold dict_values in Hin. apply in_map_iff in Hin.
    destruct Hin as [[k md] [Heq Hin]]. simpl in Heq. subst md.
    apply (dict_get_Some_keys String.eqb String.eqb_eq) in Hc.
    destruct Hc as [v Hv].
    rewrite (@monthly_data_entry es k month_data c Hin) in Hv.
    destruct (existsb (in_bucket k c) es) eqn:E; [| discriminate].
    apply existsb_in_bucket in E. destruct E as [e [He [Hd [_ Hcat]]]].
    exists e. auto.
  - intros [e [Hin [Hd Hc]]]. right.
    assert (Hk : In (month_key_of e) (dict_keys (monthly_data es))).
    { rewrite monthly_data_keys. apply months_of_In. exists e. auto. }
    unfold dict_keys in Hk. apply in_map_iff in Hk.
    destruct Hk as [[k md] [Heq Hitem]]. simpl in Heq. subst k.
    exists md. split.
    + unfold dict_values. apply in_map_iff. exists (month_key_of e, md). auto.
    + apply (dict_get_Some_keys String.eqb String.eqb_eq).
      rewrite (@monthly_data_entry es (month_key_of e) md c Hitem).
      replace (existsb (in_bucket (month_key_of e) c) es) with true; [eauto |].
      symmetry. apply existsb_in_bucket. exists e. auto.
Qed.

Lemma month_key_ltb_lt (a b : month_key) :
  month_key_ltb a b = true
  <-> (fst a < fst b \/ (fst a = fst b /\ snd a < snd b))%Z.
Proof.
  unfold month_key_ltb.
  rewrite orb_true_iff, andb_true_iff, !Z.ltb_lt, Z.eqb_eq. tauto.
Qed.

Lemma month_key_ltb_ge (a b : month_key) :
  month_key_ltb a b = false
  <-> (fst b < fst a \/ (fst a = fst b /\ snd b <= snd a))%Z.
Proof.
  destruct (month_key_ltb a b) eqn:E.
  - apply month_key_ltb_lt in E. split; [discriminate | lia].
  - split; [| reflexivity]. intros _.
    destruct (Z_lt_le_dec (fst b) (fst a)); [lia |].
    destruct (Z.eq_dec (fst a) (fst b)) as [Heq | Hne].
    + destruct (Z_lt_le_dec (snd a) (snd b)); [| lia].
      assert (month_key_ltb a b = true) by (apply month_key_ltb_lt; lia).
      congruence.
    + assert (month_key_ltb a b = true) by (apply month_key_ltb_lt; lia).
      congruence.
Qed.

Lemma fold_min_key (l : list month_key) (m : month_key) :
  let r := fold_left (fun m k' => if month_key_ltb k' m then k' else m) l m in
  (r = m \/ In r l)
  /\ month_key_ltb m r = false
  /\ forall k, In k l -> month_key_ltb k r = false.
Proof.
  revert m. induction l as [| k l IH]; intros m; cbn [fold_left].
  - cbv zeta. split; [auto |]. split; [| intros k []].
    apply month_key_ltb_ge. lia.
  - cbv zeta in *.
    destruct (IH (if month_key_ltb k m then k else m)) as [H1 [H2 H3]].
    destruct (month_key_ltb k m) eqn:E.
    + apply month_key_ltb_lt in E. apply month_key_ltb_ge in H2.
      split.
      { destruct H1 as [H1 | H1];
          [right; left; symmetry; exact H1 | right; right; exact H1]. }
      split.
      * apply month_key_ltb_ge. lia.
      * intros k' [<- | Hk']; [apply month_key_ltb_ge; lia | auto].
    + apply month_key_ltb_ge in E. apply month_key_ltb_ge in H2.
      split.
      { destruct H1 as [H1 | H1]; [left; exact H1 | right; right; exact H1]. }
      split.
      * apply month_key_ltb_ge. lia.
      * intros k' [<- | Hk']; [apply month_key_ltb_ge; lia | auto].
Qed.

(** [min] of the month keys is the earliest month. *)
Lemma py_min_key_earliest (l : list month_key) :
  l <> [] ->
  exists k0,
    py_min_key l = Ok k0
    /\ In k0 l
    /\ forall k, In k l -> month_key_ltb k k0 = false.
Proof.
  destruct l as [| m l]; [contradiction |]. intros _.
  destruct (fold_min_key l m) as [H1 [H2 H3]].
  eexists. split; [reflexivity |]. split.
  - simpl. destruct H1 as [-> | H1]; auto.
  - intros k [<- | Hk]; auto.
Qed.

Lemma is_earliest_month_unique (es : list Expense) (k0 k1 : month_key) :
  is_earliest_month es k0 -> is_earliest_month es k1 -> k0 = k1.
Proof.
  intros [Hin0 Hmin0] [Hin1 Hmin1].
  pose proof (Hmin0 _ Hin1) as H1. pose proof (Hmin1 _ Hin0) as H0.
  apply month_key_ltb_ge in H0, H1.
  destruct k0, k1. cbn [fst snd] in *. f_equal; lia.
Qed.

Lemma clamp_Rmax (p : R) : (if Rltb 0 p then p else 0) = Rmax 0 p.
Proof.
  destruct (Rltb 0 p) eqn:E.
  - apply Rltb_true in E. rewrite Rmax_right by lra. reflexivity.
  - apply Rltb_false in E. rewrite Rmax_left by lra. reflexivity.
Qed.

Lemma data_points_nonempty (es : list Expense) (k0 : month_key) (c : string) :
  has_dated_record es c -> data_points es k0 c <> [].
Proof.
  intros [e [Hin [Hd Hc]]] Hnil.
  assert (H : In (month_index k0 (month_key_of e),
                  bucket_total_of es (month_key_of e) c)
                 (data_points es k0 c)).
  { unfold data_points.
    apply (in_map (fun k => (month_index k0 k, bucket_total_of es k c))).
    apply filter_In. split.
    - apply months_of_In. exists e. auto.
    - apply existsb_in_bucket. exists e. auto. }
  rewrite Hnil in H. destruct H.
Qed.

(** One turn of the loop over the categories. *)
Lemma predict_category_Ok (es : list Expense) (k0 : month_key) (target_month : date)
    (predictions : dict string R) (c : string) :
  has_dated_record es c ->
  predict_category (monthly_data es) (fst k0) (snd k0) target_month predictions c
  = Ok (dict_set String.eqb predictions c
          (forecast_of es k0
             (month_index k0 (year target_month, month target_month)) c)).
Proof.
  intros Hrec. unfold predict_category, forecast_of.
  rewrite category_series_points, monthly_data_points. cbn [fst snd].
  pose proof (data_points_nonempty k0 Hrec) as Hne.
  set (pts := data_points es k0 c) in *.
  rewrite !length_map.
  destruct (length pts <? 2)%nat eqn:Elen.
  - replace (0 <? length pts)%nat with true.
    2:{ symmetry. apply Nat.ltb_lt. destruct pts; [contradiction | simpl; lia]. }
    rewrite np_mean_Ok; [reflexivity |].
    destruct pts; [contradiction | discriminate].
  - destruct (linear_regression_fit_Ok Hne) as [model [Hfit Hpred]].
    rewrite Hfit. cbn [bind]. rewrite Hpred, clamp_Rmax. reflexivity.
Qed.

Lemma foldM_predictions (step : dict string R -> string -> outcome (dict string R))
    (F : string -> R) (cats : list string) (predictions : dict string R) :
  (forall c p, In c cats -> step p c = Ok (dict_set String.eqb p c (F c))) ->
  NoDup (dict_keys predictions) ->
  exists predictions',
    foldM step cats predictions = Ok predictions'
    /\ NoDup (dict_keys predictions')
    /\ forall c, dict_get String.eqb predictions' c
                 = if existsb (String.eqb c) cats then Some (F c)
                   else dict_get String.eqb predictions c.
Proof.
  revert predictions. induction cats as [| k cats IH]; intros predictions Hstep Hnd.
  - exists predictions. simpl. auto.
  - cbn [foldM]. rewrite Hstep by (left; reflexivity). cbn [bind].
    destruct (IH (dict_set String.eqb predictions k (F k))) as [p' [H1 [H2 H3]]].
    + intros c p Hin. apply Hstep. right. exact Hin.
    + unfold dict_set. apply (dict_keys_update_NoDup String.eqb String.eqb_eq), Hnd.
    + exists p'. split; [exact H1 |]. split; [exact H2 |].
      intros c. rewrite H3, (dict_get_set String.eqb String.eqb_eq).
      cbn [existsb]. destruct (String.eqb c k) eqn:E.
      * apply String.eqb_eq in E. subst k.
        destruct (existsb (String.eqb c) cats); reflexivity.
      * reflexivity.
Qed.

(** What [predict_monthly_expense] returns: one entry per category of the
    dated records, the forecast of the category on the timeline that starts
    at the earliest month. *)
Lemma predict_monthly_expense_Ok (today : date) (es : list Expense)
    (target_month : option date) :
  let target := match target_month with Some d => d | None => today end in
  exists predictions,
    predict_monthly_expense today es target_month = Ok predictions
    /\ NoDup (dict_keys predictions)
    /\ (forall c, ~ has_dated_record es c ->
                  dict_get String.eqb predictions c = None)
    /\ (forall c, has_dated_record es c ->
                  exists k0,
                    is_earliest_month es k0
                    /\ dict_get String.eqb predictions c
                       = Some (forecast_of es k0
                                 (month_index k0 (year target, month target)) c)).
Proof.
  intros target.
  assert (Hnone : months_of es = [] -> forall c, ~ has_dated_record es c).
  { intros Hm c [e [Hin [Hd _]]].
    assert (H : In (month_key_of e) (months_of es))
      by (apply months_of_In; exists e; auto).
    rewrite Hm in H. destruct H. }
  unfold predict_monthly_expense. fold target.
  destruct es as [| e0 es0].
  { exists []. split; [reflexivity |]. split; [constructor |].
    split; [reflexivity |]. intros c [e [[] _]]. }
  set (es := e0 :: es0) in *. cbv zeta.
  destruct (monthly_data es) as [| item md'] eqn:Emd.
  { exists []. split; [reflexivity |]. split; [constructor |].
    split; [reflexivity |]. intros c Hc. exfalso.
    apply (Hnone (eq_trans (eq_sym (monthly_data_keys es)) (f_equal _ Emd)) c Hc). }
  rewrite <- Emd.
  destruct (@py_min_key_earliest (dict_keys (monthly_data es))) as [k0 [Hmin [Hin0 Hle]]].
  { rewrite Emd. discriminate. }
  rewrite Hmin. cbn [bind].
  rewrite monthly_data_keys in Hin0, Hle.
  destruct (@foldM_predictions
              (predict_category (monthly_data es) (fst k0) (snd k0) target)
              (forecast_of es k0 (month_index k0 (year target, month target)))
              (fold_left
                 (fun s month_data => set_update String.eqb s (dict_keys month_data))
                 (dict_values (monthly_data es)) [])
              []) as [p [H1 [H2 H3]]].
  - intros c p Hc. apply predict_category_Ok. apply all_categories_dated. exact Hc.
  - constructor.
  - exists p. split; [exact H1 |]. split; [exact H2 |]. split.
    + intros c Hc. rewrite H3.
      destruct (existsb (String.eqb c) _) eqn:E; [| reflexivity].
      apply existsb_eqb_In, all_categories_dated in E. contradiction.
    + intros c Hc. exists k0. split; [split; assumption |].
      rewrite H3.
      replace (existsb (String.eqb c) _) with true; [reflexivity |].
      symmetry. apply existsb_eqb_In, all_categories_dated. exact Hc.
Qed.

Lemma NoDup_map_in (A B : Type) (f : A -> B) (l : list A) :
  (forall x y, In x l -> In y l -> f x = f y -> x = y) ->
  NoDup l -> NoDup (map f l).
Proof.
  intros Hinj Hnd. induction Hnd as [| a l Hnot Hnd IH]; simpl; constructor.
  - intros Hin. apply in_map_iff in Hin. destruct Hin as [y [Heq Hy]].
    apply Hnot. rewrite (Hinj a y); simpl; auto.
  - apply IH. intros x y Hx Hy. apply Hinj; simpl; auto.
Qed.

(** On valid dates the month indices of a category's data points are
    pairwise distinct: they count distinct months. *)
Lemma data_points_distinct (es : list Expense) (k0 : month_key) (c : string) :
  Forall (fun e => forall d, expense_date e = Some d -> valid_date d) es ->
  NoDup (map fst (data_points es k0 c)).
Proof.
  intros Hvalid. unfold data_points. rewrite map_map. cbn [fst].
  apply NoDup_map_in; [| apply NoDup_filter, months_of_NoDup].
  assert (Hm : forall k, In k (months_of es) -> (1 <= snd k <= 12)%Z).
  { intros k Hk. apply months_of_In in Hk. destruct Hk as [e [Hin [Hd <-]]].
    rewrite Forall_forall in Hvalid. specialize (Hvalid e Hin).
    unfold month_key_of, is_dated in *.
    destruct (expense_date e) as [d |]; [| discriminate].
    specialize (Hvalid d eq_refl). apply valid_ymd_bounds in Hvalid.
    cbn [snd]. lia. }
  intros k1 k2 H1 H2. apply filter_In in H1, H2.
  destruct H1 as [H1 _], H2 as [H2 _].
  apply Hm in H1, H2. unfold month_index.
  destruct k1, k2. cbn [fst snd] in *. intros H. f_equal; lia.
Qed.

Lemma has_dated_record_dec (es : list Expense) (c : string) :
  has_dated_record es c \/ ~ has_dated_record es c.
Proof.
  destruct (existsb (fun e => is_dated e && in_category c e) es) eqn:E.
  - left. apply existsb_exists in E. destruct E as [e [Hin He]].
    apply andb_true_iff in He. destruct He as [Hd Hc].
    exists e. repeat split; try assumption. apply String.eqb_eq. exact Hc.
  - right. intros [e [Hin [Hd Hc]]].
    assert (H : existsb (fun e => is_dated e && in_category c e) es = true).
    { apply existsb_exists. exists e. split; [exact Hin |].
      rewrite Hd. unfold in_category. rewrite Hc. apply String.eqb_refl. }
    congruence.
Qed.

(** Three consecutive months of one category. *)
Lemma three_months_earliest (a b c : R) :
  is_earliest_month (three_months a b c) (2024, 1)%Z.
Proof.
  unfold is_earliest_month.
  change (months_of (three_months a b c)) with [(2024, 1); (2024, 2); (2024, 3)]%Z.
  split; [simpl; auto |].
  intros k [<- | [<- | [<- | []]]]; reflexivity.
Qed.

Lemma three_months_points (a b c : R) :
  data_points (three_months a b c) (2024, 1)%Z "food"
  = [(0%Z, a + 0); (1%Z, b + 0); (2%Z, c + 0)].
Proof. reflexivity. Qed.

Lemma ols_at_three_points (a b c : R) (t : Z) :
  ols_at [(0%Z, a); (1%Z, b); (2%Z, c)] t
  = (5 * a + 2 * b - c) / 6 + (c - a) / 2 * IZR t.
Proof.
  unfold ols_at, ols_intercept, ols_slope.
  assert (Hxx : sxx [(0%Z, a); (1%Z, b); (2%Z, c)] = 2).
  { unfold sxx, mean_of, xs_of. simpl. field. }
  assert (Hxy : sxy [(0%Z, a); (1%Z, b); (2%Z, c)] = c - a).
  { unfold sxy, mean_of, xs_of, ys_of. simpl. field. }
  rewrite Hxx, Hxy. rewrite (proj2 (Reqb_false 2 0)) by lra.
  unfold mean_of, xs_of, ys_of. simpl. field.
Qed.

Lemma three_months_forecast (today : date) (a b c : R) (target : date) :
  exists predictions,
    predict_monthly_expense today (three_months a b c) (Some target) = Ok predictions
    /\ dict_get String.eqb predictions "food"
       = Some (Rmax 0 ((5 * a + 2 * b - c) / 6
                       + (c - a) / 2
                         * IZR (month_index (2024, 1)%Z (year target, month target)))).
Proof.
  destruct (predict_monthly_expense_Ok today (three_months a b c) (Some target))
    as [p [Hp [_ [_ Hget]]]].
  exists p. split; [exact Hp |].
  destruct (Hget "food") as [k0 [Hk0 Hval]].
  { exists (dated 2024 1 10 "food" a). simpl. auto. }
  rewrite (is_earliest_month_unique Hk0 (three_months_earliest a b c)) in Hval.
  rewrite Hval. unfold forecast_of. rewrite three_months_points.
  cbn [length Nat.ltb Nat.leb]. rewrite !Rplus_0_r, ols_at_three_points.
  reflexivity.
Qed.

(** C4 as first stated fails: with 300, 200 and 100 in three consecutive
    months the least-squares line is at -200 five months after the first,
    and the forecast is 0. *)
Lemma forecast_is_not_the_fit :
  exists predictions,
    predict_monthly_expense (mkdate 2024 6 1) (three_months 300 200 100)
                            (Some (mkdate 2024 6 1)) = Ok predictions
    /\ dict_get String.eqb predictions "food" = Some 0
    /\ ols_at [(0%Z, 300); (1%Z, 200); (2%Z, 100)] 5 = -200
    /\ dict_get String.eqb predictions "food"
       <> Some (ols_at [(0%Z, 300); (1%Z, 200); (2%Z, 100)] 5).
Proof.
  destruct (three_months_forecast (mkdate 2024 6 1) 300 200 100 (mkdate 2024 6 1))
    as [p [Hp Hval]].
  assert (Hfit : ols_at [(0%Z, 300); (1%Z, 200); (2%Z, 100)] 5 = -200).
  { rewrite ols_at_three_points. field. }
  assert (Hzero : dict_get String.eqb p "food" = Some 0).
  { rewrite Hval. f_equal.
    change (month_index (2024, 1)%Z (year (mkdate 2024 6 1), month (mkdate 2024 6 1)))
      with 5%Z.
    replace ((5 * 300 + 2 * 200 - 100) / 6 + (100 - 300) / 2 * 5) with (-200) by field.
    apply Rmax_left. lra. }
  exists p. repeat split; try assumption.
  rewrite Hzero, Hfit. intros H. injection H as H. lra.
Qed.

(** ** Non-negative forecasts *)

Lemma bucket_total_of_nonneg (es : list Expense) (k : month_key) (c : string) :
  Forall (fun e => 0 <= amount e) es -> 0 <= bucket_total_of es k c.
Proof.
  intros H. unfold bucket_total_of. apply Rsum_nonneg.
  apply Forall_forall. intros x Hx.
  apply in_map_iff in Hx. destruct Hx as [e [<- He]].
  apply filter_In in He. destruct He as [He _].
  rewrite Forall_forall in H. apply H, He.
Qed.

Lemma forecast_of_nonneg (es : list Expense) (k0 : month_key) (t : Z) (c : string) :
  Forall (fun e => 0 <= amount e) es ->
  data_points es k0 c <> [] ->
  0 <= forecast_of es k0 t c.
Proof.
  intros Hpos Hne. unfold forecast_of.
  destruct (length (data_points es k0 c) <? 2)%nat; [| apply Rmax_l].
  unfold mean_of.
  replace (length (ys_of (data_points es k0 c)))
    with (length (data_points es k0 c))
    by (unfold ys_of; rewrite length_map; reflexivity).
  assert (Hsum : 0 <= Rsum (ys_of (data_points es k0 c))).
  { apply Rsum_nonneg. apply Forall_forall. intros y Hy.
    unfold ys_of, data_points in Hy. rewrite map_map in Hy. cbn [snd] in Hy.
    apply in_map_iff in Hy. destruct Hy as [k [<- _]].
    apply bucket_total_of_nonneg, Hpos. }
  assert (Hn : 0 < INR (length (data_points es k0 c))).
  { apply lt_0_INR. destruct (data_points es k0 c); [contradiction | simpl; lia]. }
  unfold Rdiv. apply Rmult_le_pos; [exact Hsum |].
  left. apply Rinv_0_lt_compat, Hn.
Qed.

(* ================================================================== *)
(** * Part IV: further properties of the code *)
(* ================================================================== *)

(** ** DateParser: whitespace, and what follows the date *)

Lemma rstrip_idempotent (s : string) : rstrip (rstrip s) = rstrip s.
Proof.
  induction s as [| c s IH]; [reflexivity |].
  cbn [rstrip]. destruct (is_space c && is_empty (rstrip s)) eqn:E;
    [reflexivity |].
  cbn [rstrip]. rewrite IH, E. reflexivity.
Qed.

Lemma lstrip_head (s : string) :
  lstrip s = EmptyString
  \/ exists c t, lstrip s = String c t /\ is_space c = false.
Proof.
  induction s as [| c s IH]; [left; reflexivity |].
  cbn [lstrip]. destruct (is_space c) eqn:E; [exact IH |].
  right. exists c, s. auto.
Qed.

Lemma rstrip_head (c : ascii) (t : string) :
  is_space c = false -> rstrip (String c t) = String c (rstrip t).
Proof. intros H. cbn [rstrip]. rewrite H. reflexivity. Qed.

Lemma strip_idempotent (s : string) : strip (strip s) = strip s.
Proof.
  unfold strip. destruct (lstrip_head s) as [-> | [c [t [-> Hc]]]];
    [reflexivity |].
  rewrite (@rstrip_head c t Hc). cbn [lstrip]. rewrite Hc.
  rewrite (@rstrip_head c (rstrip t) Hc), rstrip_idempotent. reflexivity.
Qed.

Lemma lstrip_blank (s : string) :
  lstrip s = EmptyString <-> blank s = true.
Proof.
  unfold blank. induction s as [| c s IH]; [split; reflexivity |].
  cbn [lstrip string_forall]. destruct (is_space c); [exact IH |].
  split; discriminate.
Qed.

Lemma strip_blank (s : string) : is_empty (strip s) = true <-> blank s = true.
Proof.
  rewrite <- lstrip_blank. unfold strip.
  destruct (lstrip_head s) as [-> | [c [t [-> Hc]]]].
  - split; reflexivity.
  - rewrite (@rstrip_head c t Hc). split; discriminate.
Qed.

Lemma date_new_error (y m d : Z) (e : exn) :
  date_new y m d = Raise e -> e = DateRangeError y m d.
Proof.
  unfold date_new. destruct (valid_ymd y m d); [discriminate |].
  intros H. injection H as <-. reflexivity.
Qed.

(** [date.fromisoformat] fails with one of its own two errors. *)
Lemma date_fromisoformat_error (s : string) (e : exn) :
  date_fromisoformat s = Raise e ->
  e = IsoformatError s \/ exists y m d, e = DateRangeError y m d.
Proof.
  unfold date_fromisoformat.
  repeat match goal with
         | |- context [match ?x with _ => _ end] => destruct x
         end;
    intros H;
    try (injection H as <-; left; reflexivity);
    try discriminate H.
  all: right; apply date_new_error in H; eauto.
Qed.

(** X1.  [parse_date] raises its "empty date string" error exactly on the
    strings made of whitespace only (the empty string among them), whatever
    the date-time parser; [None] has an error of its own. *)
Theorem parse_date_blank_iff
    (datetime_fromisoformat : string -> outcome datetime) (s : string) :
  (parse_date datetime_fromisoformat (PyStr s) = Raise EmptyDateError
   <-> blank s = true)
  /\ parse_date datetime_fromisoformat PyNone = Raise NoneDateError.
Proof.
  split; [| reflexivity].
  rewrite <- strip_blank. unfold parse_date.
  destruct (is_empty (strip s)); [split; reflexivity |].
  split; [| discriminate]. intros H. exfalso.
  assert (Hiso : forall t, date_fromisoformat t <> Raise EmptyDateError).
  { intros t Ht. apply date_fromisoformat_error in Ht.
    destruct Ht as [Ht | [y [m [d Ht]]]]; discriminate. }
  destruct (contains "T" (strip s)).
  - destruct (date_fromisoformat (split_head "T" (strip s))); [discriminate |].
    destruct (datetime_fromisoformat _); [discriminate |].
    apply (Hiso _ H).
  - destruct (contains " " (strip s)).
    + destruct (date_fromisoformat (split_head " " (strip s))); [discriminate |].
      destruct (datetime_fromisoformat _); [discriminate |].
      apply (Hiso _ H).
    + destruct (date_fromisoformat (strip s)); discriminate.
Qed.

(** X2.  Whitespace around the string plays no part: [parse_date] answers
    on a string what it answers on the stripped string, result or error. *)
Theorem parse_date_ignores_surrounding_whitespace
    (datetime_fromisoformat : string -> outcome datetime) (s : string) :
  parse_date datetime_fromisoformat (PyStr s)
  = parse_date datetime_fromisoformat (PyStr (strip s)).
Proof.
  unfold parse_date. rewrite strip_idempotent. reflexivity.
Qed.

Lemma append_nil_r_string (s : string) : (s ++ EmptyString)%string = s.
Proof. induction s as [| c s IH]; [reflexivity |]. cbn [append]. rewrite IH. reflexivity. Qed.

Lemma string_forall_cons (p : ascii -> bool) (c : ascii) (s : string) :
  string_forall p (String c s) = p c && string_forall p s.
Proof. reflexivity. Qed.

Lemma string_forall_date_chars (s : string) :
  string_forall (fun c => negb (is_space c) && negb (Ascii.eqb "T" c)) s = true ->
  string_forall (fun c => negb (is_space c)) s = true
  /\ contains "T" s = false
  /\ contains " " s = false.
Proof.
  induction s as [| c s IH]; [auto |].
  cbn [string_forall contains]. intros H.
  apply andb_true_iff in H. destruct H as [Hc Hs].
  apply andb_true_iff in Hc. destruct Hc as [Hsp HT].
  destruct (IH Hs) as [H1 [H2 H3]].
  rewrite Hsp, H1, H2, H3. apply negb_true_iff in HT. rewrite HT.
  repeat split. rewrite orb_false_r.
  destruct (Ascii.eqb " " c) eqn:E; [| reflexivity].
  apply Ascii.eqb_eq in E. subst c. discriminate Hsp.
Qed.

Lemma rstrip_app (pre tail : string) :
  string_forall (fun c => negb (is_space c)) pre = true ->
  rstrip (pre ++ tail)%string = (pre ++ rstrip tail)%string.
Proof.
  induction pre as [| c pre IH]; [reflexivity |].
  cbn [string_forall]. intros H. apply andb_true_iff in H. destruct H as [Hc Hp].
  apply negb_true_iff in Hc.
  cbn [append rstrip]. rewrite Hc, (IH Hp). reflexivity.
Qed.

Lemma lstrip_app (c : ascii) (pre tail : string) :
  is_space c = false ->
  lstrip (String c pre ++ tail)%string = (String c pre ++ tail)%string.
Proof. intros H. cbn [append lstrip]. rewrite H. reflexivity. Qed.

Lemma contains_app (c : ascii) (a b : string) :
  contains c (a ++ b)%string = contains c a || contains c b.
Proof.
  induction a as [| x a IH]; [reflexivity |].
  cbn [append contains]. rewrite IH, orb_assoc. reflexivity.
Qed.

Lemma split_head_app (c : ascii) (a b : string) :
  contains c a = false -> split_head c (a ++ String c b)%string = a.
Proof.
  induction a as [| x a IH]; cbn [append contains split_head]; intros H.
  - rewrite Ascii.eqb_refl. reflexivity.
  - apply orb_false_iff in H. destruct H as [Hx Ha].
    rewrite Hx, (IH Ha). reflexivity.
Qed.

Lemma contains_rstrip (c : ascii) (s : string) :
  contains c s = false -> contains c (rstrip s) = false.
Proof.
  induction s as [| x s IH]; [reflexivity |].
  cbn [contains rstrip]. intros H. apply orb_false_iff in H. destruct H as [Hx Hs].
  destruct (is_space x && is_empty (rstrip s)); [reflexivity |].
  cbn [contains]. rewrite Hx, (IH Hs). reflexivity.
Qed.

Section IsoformatFacts.
Local Open Scope Z_scope.

(** The ISO form of a date holds neither whitespace nor a [T]. *)
Lemma date_isoformat_chars (d : date) :
  valid_date d ->
  string_forall (fun c => negb (is_space c) && negb (Ascii.eqb "T" c))
                (date_isoformat d) = true
  /\ exists c t, date_isoformat d = String c t /\ is_space c = false.
Proof.
  destruct d as [y m dd]. unfold valid_date. cbn [year month day]. intros Hv.
  pose proof (valid_ymd_bounds _ _ _ Hv) as (Hy & Hm & Hd & _).
  unfold date_isoformat. cbn [year month day string_of_list_ascii].
  destruct (@digit_char_facts (y / 1000)) as (_ & S1 & T1 & _);
    [Z.div_mod_to_equations; lia |].
  destruct (@digit_char_facts (y / 100 mod 10)) as (_ & S2 & T2 & _);
    [Z.div_mod_to_equations; lia |].
  destruct (@digit_char_facts (y / 10 mod 10)) as (_ & S3 & T3 & _);
    [Z.div_mod_to_equations; lia |].
  destruct (@digit_char_facts (y mod 10)) as (_ & S4 & T4 & _);
    [Z.div_mod_to_equations; lia |].
  destruct (@digit_char_facts (m / 10)) as (_ & S5 & T5 & _);
    [Z.div_mod_to_equations; lia |].
  destruct (@digit_char_facts (m mod 10)) as (_ & S6 & T6 & _);
    [Z.div_mod_to_equations; lia |].
  destruct (@digit_char_facts (dd / 10)) as (_ & S7 & T7 & _);
    [Z.div_mod_to_equations; lia |].
  destruct (@digit_char_facts (dd mod 10)) as (_ & S8 & T8 & _);
    [Z.div_mod_to_equations; lia |].
  split.
  - rewrite !string_forall_cons. cbv beta.
    rewrite S1, S2, S3, S4, S5, S6, S7, S8, T1, T2, T3, T4, T5, T6, T7, T8.
    reflexivity.
  - eexists. eexists. split; [reflexivity | exact S1].
Qed.
End IsoformatFacts.

Lemma rstrip_no_space (s : string) :
  string_forall (fun c => negb (is_space c)) s = true -> rstrip s = s.
Proof.
  intros H. rewrite <- (append_nil_r_string s) at 1.
  rewrite (@rstrip_app s EmptyString H). apply append_nil_r_string.
Qed.

Lemma strip_date_isoformat (d : date) :
  valid_date d -> strip (date_isoformat d) = date_isoformat d.
Proof.
  intros Hv. destruct (date_isoformat_chars Hv) as [Hall [c [t [Heq Hc]]]].
  destruct (string_forall_date_chars _ Hall) as [Hns _].
  unfold strip.
  replace (lstrip (date_isoformat d)) with (date_isoformat d).
  - apply rstrip_no_space, Hns.
  - rewrite Heq. cbn [lstrip]. rewrite Hc. reflexivity.
Qed.

(** [date.fromisoformat] undoes [isoformat]. *)
Lemma date_fromisoformat_isoformat (d : date) :
  valid_date d -> date_fromisoformat (date_isoformat d) = Ok d.
Proof.
  intros Hv.
  pose proof (parse_date_isoformat (fun _ => Raise NotANumber) Hv) as H.
  destruct (date_isoformat_chars Hv) as [Hall [c [t [Heq Hc]]]].
  destruct (string_forall_date_chars _ Hall) as [_ [HT Hsp]].
  unfold parse_date in H. rewrite (strip_date_isoformat Hv), HT, Hsp in H.
  rewrite Heq in H at 1. cbn [is_empty] in H.
  destruct (date_fromisoformat (date_isoformat d)); [exact H | discriminate H].
Qed.

(** X3.  What follows the date is never examined: the ISO form of any date
    followed by [T] and anything at all parses to that date, and so does the
    ISO form followed by a space and anything without a [T]. *)
Theorem parse_date_ignores_time_part
    (datetime_fromisoformat : string -> outcome datetime)
    (d : date) (rest : string) :
  valid_date d ->
  parse_date datetime_fromisoformat
             (PyStr (date_isoformat d ++ String "T" rest)%string) = Ok d
  /\ (contains "T" rest = false ->
      parse_date datetime_fromisoformat
                 (PyStr (date_isoformat d ++ String " " rest)%string) = Ok d).
Proof.
  intros Hv.
  destruct (date_isoformat_chars Hv) as [Hall [c [t [Heq Hc]]]].
  destruct (string_forall_date_chars _ Hall) as [Hns [HT Hsp]].
  pose proof (date_fromisoformat_isoformat Hv) as Hiso.
  assert (Hstrip : forall tail,
             strip (date_isoformat d ++ tail)%string
             = (date_isoformat d ++ rstrip tail)%string).
  { intros tail. unfold strip.
    replace (lstrip (date_isoformat d ++ tail)%string)
      with (date_isoformat d ++ tail)%string.
    - apply rstrip_app, Hns.
    - rewrite Heq. symmetry. apply lstrip_app, Hc. }
  assert (Hne : forall tail, is_empty (date_isoformat d ++ tail)%string = false).
  { intros tail. rewrite Heq. reflexivity. }
  split.
  - unfold parse_date. rewrite Hstrip, (@rstrip_head "T" rest eq_refl), Hne.
    rewrite contains_app. cbn [contains]. rewrite Ascii.eqb_refl, orb_true_r.
    rewrite (@split_head_app _ _ _ HT), Hiso. reflexivity.
  - intros Hrest. unfold parse_date. rewrite Hstrip, Hne. cbn [rstrip].
    change (is_space " ") with true. cbn [andb].
    destruct (is_empty (rstrip rest)) eqn:Er.
    + rewrite append_nil_r_string, HT, Hsp, Hiso. reflexivity.
    + rewrite !contains_app. cbn [contains].
      rewrite HT, (@contains_rstrip _ _ Hrest), Hsp, Ascii.eqb_refl.
      change (Ascii.eqb "T" " ") with false. cbn [orb].
      rewrite (@split_head_app _ _ _ Hsp), Hiso. reflexivity.
Qed.

(** X3 at a concrete input. *)
Lemma parse_date_ignores_time_part_witness :
  valid_date (mkdate 2025 11 29)
  /\ parse_date datetime_fromisoformat_hms (PyStr "2025-11-29Tnoon") = Ok (mkdate 2025 11 29)
  /\ (contains "T" "9 o'clock  " = false ->
      parse_date datetime_fromisoformat_hms (PyStr "2025-11-29 9 o'clock  ")
      = Ok (mkdate 2025 11 29)).
Proof.
  split; [reflexivity |]. split.
  - exact (proj1 (@parse_date_ignores_time_part datetime_fromisoformat_hms
                    (mkdate 2025 11 29) "noon" eq_refl)).
  - exact (proj2 (@parse_date_ignores_time_part datetime_fromisoformat_hms
                    (mkdate 2025 11 29) "9 o'clock  " eq_refl)).
Defined.

(** The ISO text of a date, a [T] and anything parse to the date. *)
Lemma parse_date_iso_time
    (datetime_fromisoformat : string -> outcome datetime)
    (d : date) (rest : string) :
  valid_date d ->
  parse_date datetime_fromisoformat
             (PyStr (date_isoformat d ++ String "T" rest)%string) = Ok d.
Proof.
  intros Hv.
  destruct (date_isoformat_chars Hv) as [Hall [c [t [Heq Hc]]]].
  destruct (string_forall_date_chars _ Hall) as [Hns [HT _]].
  unfold parse_date, strip.
  replace (lstrip (date_isoformat d ++ String "T" rest)%string)
    with (date_isoformat d ++ String "T" rest)%string
    by (rewrite Heq; symmetry; apply lstrip_app, Hc).
  rewrite (@rstrip_app _ _ Hns), (@rstrip_head "T" rest eq_refl).
  replace (is_empty (date_isoformat d ++ String "T" (rstrip rest))%string)
    with false by (rewrite Heq; reflexivity).
  rewrite contains_app. cbn [contains]. rewrite Ascii.eqb_refl, orb_true_r.
  rewrite (@split_head_app _ _ _ HT), (date_fromisoformat_isoformat Hv).
  reflexivity.
Qed.


(** ** CategoryStatistics: counts, bounds, zero variance *)

Lemma category_stat_fields (l : list R) (st : CategoryStat) :
  category_stat l = Ok st ->
  np_mean l = Ok (s_mean st)
  /\ np_median l = Ok (s_median st)
  /\ py_min l = Ok (s_min st)
  /\ py_max l = Ok (s_max st)
  /\ s_total st = py_sum l
  /\ s_count st = length l.
Proof.
  unfold category_stat. intros H.
  apply bind_Ok_inv in H. destruct H as [mean [Hmean H]].
  apply bind_Ok_inv in H. destruct H as [med [Hmed H]].
  apply bind_Ok_inv in H. destruct H as [mn [Hmn H]].
  apply bind_Ok_inv in H. destruct H as [mx [Hmx H]].
  apply bind_Ok_inv in H. destruct H as [sd [Hsd H]].
  injection H as <-. cbn. auto 10.
Qed.

Lemma fold_min_spec (l : list R) (m : R) :
  let r := fold_left (fun m y => if Rltb y m then y else m) l m in
  (r = m \/ In r l) /\ r <= m /\ forall x, In x l -> r <= x.
Proof.
  revert m. induction l as [| y l IH]; intros m; cbn [fold_left]; cbv zeta.
  - split; [auto |]. split; [lra | intros x []].
  - cbv zeta in IH.
    destruct (IH (if Rltb y m then y else m)) as [H1 [H2 H3]].
    destruct (Rltb y m) eqn:E.
    + apply Rltb_true in E. split.
      { destruct H1 as [H1 | H1]; [right; left; symmetry; exact H1 | right; right; exact H1]. }
      split; [lra |]. intros x [<- | Hx]; [exact H2 | auto].
    + apply Rltb_false in E. split.
      { destruct H1 as [H1 | H1]; [left; exact H1 | right; right; exact H1]. }
      split; [exact H2 |]. intros x [<- | Hx]; [lra | auto].
Qed.

Lemma fold_max_spec (l : list R) (m : R) :
  let r := fold_left (fun m y => if Rltb m y then y else m) l m in
  (r = m \/ In r l) /\ m <= r /\ forall x, In x l -> x <= r.
Proof.
  revert m. induction l as [| y l IH]; intros m; cbn [fold_left]; cbv zeta.
  - split; [auto |]. split; [lra | intros x []].
  - cbv zeta in IH.
    destruct (IH (if Rltb m y then y else m)) as [H1 [H2 H3]].
    destruct (Rltb m y) eqn:E.
    + apply Rltb_true in E. split.
      { destruct H1 as [H1 | H1]; [right; left; symmetry; exact H1 | right; right; exact H1]. }
      split; [lra |]. intros x [<- | Hx]; [exact H2 | auto].
    + apply Rltb_false in E. split.
      { destruct H1 as [H1 | H1]; [left; exact H1 | right; right; exact H1]. }
      split; [exact H2 |]. intros x [<- | Hx]; [lra | auto].
Qed.

(** [min] returns an element below all the others, [max] one above. *)
Lemma py_min_spec (l : list R) (m : R) :
  py_min l = Ok m -> In m l /\ forall x, In x l -> m <= x.
Proof.
  destruct l as [| a l]; [discriminate |]. cbn [py_min]. intros H.
  injection H as <-. destruct (fold_min_spec l a) as [H1 [H2 H3]]. split.
  - destruct H1 as [-> | H1]; [left; reflexivity | right; exact H1].
  - intros x [<- | Hx]; auto.
Qed.

Lemma py_max_spec (l : list R) (m : R) :
  py_max l = Ok m -> In m l /\ forall x, In x l -> x <= m.
Proof.
  destruct l as [| a l]; [discriminate |]. cbn [py_max]. intros H.
  injection H as <-. destruct (fold_max_spec l a) as [H1 [H2 H3]]. split.
  - destruct H1 as [-> | H1]; [left; reflexivity | right; exact H1].
  - intros x [<- | Hx]; auto.
Qed.

Lemma insert_sorted_In (a x : R) (l : list R) :
  In x (insert_sorted a l) <-> x = a \/ In x l.
Proof.
  induction l as [| y l IH]; cbn [insert_sorted].
  - simpl. intuition.
  - destruct (Rleb a y); simpl; [intuition |]. rewrite IH. simpl. intuition.
Qed.

Lemma insert_sorted_length (a : R) (l : list R) :
  length (insert_sorted a l) = S (length l).
Proof.
  induction l as [| y l IH]; cbn [insert_sorted]; [reflexivity |].
  destruct (Rleb a y); simpl; [reflexivity | rewrite IH; reflexivity].
Qed.

Lemma np_sort_In (l : list R) (x : R) : In x (np_sort l) <-> In x l.
Proof.
  unfold np_sort. induction l as [| a l IH]; cbn [fold_right]; [tauto |].
  rewrite insert_sorted_In, IH. simpl. intuition.
Qed.

Lemma np_sort_length (l : list R) : length (np_sort l) = length l.
Proof.
  unfold np_sort. induction l as [| a l IH]; cbn [fold_right]; [reflexivity |].
  rewrite insert_sorted_length, IH. reflexivity.
Qed.

(** The median lies between any bounds of the values. *)
Lemma np_median_bounds (l : list R) (med lo hi : R) :
  np_median l = Ok med ->
  (forall x, In x l -> lo <= x <= hi) ->
  lo <= med <= hi.
Proof.
  intros Hmed Hb. unfold np_median in Hmed.
  destruct l as [| a l0] eqn:El; [discriminate |]. rewrite <- El in *.
  assert (Hn : (0 < length l)%nat) by (rewrite El; simpl; lia).
  assert (Hnth : forall i, (i < length l)%nat -> lo <= nth i (np_sort l) 0 <= hi).
  { intros i Hi. apply Hb, np_sort_In, nth_In. rewrite np_sort_length. exact Hi. }
  assert (Hhalf : (length l / 2 < length l)%nat)
    by (apply Nat.div_lt; lia).
  destruct (Nat.even (length l)).
  - pose proof (Hnth (length l / 2 - 1)%nat ltac:(lia)) as H1.
    pose proof (Hnth (length l / 2)%nat Hhalf) as H2.
    revert Hmed H1 H2.
    generalize (nth (length l / 2 - 1) (np_sort l) 0).
    generalize (nth (length l / 2) (np_sort l) 0).
    intros v2 v1 Hmed H1 H2.
    assert (Heq : med = (v1 + v2) / 2).
    { unfold np_mean, py_sum in Hmed. simpl in Hmed. injection Hmed as <-. field. }
    rewrite Heq. lra.
  - injection Hmed as <-. apply Hnth, Hhalf.
Qed.

Lemma Rsum_bounds (l : list R) (lo hi : R) :
  (forall x, In x l -> lo <= x <= hi) ->
  INR (length l) * lo <= Rsum l <= INR (length l) * hi.
Proof.
  induction l as [| a l IH]; intros Hb.
  - simpl. lra.
  - cbn [Rsum length]. rewrite S_INR.
    pose proof (Hb a (or_introl eq_refl)) as Ha.
    destruct IH as [H1 H2]; [intros x Hx; apply Hb; right; exact Hx |].
    lra.
Qed.

Lemma mean_of_bounds (l : list R) (lo hi : R) :
  l <> [] ->
  (forall x, In x l -> lo <= x <= hi) ->
  lo <= mean_of l <= hi.
Proof.
  intros Hne Hb. unfold mean_of.
  assert (Hn : 0 < INR (length l)).
  { apply lt_0_INR. destruct l; [contradiction | simpl; lia]. }
  destruct (Rsum_bounds l Hb) as [H1 H2]. split.
  - apply Rmult_le_reg_r with (r := INR (length l)); [exact Hn |].
    unfold Rdiv. rewrite Rmult_assoc, Rinv_l by lra. lra.
  - apply Rmult_le_reg_r with (r := INR (length l)); [exact Hn |].
    unfold Rdiv. rewrite Rmult_assoc, Rinv_l by lra. lra.
Qed.

Lemma list_sum_cons (a : nat) (l : list nat) :
  list_sum (a :: l) = (a + list_sum l)%nat.
Proof. reflexivity. Qed.

Lemma count_total_update (k : string) (a : R) (d : dict string (list R)) :
  list_sum (map (fun item => length (snd item))
                (dict_update String.eqb [] k (fun l => l ++ [a]) d))
  = S (list_sum (map (fun item => length (snd item)) d)).
Proof.
  induction d as [| [k' l] d IH]; cbn [dict_update].
  - reflexivity.
  - destruct (String.eqb k k'); cbn [map snd]; rewrite !list_sum_cons.
    + rewrite length_app. simpl. lia.
    + rewrite IH. lia.
Qed.

Lemma count_total_category_data (es : list Expense) :
  list_sum (map (fun item => length (snd item)) (category_data es)) = length es.
Proof.
  unfold category_data.
  assert (H : forall d : dict string (list R),
             list_sum (map (fun item => length (snd item))
                           (fold_left
                              (fun cd expense =>
                                 dict_update String.eqb [] (category expense)
                                   (fun amounts => amounts ++ [amount expense]) cd)
                              es d))
             = (list_sum (map (fun item => length (snd item)) d) + length es)%nat).
  { induction es as [| e es IH]; intros d; cbn [fold_left length].
    - lia.
    - rewrite IH, count_total_update. lia. }
  rewrite H. reflexivity.
Qed.

(** X4.  In the mapping CategoryStatistics returns, each category of the
    input has one entry and no other category has one; the count of a
    category is the number of its records, which is positive, and the
    counts add up to the number of records. *)
Theorem category_counts (es : list Expense) :
  exists stats,
    calculate_category_stats es = Ok stats
    /\ NoDup (dict_keys stats)
    /\ (forall c, In c (dict_keys stats) <-> exists e, In e es /\ category e = c)
    /\ (forall c st,
           dict_get String.eqb stats c = Some st ->
           s_count st = length (filter (in_category c) es)
           /\ (0 < s_count st)%nat)
    /\ list_sum (map (fun item => s_count (snd item)) stats) = length es.
Proof.
  eexists. split; [apply calculate_category_stats_Ok |].
  assert (Hkeys : dict_keys (map (fun item : string * list R =>
                                    (fst item, stat_of (snd item)))
                                 (category_data es))
                  = dict_keys (category_data es)).
  { unfold dict_keys. rewrite map_map. reflexivity. }
  split; [| split; [| split]].
  - rewrite Hkeys. apply category_data_NoDup.
  - intros c. rewrite Hkeys, category_data_accumulate.
    rewrite (accumulate_keys String.eqb String.eqb_eq). split.
    + intros [e [H1 [_ H2]]]. eauto.
    + intros [e [H1 H2]]. exists e. auto.
  - intros c st Hget.
    rewrite dict_get_map_values, category_data_get in Hget.
    destruct (amounts_of c es) as [| a l] eqn:Ea; [discriminate |].
    injection Hget as <-.
    destruct (@category_stat_Ok (a :: l)) as [_ [_ [Hc _]]]; [discriminate |].
    rewrite Hc. rewrite <- Ea. unfold amounts_of. rewrite length_map.
    split; [reflexivity |].
    rewrite <- (length_map amount). fold (amounts_of c es). rewrite Ea.
    simpl. lia.
  - rewrite map_map. cbn [snd].
    rewrite <- (count_total_category_data es).
    f_equal. apply map_ext_in. intros [c l] Hin. cbn [snd].
    apply category_data_In in Hin. destruct Hin as [_ Hne].
    apply (category_stat_Ok Hne).
Qed.

Lemma amounts_of_record (es : list Expense) (c : string) (x : R) :
  In x (amounts_of c es) <-> exists e, In e es /\ category e = c /\ amount e = x.
Proof.
  unfold amounts_of. rewrite in_map_iff. split.
  - intros [e [Hx He]]. apply filter_In in He. destruct He as [He Hc].
    exists e. repeat split; try assumption. apply String.eqb_eq. exact Hc.
  - intros [e [He [Hc Hx]]]. exists e. split; [exact Hx |].
    apply filter_In. split; [exact He |]. unfold in_category.
    rewrite Hc. apply String.eqb_refl.
Qed.

Lemma stats_entry (es : list Expense) (c : string) (st : CategoryStat) :
  dict_get String.eqb
           (map (fun item : string * list R => (fst item, stat_of (snd item)))
                (category_data es)) c = Some st ->
  amounts_of c es <> [] /\ category_stat (amounts_of c es) = Ok st.
Proof.
  rewrite dict_get_map_values, category_data_get. intros H.
  destruct (amounts_of c es) as [| a l] eqn:Ea; [discriminate |].
  injection H as <-. split; [discriminate |].
  apply category_stat_Ok. discriminate.
Qed.

(** X5.  In every entry of the mapping CategoryStatistics returns, [min] and
    [max] are amounts of records of the category, every amount of the
    category lies between them, and so does [median]; [std] is not
    negative. *)
Theorem category_stat_bounds (es : list Expense) :
  exists stats,
    calculate_category_stats es = Ok stats
    /\ forall c st,
        dict_get String.eqb stats c = Some st ->
        (exists e, In e es /\ category e = c /\ amount e = s_min st)
        /\ (exists e, In e es /\ category e = c /\ amount e = s_max st)
        /\ (forall e, In e es -> category e = c ->
                      s_min st <= amount e <= s_max st)
        /\ s_min st <= s_median st <= s_max st
        /\ 0 <= s_std st.
Proof.
  eexists. split; [apply calculate_category_stats_Ok |].
  intros c st Hget. apply stats_entry in Hget. destruct Hget as [Hne Hst].
  destruct (@category_stat_fields _ _ Hst) as [Hmean [Hmed [Hmin [Hmax _]]]].
  apply py_min_spec in Hmin. destruct Hmin as [Hmin_in Hmin_le].
  apply py_max_spec in Hmax. destruct Hmax as [Hmax_in Hmax_le].
  assert (Hb : forall x, In x (amounts_of c es) -> s_min st <= x <= s_max st)
    by (intros x Hx; split; auto).
  split; [apply amounts_of_record, Hmin_in |].
  split; [apply amounts_of_record, Hmax_in |].
  split.
  { intros e He Hc. apply Hb, amounts_of_record. exists e. auto. }
  split; [apply (@np_median_bounds _ _ _ _ Hmed Hb) |].
  destruct (category_stat_Ok Hne) as [Hst' [_ [_ [_ Hstd]]]].
  rewrite Hst in Hst'. injection Hst' as ->. rewrite Hstd.
  apply sqrt_pos.
Qed.

Lemma Rsum_map_zero (A : Type) (f : A -> R) (l : list A) :
  (forall x, In x l -> f x = 0) -> Rsum (map f l) = 0.
Proof.
  induction l as [| a l IH]; intros H; [reflexivity |].
  cbn [map Rsum]. rewrite (H a) by (simpl; auto).
  rewrite IH by (intros x Hx; apply H; simpl; auto). lra.
Qed.

(** A group of equal amounts has no spread. *)
Lemma constant_group (l : list R) (a : R) :
  l <> [] -> (forall x, In x l -> x = a) ->
  mean_of l = a /\ population_std l = 0.
Proof.
  intros Hne Hall.
  assert (Hmean : mean_of l = a).
  { assert (H : a <= mean_of l <= a).
    { apply mean_of_bounds; [exact Hne |]. intros x Hx. rewrite (Hall x Hx). lra. }
    lra. }
  split; [exact Hmean |].
  unfold population_std. rewrite Rsum_map_zero.
  - unfold Rdiv. rewrite Rmult_0_l. apply sqrt_0.
  - intros x Hx. rewrite Hmean, (Hall x Hx). ring.
Qed.

(** X6.  Zero variance, in exact arithmetic: when all the records of a
    category have the same amount, the category's mean, median, min and max
    are that amount, its std is 0, and OutlierDetector reports no record of
    the category.  (Rounded to binary64, the mean of equal amounts can
    differ from them in the last place, and the std from 0.) *)
Theorem equal_amounts_category (es : list Expense) (c : string) (a : R) :
  (exists e, In e es /\ category e = c) ->
  (forall e, In e es -> category e = c -> amount e = a) ->
  exists stats st outs,
    calculate_category_stats es = Ok stats
    /\ dict_get String.eqb stats c = Some st
    /\ s_mean st = a /\ s_median st = a /\ s_min st = a /\ s_max st = a
    /\ s_std st = 0
    /\ detect_outliers es = Ok outs
    /\ forall o, In o outs -> o_category o <> c.
Proof.
  intros [e0 [He0 Hc0]] Hall.
  assert (Hconst : forall x, In x (amounts_of c es) -> x = a).
  { intros x Hx. apply amounts_of_record in Hx.
    destruct Hx as [e [He [Hc <-]]]. auto. }
  assert (Hne : amounts_of c es <> []).
  { rewrite <- Hc0. apply amounts_of_In, He0. }
  destruct (constant_group Hne Hconst) as [Hmean Hstd].
  destruct (category_stat_Ok Hne) as [Hst [_ [_ [Hm Hs]]]].
  destruct (@category_stat_fields _ _ Hst) as [_ [Hmed [Hmin [Hmax _]]]].
  apply py_min_spec in Hmin. destruct Hmin as [Hmin _].
  apply py_max_spec in Hmax. destruct Hmax as [Hmax _].
  assert (Hmedian : a <= s_median (stat_of (amounts_of c es)) <= a).
  { apply (@np_median_bounds _ _ a a Hmed). intros x Hx. rewrite (Hconst x Hx). lra. }
  destruct (calculate_category_stats_get es c) as [stats [Hstats Hget]].
  exists stats, (stat_of (amounts_of c es)).
  eexists. split; [exact Hstats |]. split.
  { rewrite Hget. destruct (amounts_of c es); [contradiction | reflexivity]. }
  split; [rewrite Hm; exact Hmean |].
  split; [lra |].
  split; [apply Hconst, Hmin |].
  split; [apply Hconst, Hmax |].
  split; [rewrite Hs; exact Hstd |].
  split; [apply detect_outliers_Ok |].
  intros o Hin Hc.
  apply in_map_iff in Hin. destruct Hin as [e [<- Hin]].
  apply exceeds_threshold_iff in Hin. destruct Hin as [Hin Hlt].
  cbn [o_category outlier_of] in Hc.
  unfold outlier_threshold in Hlt. rewrite Hc, Hmean, Hstd in Hlt.
  rewrite (Hall e Hin Hc) in Hlt. lra.
Qed.

(** X6 at a concrete input: three records of 4500 and one of another
    category. *)
Lemma equal_amounts_category_witness :
  (exists e, In e [undated "bus" 4500; undated "rent" 700; undated "bus" 4500;
                   undated "bus" 4500]
             /\ category e = "bus")
  /\ (forall e, In e [undated "bus" 4500; undated "rent" 700; undated "bus" 4500;
                      undated "bus" 4500] ->
                category e = "bus" -> amount e = 4500)
  /\ exists stats st outs,
      calculate_category_stats
        [undated "bus" 4500; undated "rent" 700; undated "bus" 4500;
         undated "bus" 4500] = Ok stats
      /\ dict_get String.eqb stats "bus" = Some st
      /\ s_mean st = 4500 /\ s_median st = 4500
      /\ s_min st = 4500 /\ s_max st = 4500
      /\ s_std st = 0
      /\ detect_outliers
           [undated "bus" 4500; undated "rent" 700; undated "bus" 4500;
            undated "bus" 4500] = Ok outs
      /\ forall o, In o outs -> o_category o <> "bus".
Proof.
  assert (H1 : exists e, In e [undated "bus" 4500; undated "rent" 700;
                               undated "bus" 4500; undated "bus" 4500]
                         /\ category e = "bus").
  { exists (undated "bus" 4500). simpl. auto. }
  assert (H2 : forall e, In e [undated "bus" 4500; undated "rent" 700;
                               undated "bus" 4500; undated "bus" 4500] ->
                         category e = "bus" -> amount e = 4500).
  { intros e [<- | [<- | [<- | [<- | []]]]] Hc; try reflexivity.
    discriminate Hc. }
  split; [exact H1 | split; [exact H2 |]].
  exact (@equal_amounts_category _ _ _ H1 H2).
Defined.

(** ** How many records can lie above mean + 2 std *)

Lemma Rsum_filter_split (f : R -> R) (p : R -> bool) (l : list R) :
  Rsum (map f l)
  = Rsum (map f (filter p l)) + Rsum (map f (filter (fun x => negb (p x)) l)).
Proof.
  induction l as [| a l IH]; [simpl; lra |].
  cbn [map Rsum filter]. destruct (p a); cbn [negb map Rsum]; lra.
Qed.

Lemma length_filter_split (A : Type) (p : A -> bool) (l : list A) :
  length l
  = (length (filter p l) + length (filter (fun x => negb (p x)) l))%nat.
Proof.
  induction l as [| a l IH]; [reflexivity |].
  cbn [filter length]. destruct (p a); cbn [negb length]; lia.
Qed.

Lemma length_filter_map (A B : Type) (f : A -> B) (p : B -> bool) (l : list A) :
  length (filter p (map f l)) = length (filter (fun x => p (f x)) l).
Proof.
  induction l as [| a l IH]; [reflexivity |].
  cbn [map filter]. destruct (p (f a)); cbn [length]; rewrite IH; reflexivity.
Qed.

Lemma Rsum_map_lower (f : R -> R) (c : R) (l : list R) :
  (forall x, In x l -> c <= f x) -> INR (length l) * c <= Rsum (map f l).
Proof.
  induction l as [| a l IH]; intros H; [simpl; lra |].
  cbn [map Rsum length]. rewrite S_INR.
  assert (H1 : c <= f a) by (apply H; simpl; auto).
  assert (H2 : INR (length l) * c <= Rsum (map f l))
    by (apply IH; intros x Hx; apply H; simpl; auto).
  lra.
Qed.

Lemma Rsum_map_above (f : R -> R) (c : R) (l : list R) :
  l <> [] -> (forall x, In x l -> c < f x) ->
  INR (length l) * c < Rsum (map f l).
Proof.
  intros Hne H. destruct l as [| a l]; [contradiction |].
  cbn [map Rsum length]. rewrite S_INR.
  assert (H1 : c < f a) by (apply H; simpl; auto).
  assert (H2 : INR (length l) * c <= Rsum (map f l)).
  { apply Rsum_map_lower. intros x Hx. apply Rlt_le, H. simpl; auto. }
  lra.
Qed.

(** Cauchy-Schwarz against the constant vector. *)
Lemma square_of_sum (l : list R) :
  Rsum l * Rsum l <= INR (length l) * Rsum (map (fun x => x * x) l).
Proof.
  induction l as [| a l IH]; [simpl; lra |].
  cbn [map Rsum length]. rewrite S_INR.
  set (S := Rsum l) in *. set (Q := Rsum (map (fun x => x * x) l)) in *.
  set (n := INR (length l)) in *.
  assert (Hn : 0 <= n) by apply pos_INR.
  assert (HQ : 0 <= Q) by (apply (Rsum_squares_nonneg (fun x : R => x))).
  destruct (Rle_lt_or_eq_dec 0 n Hn) as [Hpos | Hzero].
  - assert (H : 0 <= n * (n * (a * a) + Q - 2 * a * S)).
    { pose proof (Rle_0_sqr (n * a - S)) as Hs. unfold Rsqr in Hs. nra. }
    assert (H' : 0 <= n * (a * a) + Q - 2 * a * S).
    { apply Rmult_le_reg_l with n; [exact Hpos | lra]. }
    nra.
  - rewrite <- Hzero in *.
    assert (HS : S * S <= 0) by lra.
    assert (HS0 : S = 0) by nra. rewrite HS0. nra.
Qed.

Lemma Rsum_shift (l : list R) (m : R) :
  Rsum (map (fun x => x - m) l) = Rsum l - INR (length l) * m.
Proof.
  induction l as [| a l IH]; [simpl; lra |].
  cbn [map Rsum length]. rewrite S_INR, IH. lra.
Qed.

Lemma deviations_sum_zero (l : list R) :
  l <> [] -> Rsum (map (fun x => x - mean_of l) l) = 0.
Proof.
  intros Hne. rewrite Rsum_shift. unfold mean_of.
  assert (Hn : 0 < INR (length l)).
  { apply lt_0_INR. destruct l; [contradiction | simpl; lia]. }
  field. lra.
Qed.

Lemma population_std_square (l : list R) :
  l <> [] ->
  0 <= population_std l
  /\ Rsum (map (fun x => (x - mean_of l) * (x - mean_of l)) l)
     = INR (length l) * (population_std l * population_std l).
Proof.
  intros Hne.
  assert (Hn : 0 < INR (length l)).
  { apply lt_0_INR. destruct l; [contradiction | simpl; lia]. }
  split; [apply sqrt_pos |].
  unfold population_std at 1 2. rewrite sqrt_sqrt.
  - field. lra.
  - apply Rmult_le_pos.
    + apply (Rsum_squares_nonneg (fun x => x - mean_of l)).
    + apply Rlt_le, Rinv_0_lt_compat, Hn.
Qed.

(** Among numbers with mean [mu] and standard deviation [sigma], fewer than
    one in five lie strictly above [mu + 2 * sigma]. *)
Lemma few_above_two_sigma (l : list R) (mu sigma : R) :
  0 <= sigma ->
  Rsum (map (fun x => x - mu) l) = 0 ->
  Rsum (map (fun x => (x - mu) * (x - mu)) l) = INR (length l) * (sigma * sigma) ->
  length (filter (fun x => Rltb (mu + 2 * sigma) x) l) = 0%nat
  \/ (5 * length (filter (fun x => Rltb (mu + 2 * sigma) x) l) < length l)%nat.
Proof.
  intros Hsigma Hsum Hsq.
  set (p := fun x => Rltb (mu + 2 * sigma) x) in *.
  set (O := filter p l). set (N := filter (fun x => negb (p x)) l).
  destruct O as [| o O'] eqn:EO; [left; reflexivity |]. right.
  rewrite <- EO in *.
  assert (HO : forall x, In x O -> 2 * sigma < x - mu).
  { intros x Hx. unfold O in Hx. apply filter_In in Hx. destruct Hx as [_ Hx].
    unfold p in Hx. apply Rltb_true in Hx. lra. }
  assert (Hlen : length l = (length O + length N)%nat)
    by apply length_filter_split.
  assert (HK : 1 <= INR (length O)).
  { rewrite EO. cbn [length]. rewrite S_INR. pose proof (pos_INR (length O')). lra. }
  assert (HM : 0 <= INR (length N)) by apply pos_INR.
  rewrite (Rsum_filter_split (fun x => x - mu) p) in Hsum.
  rewrite (Rsum_filter_split (fun x => (x - mu) * (x - mu)) p) in Hsq.
  fold O N in Hsum, Hsq. rewrite Hlen, plus_INR in Hsq.
  assert (HA : INR (length O) * (2 * sigma) < Rsum (map (fun x => x - mu) O)).
  { apply Rsum_map_above; [rewrite EO; discriminate | exact HO]. }
  assert (HQO : INR (length O) * (4 * (sigma * sigma))
                <= Rsum (map (fun x => (x - mu) * (x - mu)) O)).
  { apply Rsum_map_lower. intros x Hx. specialize (HO x Hx). nra. }
  pose proof (square_of_sum (map (fun x => x - mu) N)) as HCS.
  rewrite length_map, map_map in HCS.
  set (A := Rsum (map (fun x => x - mu) O)) in *.
  set (B := Rsum (map (fun x => x - mu) N)) in *.
  set (QO := Rsum (map (fun x => (x - mu) * (x - mu)) O)) in *.
  set (QN := Rsum (map (fun x => (x - mu) * (x - mu)) N)) in *.
  set (K := INR (length O)) in *. set (M := INR (length N)) in *.
  assert (HMK : 4 * K < M).
  { destruct (Rlt_le_dec (4 * K) M) as [Hlt | Hle]; [exact Hlt | exfalso].
    assert (HA2 : 4 * (sigma * sigma) * (K * K) < A * A).
    { assert (H0 : 0 <= K * (2 * sigma)) by nra.
      replace (4 * (sigma * sigma) * (K * K))
        with ((K * (2 * sigma)) * (K * (2 * sigma))) by ring.
      nra. }
    assert (HB : B * B = A * A) by (replace B with (- A) by lra; ring).
    assert (HQN : QN <= (M - 3 * K) * (sigma * sigma)) by lra.
    assert (H1 : M * QN <= M * ((M - 3 * K) * (sigma * sigma)))
      by (apply Rmult_le_compat_l; assumption).
    assert (H2 : 0 < (sigma * sigma) * ((M - 4 * K) * (M + K))).
    { replace ((sigma * sigma) * ((M - 4 * K) * (M + K)))
        with (M * ((M - 3 * K) * (sigma * sigma)) - 4 * (sigma * sigma) * (K * K))
        by ring.
      lra. }
    assert (H3 : (sigma * sigma) * ((4 * K - M) * (M + K)) >= 0).
    { apply Rle_ge. apply Rmult_le_pos; [nra |].
      apply Rmult_le_pos; lra. }
    lra. }
  assert (Hnat : (4 * length O < length N)%nat).
  { apply INR_lt. rewrite mult_INR.
    replace (INR 4) with 4 by (simpl; lra). exact HMK. }
  lia.
Qed.

Lemma outliers_in_count (es : list Expense) (c : string) :
  outliers_in c (map (outlier_of es) (filter (exceeds_threshold es) es))
  = length (filter (fun x => Rltb (outlier_threshold es c) x) (amounts_of c es)).
Proof.
  unfold outliers_in, amounts_of.
  rewrite !length_filter_map, !filter_filter. f_equal.
  apply filter_ext. intros e. cbn [o_category outlier_of].
  unfold exceeds_threshold, in_category.
  destruct (String.eqb (category e) c) eqn:Ec.
  - apply String.eqb_eq in Ec. rewrite Ec, andb_true_r. reflexivity.
  - rewrite andb_false_r. reflexivity.
Qed.

(** X7.  OutlierDetector reports fewer than a fifth of the records of any
    category: five times the number of reports of a category is less than the
    number of its records, so a category of five records or fewer is never
    reported. *)
Theorem outliers_are_few (es : list Expense) (c : string) :
  exists outs,
    detect_outliers es = Ok outs
    /\ (outliers_in c outs = 0%nat
        \/ (5 * outliers_in c outs < records_in c es)%nat)
    /\ ((records_in c es <= 5)%nat -> outliers_in c outs = 0%nat).
Proof.
  eexists. split; [apply detect_outliers_Ok |].
  rewrite outliers_in_count.
  assert (Hn : records_in c es = length (amounts_of c es)).
  { unfold records_in, amounts_of. rewrite length_map. reflexivity. }
  rewrite Hn.
  assert (H : length (filter (fun x => Rltb (outlier_threshold es c) x)
                             (amounts_of c es)) = 0%nat
              \/ (5 * length (filter (fun x => Rltb (outlier_threshold es c) x)
                                     (amounts_of c es))
                  < length (amounts_of c es))%nat).
  { destruct (amounts_of c es) as [| a l] eqn:El; [left; reflexivity |].
    rewrite <- El. assert (Hne : amounts_of c es <> []) by (rewrite El; discriminate).
    destruct (population_std_square Hne) as [Hpos Hsq].
    unfold outlier_threshold.
    apply few_above_two_sigma;
      [exact Hpos | apply deviations_sum_zero, Hne | exact Hsq]. }
  split; [exact H |]. intros Hle. destruct H as [H | H]; [exact H | lia].
Qed.

(** ** What a report carries *)

Lemma Rsum_square_term (A : Type) (f : A -> R) (l : list A) (x : A) :
  In x l -> f x * f x <= Rsum (map (fun y => f y * f y) l).
Proof.
  induction l as [| a l IH]; intros Hin; [destruct Hin |].
  cbn [map Rsum].
  pose proof (Rsum_squares_nonneg f l) as Hl.
  pose proof (Rle_0_sqr (f a)) as Ha. unfold Rsqr in Ha.
  destruct Hin as [-> | Hin]; [lra |]. specialize (IH Hin). lra.
Qed.

Lemma Rsum_term_le (f : R -> R) (l : list R) (x : R) :
  (forall y, In y l -> 0 <= f y) -> In x l -> f x <= Rsum (map f l).
Proof.
  induction l as [| a l IH]; intros Hall Hin; [destruct Hin |].
  cbn [map Rsum].
  assert (Ha : 0 <= f a) by (apply Hall; simpl; auto).
  assert (Hl : 0 <= Rsum (map f l)).
  { apply Rsum_nonneg, Forall_forall. intros z Hz.
    apply in_map_iff in Hz. destruct Hz as [y [<- Hy]]. apply Hall. simpl; auto. }
  destruct Hin as [-> | Hin]; [lra |].
  assert (H : f x <= Rsum (map f l))
    by (apply IH; [intros y Hy; apply Hall; simpl; auto | exact Hin]).
  lra.
Qed.

Lemma nonneg_or_negative (f : R -> R) (l : list R) :
  (forall y, In y l -> 0 <= f y) \/ (exists y, In y l /\ f y < 0).
Proof.
  induction l as [| a l IH]; [left; intros y [] |].
  destruct (Rlt_le_dec (f a) 0) as [Hneg | Hpos].
  - right. exists a. split; [left; reflexivity | exact Hneg].
  - destruct IH as [Hall | [y [Hy Hfy]]].
    + left. intros y [<- | Hy]; auto.
    + right. exists y. split; [right; exact Hy | exact Hfy].
Qed.

Lemma Rsum_negative_term (f : R -> R) (l : list R) :
  Rsum (map f l) <= 0 ->
  (exists x, In x l /\ 0 < f x) ->
  exists y, In y l /\ f y < 0.
Proof.
  intros Hsum [x [Hin Hx]].
  destruct (nonneg_or_negative f l) as [Hall | Hex]; [exfalso | exact Hex].
  pose proof (Rsum_term_le f l x Hall Hin). lra.
Qed.

(** A value strictly above the mean forces a positive spread. *)
Lemma population_std_positive (l : list R) (x : R) :
  In x l -> mean_of l < x -> 0 < population_std l.
Proof.
  intros Hin Hx.
  assert (Hne : l <> []) by (intros ->; destruct Hin).
  destruct (population_std_square Hne) as [Hpos Hsq].
  destruct (Rle_lt_or_eq_dec _ _ Hpos) as [H | H]; [exact H | exfalso].
  rewrite <- H in Hsq. rewrite Rmult_0_l, Rmult_0_r in Hsq.
  pose proof (@Rsum_square_term R (fun y => y - mean_of l) l x Hin) as Ht.
  cbv beta in Ht. rewrite Hsq in Ht. nra.
Qed.

(** X8.  Every report of OutlierDetector carries threshold = mean + 2 x std
    with a strictly positive std, and mean < threshold < amount; some record
    of the same category lies strictly below that mean; reports of one
    category carry the same mean, std and threshold; and there are no more
    reports than records. *)
Theorem outlier_reports (es : list Expense) :
  exists outs,
    detect_outliers es = Ok outs
    /\ (length outs <= length es)%nat
    /\ forall o,
        In o outs ->
        o_threshold o = o_mean o + 2 * o_std o
        /\ 0 < o_std o
        /\ o_mean o < o_threshold o < o_amount o
        /\ (exists e, In e es /\ category e = o_category o
                      /\ expense_id e = o_id o /\ amount e = o_amount o)
        /\ (exists e, In e es /\ category e = o_category o
                      /\ amount e < o_mean o)
        /\ forall o', In o' outs -> o_category o' = o_category o ->
                      o_mean o' = o_mean o /\ o_std o' = o_std o
                      /\ o_threshold o' = o_threshold o.
Proof.
  eexists. split; [apply detect_outliers_Ok |]. split.
  { rewrite length_map. apply filter_length_le. }
  intros o Hin. apply in_map_iff in Hin. destruct Hin as [e [<- Hin]].
  apply exceeds_threshold_iff in Hin. destruct Hin as [Hin Hlt].
  cbn [outlier_of o_threshold o_mean o_std o_amount o_category o_id].
  unfold outlier_threshold in *.
  set (l := amounts_of (category e) es) in *.
  assert (Hl : In (amount e) l).
  { apply amounts_of_record. exists e. auto. }
  assert (Hne : l <> []) by (intros Hnil; rewrite Hnil in Hl; destruct Hl).
  destruct (population_std_square Hne) as [Hpos _].
  assert (Hstd : 0 < population_std l).
  { apply population_std_positive with (amount e); [exact Hl | lra]. }
  split; [reflexivity |]. split; [exact Hstd |]. split; [lra |].
  split; [exists e; auto |]. split.
  - destruct (@Rsum_negative_term (fun x => x - mean_of l) l) as [y [Hy Hneg]].
    + rewrite (deviations_sum_zero Hne). lra.
    + exists (amount e). split; [exact Hl | lra].
    + apply amounts_of_record in Hy. destruct Hy as [e' [He' [Hc' Ha']]].
      exists e'. repeat split; try assumption. lra.
  - intros o' Hin' Hc. apply in_map_iff in Hin'. destruct Hin' as [e' [<- _]].
    cbn [outlier_of o_threshold o_mean o_std o_category] in *.
    subst l. rewrite Hc. auto.
Qed.

(** ** Forecasts of exact trends *)

(** Least squares recovers a line that passes through all the points. *)
Lemma ols_exact_line (pts : list (Z * R)) (a b : R) (t : Z) :
  NoDup (map fst pts) ->
  (2 <= length pts)%nat ->
  (forall p, In p pts -> snd p = a + b * IZR (fst p)) ->
  ols_at pts t = a + b * IZR t.
Proof.
  intros Hnd Hlen Hline.
  set (oi := ols_intercept pts). set (os := ols_slope pts).
  assert (Hzero : squared_error pts a b = 0).
  { unfold squared_error. apply Rsum_map_zero.
    intros p Hp. rewrite (Hline p Hp). ring. }
  assert (Hfit : squared_error pts oi os = 0).
  { assert (Hne : pts <> [])
      by (intros Hnil; rewrite Hnil in Hlen; cbn [length] in Hlen; lia).
    pose proof (@ols_minimises pts Hne a b) as Hmin. fold oi os in Hmin.
    pose proof (Rsum_squares_nonneg
                  (fun p : Z * R => snd p - (oi + os * IZR (fst p))) pts) as H0.
    unfold squared_error in *. lra. }
  assert (Hres : forall p, In p pts -> snd p = oi + os * IZR (fst p)).
  { intros p Hp.
    pose proof (@Rsum_square_term _
                  (fun q : Z * R => snd q - (oi + os * IZR (fst q))) pts p Hp) as Ht.
    cbv beta in Ht. unfold squared_error in Hfit. rewrite Hfit in Ht. nra. }
  destruct pts as [| p1 [| p2 rest]]; cbn [length] in Hlen; try lia.
  assert (Hx : IZR (fst p1) <> IZR (fst p2)).
  { intros Heq. apply eq_IZR in Heq. cbn [map] in Hnd.
    inversion Hnd as [| x l Hnotin _]. subst. apply Hnotin. left. auto. }
  pose proof (Hline p1 (or_introl eq_refl)) as L1.
  pose proof (Hline p2 (or_intror (or_introl eq_refl))) as L2.
  pose proof (Hres p1 (or_introl eq_refl)) as R1.
  pose proof (Hres p2 (or_intror (or_introl eq_refl))) as R2.
  assert (Hprod : (b - os) * (IZR (fst p1) - IZR (fst p2)) = 0) by lra.
  apply Rmult_integral in Hprod.
  assert (Hb : os = b) by (destruct Hprod; [lra | exfalso; lra]).
  assert (Ha : oi = a) by (rewrite Hb in R1; lra).
  unfold ols_at. fold oi os. rewrite Ha, Hb. reflexivity.
Qed.

Lemma data_points_record (es : list Expense) (k0 : month_key) (c : string) :
  data_points es k0 c <> [] -> has_dated_record es c.
Proof.
  unfold data_points. intros Hne.
  destruct (filter (fun k => existsb (in_bucket k c) es) (months_of es))
    as [| k l] eqn:Ef; [contradiction Hne; reflexivity |].
  assert (Hk : In k (filter (fun k => existsb (in_bucket k c) es) (months_of es)))
    by (rewrite Ef; left; reflexivity).
  apply filter_In in Hk. destruct Hk as [_ Hk].
  apply existsb_in_bucket in Hk. destruct Hk as [e [Hin [Hd [_ Hc]]]].
  exists e. auto.
Qed.

(** X9.  In exact arithmetic: when the monthly totals of a category (two
    months or more, on valid dates) lie exactly on a line a + b x index,
    ExpenseForecaster forecasts the value of that line at the target index,
    raised to zero when negative.  (The regression of the library rounds,
    and its forecast can miss the line in the last places.) *)
Theorem forecast_extends_exact_trend (today : date) (es : list Expense)
    (target_month : option date) (k0 : month_key) (c : string) (a b : R) :
  let target := match target_month with Some d => d | None => today end in
  Forall (fun e => forall d, expense_date e = Some d -> valid_date d) es ->
  is_earliest_month es k0 ->
  (2 <= length (data_points es k0 c))%nat ->
  (forall p, In p (data_points es k0 c) -> snd p = a + b * IZR (fst p)) ->
  exists predictions,
    predict_monthly_expense today es target_month = Ok predictions
    /\ dict_get String.eqb predictions c
       = Some (Rmax 0 (a + b * IZR (month_index k0 (year target, month target)))).
Proof.
  intros target Hvalid Hk0 Hlen Hline.
  destruct (predict_monthly_expense_Ok today es target_month)
    as [p [Hp [_ [_ Hsome]]]].
  exists p. split; [exact Hp |].
  assert (Hrec : has_dated_record es c).
  { apply (@data_points_record es k0 c). intros Hnil. rewrite Hnil in Hlen.
    cbn [length] in Hlen. lia. }
  destruct (Hsome c Hrec) as [k1 [Hk1 Hval]]. fold target in Hval.
  rewrite (is_earliest_month_unique Hk1 Hk0) in Hval. rewrite Hval.
  unfold forecast_of.
  replace (length (data_points es k0 c) <? 2)%nat with false
    by (symmetry; apply Nat.ltb_ge; exact Hlen).
  rewrite (@ols_exact_line _ a b _ (data_points_distinct k0 c Hvalid) Hlen Hline).
  reflexivity.
Qed.

(** X9 at a concrete input: 100, 200, 300 in January to March 2024 and a
    target in June. *)
Lemma forecast_extends_exact_trend_witness :
  exists predictions,
    predict_monthly_expense (mkdate 2024 6 1) (three_months 100 200 300)
                            (Some (mkdate 2024 6 15)) = Ok predictions
    /\ dict_get String.eqb predictions "food"
       = Some (Rmax 0 (100 + 100 * IZR (month_index (2024, 1)%Z (2024, 6)%Z))).
Proof.
  apply (@forecast_extends_exact_trend (mkdate 2024 6 1) (three_months 100 200 300)
           (Some (mkdate 2024 6 15)) (2024, 1)%Z "food" 100 100).
  - repeat constructor; intros d Hd; injection Hd as <-; vm_compute; auto.
  - apply three_months_earliest.
  - rewrite three_months_points. cbn [length]. lia.
  - rewrite three_months_points.
    intros p [<- | [<- | [<- | []]]]; cbn [fst snd]; lra.
Defined.

(** ** What the analyses do not read *)

Lemma foldM_ext (A B : Type) (f g : B -> A -> outcome B) (l : list A) (b : B) :
  (forall b' a, f b' a = g b' a) -> foldM f l b = foldM g l b.
Proof.
  intros H. revert b. induction l as [| a l IH]; intros b; [reflexivity |].
  cbn [foldM]. rewrite H. destruct (g b a); cbn [bind]; [apply IH | reflexivity].
Qed.

Lemma monthly_data_dated (es : list Expense) :
  monthly_data (filter is_dated es) = monthly_data es.
Proof.
  unfold monthly_data.
  assert (H : forall (f : dict month_key (dict string R) -> Expense
                          -> dict month_key (dict string R))
                     (md : dict month_key (dict string R)),
             (forall md' e, is_dated e = false -> f md' e = md') ->
             fold_left f (filter is_dated es) md = fold_left f es md).
  { intros f md Hf. revert md.
    induction es as [| e es IH]; intros md; [reflexivity |].
    cbn [filter fold_left]. destruct (is_dated e) eqn:Ed.
    - cbn [fold_left]. apply IH.
    - rewrite (Hf md e Ed). apply IH. }
  apply H. intros md' e Hd. unfold is_dated in Hd.
  destruct (expense_date e); [discriminate | reflexivity].
Qed.

Lemma predict_by_monthly_data (today : date) (es1 es2 : list Expense)
    (target_month : option date) :
  monthly_data es1 = monthly_data es2 ->
  predict_monthly_expense today es1 target_month
  = predict_monthly_expense today es2 target_month.
Proof.
  intros H. unfold predict_monthly_expense.
  destruct es1 as [| e1 l1], es2 as [| e2 l2]; [reflexivity | | |].
  - cbv zeta. rewrite <- H. reflexivity.
  - cbv zeta. rewrite H. reflexivity.
  - cbv zeta. rewrite H. reflexivity.
Qed.

(** X10.  ExpenseForecaster does not read the records without a date:
    dropping them from the input leaves the result as it is. *)
Theorem forecast_ignores_undated (today : date) (es : list Expense)
    (target_month : option date) :
  predict_monthly_expense today (filter is_dated es) target_month
  = predict_monthly_expense today es target_month.
Proof. apply predict_by_monthly_data, monthly_data_dated. Qed.

Lemma month_windows_year_month (d1 d2 : date) :
  year d1 = year d2 -> month d1 = month d2 ->
  month_windows d1 = month_windows d2.
Proof.
  destruct d1 as [y1 m1 dd1], d2 as [y2 m2 dd2]. cbn [year month].
  intros -> ->. reflexivity.
Qed.

(** X11.  GrowthAnalyzer and ExpenseForecaster read the year and the month
    of the reference date only: two reference dates of one month give the
    same result, whatever today's date, and with no reference date they
    answer as for today's date. *)
Theorem reference_month_only (today today' d1 d2 : date) (es : list Expense) :
  year d1 = year d2 -> month d1 = month d2 ->
  calculate_mom_growth today es (Some d1) = calculate_mom_growth today' es (Some d2)
  /\ predict_monthly_expense today es (Some d1)
     = predict_monthly_expense today' es (Some d2)
  /\ calculate_mom_growth today es None = calculate_mom_growth today' es (Some today)
  /\ predict_monthly_expense today es None
     = predict_monthly_expense today' es (Some today).
Proof.
  intros Hy Hm. split; [| split; [| split; reflexivity]].
  - unfold calculate_mom_growth. destruct es as [| e es]; [reflexivity |].
    rewrite (month_windows_year_month _ _ Hy Hm). reflexivity.
  - unfold predict_monthly_expense. destruct es as [| e es]; [reflexivity |].
    cbv zeta. destruct (monthly_data (e :: es)) as [| item md]; [reflexivity |].
    destruct (py_min_key (dict_keys (item :: md))) as [mk | err];
      [| reflexivity].
    cbn [bind]. apply foldM_ext. intros p c.
    unfold predict_category. rewrite Hy, Hm. reflexivity.
Qed.

(** X11 at a concrete input. *)
Lemma reference_month_only_witness :
  calculate_mom_growth (mkdate 2024 8 1) (three_months 100 200 300)
                       (Some (mkdate 2024 3 15))
  = calculate_mom_growth (mkdate 2025 1 1) (three_months 100 200 300)
                         (Some (mkdate 2024 3 31))
  /\ predict_monthly_expense (mkdate 2024 8 1) (three_months 100 200 300)
                             (Some (mkdate 2024 3 15))
     = predict_monthly_expense (mkdate 2025 1 1) (three_months 100 200 300)
                               (Some (mkdate 2024 3 31)).
Proof.
  destruct (@reference_month_only (mkdate 2024 8 1) (mkdate 2025 1 1)
              (mkdate 2024 3 15) (mkdate 2024 3 31) (three_months 100 200 300)
              eq_refl eq_refl) as [H1 [H2 _]].
  split; [exact H1 | exact H2].
Defined.

Lemma mom_bucket_other_month (y m : Z) (data : dict string R * dict string R)
    (e : Expense) :
  in_either_month y m e = false ->
  mom_bucket
    (mkdate (fst (previous_month y m)) (snd (previous_month y m)) 1,
     mkdate (fst (previous_month y m)) (snd (previous_month y m))
            (days_in_month (fst (previous_month y m)) (snd (previous_month y m))),
     mkdate y m 1,
     mkdate y m (days_in_month y m)) data e
  = data.
Proof.
  unfold in_either_month, dated_in_month, mom_bucket.
  destruct (expense_date e) as [d |]; [| reflexivity].
  intros H. apply orb_false_iff in H. destruct H as [H1 H2].
  unfold in_month in H1, H2. rewrite H1, H2. reflexivity.
Qed.

Lemma mom_bucket_filter (y m : Z) (es : list Expense)
    (data : dict string R * dict string R) :
  fold_left
    (mom_bucket
       (mkdate (fst (previous_month y m)) (snd (previous_month y m)) 1,
        mkdate (fst (previous_month y m)) (snd (previous_month y m))
               (days_in_month (fst (previous_month y m)) (snd (previous_month y m))),
        mkdate y m 1,
        mkdate y m (days_in_month y m)))
    (filter (in_either_month y m) es) data
  = fold_left
      (mom_bucket
         (mkdate (fst (previous_month y m)) (snd (previous_month y m)) 1,
          mkdate (fst (previous_month y m)) (snd (previous_month y m))
                 (days_in_month (fst (previous_month y m)) (snd (previous_month y m))),
          mkdate y m 1,
          mkdate y m (days_in_month y m)))
      es data.
Proof.
  revert data. induction es as [| e es IH]; intros data; [reflexivity |].
  cbn [filter fold_left]. destruct (in_either_month y m e) eqn:E.
  - cbn [fold_left]. apply IH.
  - rewrite (mom_bucket_other_month _ _ data _ E). apply IH.
Qed.

(** X12.  For a reference month whose windows exist, GrowthAnalyzer reads
    only the records dated in the reference month or in the month before:
    dropping every other record, dated or not, leaves the result as it
    is. *)
Theorem mom_growth_reads_two_months (today : date) (es : list Expense)
    (current_month : option date) :
  let ref := match current_month with Some d => d | None => today end in
  windows_exist ref ->
  calculate_mom_growth today (filter (in_either_month (year ref) (month ref)) es)
                       current_month
  = calculate_mom_growth today es current_month.
Proof.
  intros ref Hw. unfold calculate_mom_growth. fold ref.
  pose proof (mom_bucket_filter (year ref) (month ref) es ([], [])) as Hfold.
  destruct es as [| e0 es0]; [reflexivity |].
  rewrite (month_windows_Ok Hw) in *. cbn [bind].
  destruct (filter (in_either_month (year ref) (month ref)) (e0 :: es0))
    as [| e1 l1] eqn:Ef.
  - rewrite <- Hfold. reflexivity.
  - rewrite Hfold. reflexivity.
Qed.

(** X12 at a concrete input: March 2024 as the reference month drops the
    record of January. *)
Lemma mom_growth_reads_two_months_witness :
  calculate_mom_growth (mkdate 2024 3 20)
    (filter (in_either_month 2024 3) (three_months 100 200 300)) None
  = calculate_mom_growth (mkdate 2024 3 20) (three_months 100 200 300) None.
Proof.
  apply (@mom_growth_reads_two_months (mkdate 2024 3 20)
           (three_months 100 200 300) None).
  unfold windows_exist. cbn [year month]. lia.
Defined.

(** ** CategoryClassifier *)

Lemma prefix_same (s : string) : prefix s s = true.
Proof.
  induction s as [| c s IH]; [reflexivity |].
  cbn [prefix]. destruct (ascii_dec c c) as [_ | Hn]; [exact IH | contradiction].
Qed.

Lemma str_in_same (s : string) : str_in s s = true.
Proof. destruct s; cbn [str_in]; rewrite prefix_same; reflexivity. Qed.

Lemma existsb_eqb_member (x : string) (l : list string) :
  existsb (String.eqb x) l = true -> In x l.
Proof.
  intros H. apply existsb_exists in H. destruct H as [y [Hy Heq]].
  apply String.eqb_eq in Heq. subst. exact Hy.
Qed.

(** What [classify] answers, whatever the model says. *)
Lemma classify_cases (llm : string -> string -> outcome string)
    (description : string) (categories : option (list string)) :
  let cats := match categories with Some l => l | None => DEFAULT_CATEGORIES end in
  classify llm description categories = "기타"
  \/ exists content,
      llm (join ", " cats) (strip description) = Ok content
      /\ In (classify llm description categories) cats
      /\ str_in (classify llm description categories) (strip content) = true.
Proof.
  intros cats. unfold classify. fold cats.
  destruct (is_empty description || is_empty (strip description));
    [left; reflexivity |].
  destruct (llm (join ", " cats) (strip description)) as [content |];
    [| left; reflexivity].
  cbv zeta.
  destruct (existsb (String.eqb (strip content)) cats) eqn:Ein.
  - right. exists content. split; [reflexivity |].
    split; [apply existsb_eqb_member, Ein | apply str_in_same].
  - destruct (find (fun cat => str_in cat (strip content)) cats) as [cat |] eqn:Ef;
      [| left; reflexivity].
    apply find_some in Ef. destruct Ef as [Hin Hsub].
    right. exists content. auto.
Qed.

(** X13.  Whatever the language model answers or raises, [classify]
    returns a category of the list it was given or the fallback category;
    with the default list, which holds the fallback, the result is always
    one of the ten default categories; a result other than the fallback
    occurs in the model's answer; a blank description gives the fallback
    without regard to the model.  With a list that lacks the fallback the
    result can lie outside the list. *)
Theorem classify_result :
  (forall llm description,
      In (classify llm description None) DEFAULT_CATEGORIES)
  /\ (forall llm description cats,
         In (classify llm description (Some cats)) cats
         \/ classify llm description (Some cats) = "기타")
  /\ (forall llm description categories,
         classify llm description categories <> "기타" ->
         exists content,
           llm (join ", " (match categories with
                           | Some l => l
                           | None => DEFAULT_CATEGORIES
                           end)) (strip description) = Ok content
           /\ str_in (classify llm description categories) (strip content) = true)
  /\ (forall llm description categories,
         blank description = true ->
         classify llm description categories = "기타")
  /\ (forall llm description categories e,
         llm (join ", " (match categories with
                         | Some l => l
                         | None => DEFAULT_CATEGORIES
                         end)) (strip description) = Raise e ->
         classify llm description categories = "기타")
  /\ exists llm description cats,
      ~ In (classify llm description (Some cats)) cats.
Proof.
  split; [| split; [| split; [| split; [| split]]]].
  - intros llm d.
    destruct (classify_cases llm d None) as [-> | [content [_ [Hin _]]]];
      [| exact Hin].
    unfold DEFAULT_CATEGORIES. simpl. tauto.
  - intros llm d cats.
    destruct (classify_cases llm d (Some cats)) as [H | [content [_ [Hin _]]]];
      [right; exact H | left; exact Hin].
  - intros llm d categories Hne.
    destruct (classify_cases llm d categories) as [H | [content [Hc [_ Hs]]]];
      [contradiction |].
    exists content. auto.
  - intros llm d categories Hb. unfold classify.
    apply strip_blank in Hb. rewrite Hb, orb_true_r. reflexivity.
  - intros llm d categories e He. unfold classify.
    destruct (is_empty d || is_empty (strip d)); [reflexivity |].
    cbv zeta. rewrite He. reflexivity.
  - exists (fun _ _ => Ok "none of these"), "coffee", ["food"; "rent"].
    vm_compute. intros [H | [H | []]]; discriminate H.
Qed.

(** ** The dictionary form of a record *)

Lemma date_isoformat_truthy (d : date) : truthy (VStr (date_isoformat d)) = true.
Proof. reflexivity. Qed.

(** X14.  A record whose date is None or a date, and whose creation time is
    None or a datetime that [datetime.fromisoformat] reads back from its ISO
    text, survives the round trip: [to_dict] answers a dictionary of the
    seven keys, and [from_dict] rebuilds the record from it, whatever the
    other five fields hold. *)
Theorem expense_dict_round_trip
    (datetime_fromisoformat : string -> outcome datetime)
    (datetime_isoformat : datetime -> string)
    (py_str : value -> string) (e : ExpenseObject) :
  (f_date e = VNone \/ exists d, f_date e = VDate d /\ valid_date d) ->
  (f_created_at e = VNone
   \/ exists dt, f_created_at e = VDatetime dt
                 /\ is_empty (datetime_isoformat dt) = false
                 /\ datetime_fromisoformat (datetime_isoformat dt) = Ok dt) ->
  exists data,
    to_dict datetime_isoformat e = Returns data
    /\ dict_keys data
       = ["id"; "date"; "category"; "description"; "amount"; "merchant";
          "created_at"]
    /\ from_dict datetime_fromisoformat py_str data = Returns e.
Proof.
  destruct e as [i d c ds a m cr]. cbn [f_date f_created_at].
  intros Hd Hc. unfold to_dict. cbn [f_date f_created_at f_id f_category
                                      f_description f_amount f_merchant].
  assert (Hdate : exists dv,
             isoformat_or_none datetime_isoformat d = Returns dv
             /\ (if truthy dv
                 then parse_date_value datetime_fromisoformat py_str dv
                 else Returns VNone) = Returns d).
  { destruct Hd as [-> | [d0 [-> Hv]]].
    - exists VNone. split; reflexivity.
    - exists (VStr (date_isoformat d0)). split; [reflexivity |].
      rewrite date_isoformat_truthy. cbn [parse_date_value].
      rewrite (parse_date_isoformat datetime_fromisoformat Hv). reflexivity. }
  assert (Hcreated : exists cv,
             isoformat_or_none datetime_isoformat cr = Returns cv
             /\ (if truthy cv then
                   match cv with
                   | VStr s =>
                       match datetime_fromisoformat s with
                       | Ok dt => Returns (VDatetime dt)
                       | Raise e => Raises (ValueError e)
                       end
                   | _ => Raises TypeError
                   end
                 else Returns VNone) = Returns cr).
  { destruct Hc as [-> | [dt [-> [Hne Hrt]]]].
    - exists VNone. split; reflexivity.
    - exists (VStr (datetime_isoformat dt)). split; [reflexivity |].
      cbn [truthy]. rewrite Hne. cbn [negb]. rewrite Hrt. reflexivity. }
  destruct Hdate as [dv [-> Hdv]]. destruct Hcreated as [cv [-> Hcv]].
  eexists. split; [reflexivity |]. split; [reflexivity |].
  unfold from_dict.
  change (data_get _ "date") with dv.
  change (data_get _ "created_at") with cv.
  rewrite Hdv, Hcv. reflexivity.
Qed.

(** X14 at a concrete input. *)
Lemma expense_dict_round_trip_witness :
  exists data,
    to_dict datetime_isoformat_hms sample_object = Returns data
    /\ dict_keys data
       = ["id"; "date"; "category"; "description"; "amount"; "merchant";
          "created_at"]
    /\ from_dict datetime_fromisoformat_hms (fun _ => EmptyString) data
       = Returns sample_object.
Proof.
  apply (@expense_dict_round_trip datetime_fromisoformat_hms
           datetime_isoformat_hms (fun _ => EmptyString) sample_object).
  - right. exists (mkdate 2024 3 10). split; reflexivity.
  - right. exists (mkdatetime (mkdate 2024 3 10) 9 30 0).
    split; [reflexivity |]. split; reflexivity.
Defined.

(** ** A change of unit *)

Lemma filter_map_commute (A B : Type) (f : A -> B) (p : B -> bool) (l : list A) :
  filter p (map f l) = map f (filter (fun x => p (f x)) l).
Proof.
  induction l as [| a l IH]; [reflexivity |].
  cbn [map filter]. destruct (p (f a)); cbn [map]; rewrite IH; reflexivity.
Qed.

Lemma Rsum_scale (k : R) (l : list R) : Rsum (map (Rmult k) l) = k * Rsum l.
Proof. induction l as [| a l IH]; cbn [map Rsum]; [| rewrite IH]; ring. Qed.

Lemma mean_of_scale (k : R) (l : list R) :
  mean_of (map (Rmult k) l) = k * mean_of l.
Proof.
  unfold mean_of. rewrite Rsum_scale, length_map. unfold Rdiv. ring.
Qed.

Lemma population_std_scale (k : R) (l : list R) :
  0 <= k -> population_std (map (Rmult k) l) = k * population_std l.
Proof.
  intros Hk. unfold population_std.
  rewrite mean_of_scale, length_map, map_map.
  replace (Rsum (map (fun x => (k * x - k * mean_of l) * (k * x - k * mean_of l)) l))
    with (k * k * Rsum (map (fun x => (x - mean_of l) * (x - mean_of l)) l)).
  - unfold Rdiv. rewrite Rmult_assoc.
    rewrite sqrt_mult_alt by nra. rewrite sqrt_square by exact Hk. reflexivity.
  - rewrite <- Rsum_scale, map_map. f_equal. apply map_ext. intros x. ring.
Qed.

Lemma amounts_of_scale (k : R) (c : string) (es : list Expense) :
  amounts_of c (map (scale k) es) = map (Rmult k) (amounts_of c es).
Proof.
  unfold amounts_of. rewrite filter_map_commute, !map_map. reflexivity.
Qed.

Lemma outlier_threshold_scale (k : R) (c : string) (es : list Expense) :
  0 <= k ->
  outlier_threshold (map (scale k) es) c = k * outlier_threshold es c.
Proof.
  intros Hk. unfold outlier_threshold.
  rewrite amounts_of_scale, mean_of_scale, (population_std_scale _ Hk). ring.
Qed.

(** X16.  In exact arithmetic, OutlierDetector does not depend on the unit
    of the amounts: with every amount multiplied by a positive factor it
    reports the same records, in the same order, with amount, threshold,
    mean and std multiplied by that factor.  (Rounded to binary64, a record
    whose amount is the threshold up to rounding can be reported in one
    unit and not in another.) *)
Theorem outliers_unit_invariant (k : R) (es : list Expense) :
  0 < k ->
  exists outs,
    detect_outliers es = Ok outs
    /\ detect_outliers (map (scale k) es) = Ok (map (scale_outlier k) outs).
Proof.
  intros Hk. eexists. split; [apply detect_outliers_Ok |].
  rewrite detect_outliers_Ok, filter_map_commute, !map_map. f_equal.
  assert (Hk0 : 0 <= k) by lra.
  assert (Hf : filter (fun x => exceeds_threshold (map (scale k) es) (scale k x)) es
               = filter (exceeds_threshold es) es).
  { apply filter_ext. intros e. unfold exceeds_threshold.
    cbn [scale category amount].
    rewrite (outlier_threshold_scale _ _ Hk0).
    destruct (Rltb (outlier_threshold es (category e)) (amount e)) eqn:E.
    - apply Rltb_true in E. apply Rltb_true. nra.
    - apply Rltb_false in E. apply Rltb_false. nra. }
  rewrite Hf. apply map_ext. intros e.
  unfold outlier_of, scale_outlier.
  cbn [scale expense_id expense_date category description amount
       o_id o_date o_category o_description o_amount o_threshold o_mean o_std].
  rewrite (outlier_threshold_scale _ _ Hk0), amounts_of_scale, mean_of_scale,
    (population_std_scale _ Hk0).
  reflexivity.
Qed.

Lemma mapM_ext (A B : Type) (f g : A -> outcome B) (l : list A) :
  (forall a, f a = g a) -> mapM f l = mapM g l.
Proof.
  intros H. induction l as [| a l IH]; [reflexivity |].
  cbn [mapM]. rewrite H, IH. reflexivity.
Qed.

Lemma scale_totals_update (k a : R) (c : string) (d : dict string R) :
  dict_update String.eqb 0 c (fun t => t + k * a) (scale_totals k d)
  = scale_totals k (dict_update String.eqb 0 c (fun t => t + a) d).
Proof.
  unfold scale_totals. induction d as [| [c' v] d IH].
  - cbn [map dict_update fst snd]. f_equal. f_equal. ring.
  - cbn [map dict_update fst snd]. destruct (String.eqb c c').
    + cbn [map fst snd]. f_equal. f_equal. ring.
    + cbn [map fst snd]. rewrite IH. reflexivity.
Qed.

Lemma mom_bucket_scale (k : R) (w : date * date * date * date)
    (data : dict string R * dict string R) (e : Expense) :
  mom_bucket w (scale_totals k (fst data), scale_totals k (snd data)) (scale k e)
  = (scale_totals k (fst (mom_bucket w data e)),
     scale_totals k (snd (mom_bucket w data e))).
Proof.
  destruct w as [[[ps pe] cs] ce]. unfold mom_bucket.
  cbn [scale expense_date category amount].
  destruct (expense_date e) as [d |]; [| reflexivity].
  destruct (date_leb ps d && date_leb d pe).
  - cbn [fst snd]. rewrite scale_totals_update. reflexivity.
  - destruct (date_leb cs d && date_leb d ce); [| reflexivity].
    cbn [fst snd]. rewrite scale_totals_update. reflexivity.
Qed.

Lemma mom_fold_scale (k : R) (w : date * date * date * date) (es : list Expense)
    (data : dict string R * dict string R) :
  fold_left (mom_bucket w) (map (scale k) es)
            (scale_totals k (fst data), scale_totals k (snd data))
  = (scale_totals k (fst (fold_left (mom_bucket w) es data)),
     scale_totals k (snd (fold_left (mom_bucket w) es data))).
Proof.
  revert data. induction es as [| e es IH]; intros data; [reflexivity |].
  cbn [map fold_left]. rewrite mom_bucket_scale. apply IH.
Qed.

Lemma scale_totals_keys (k : R) (d : dict string R) :
  dict_keys (scale_totals k d) = dict_keys d.
Proof. unfold dict_keys, scale_totals. rewrite map_map. reflexivity. Qed.

Lemma scale_totals_get (k : R) (d : dict string R) (c : string) :
  dict_get_default String.eqb (scale_totals k d) c 0
  = k * dict_get_default String.eqb d c 0.
Proof.
  unfold dict_get_default, scale_totals. rewrite dict_get_map_values.
  destruct (dict_get String.eqb d c); cbn [option_map]; ring.
Qed.

Lemma mom_rate_scale (k prev cur : R) :
  0 < k -> mom_rate (k * prev) (k * cur) = mom_rate prev cur.
Proof.
  intros Hk. rewrite !mom_rate_Ok. f_equal. unfold growth_of.
  assert (H0 : Reqb (k * prev) 0 = Reqb prev 0).
  { destruct (Reqb prev 0) eqn:E.
    - apply Reqb_true in E. apply Reqb_true. rewrite E. ring.
    - apply Reqb_false in E. apply Reqb_false. nra. }
  assert (H1 : Rltb 0 (k * cur) = Rltb 0 cur).
  { destruct (Rltb 0 cur) eqn:E.
    - apply Rltb_true in E. apply Rltb_true. nra.
    - apply Rltb_false in E. apply Rltb_false. nra. }
  rewrite H0, H1. destruct (Reqb prev 0) eqn:E; [reflexivity |].
  apply Reqb_false in E. f_equal. field. split; lra.
Qed.

(** X17.  In exact arithmetic, GrowthAnalyzer does not depend on the unit
    of the amounts: with every amount multiplied by a positive factor the
    result, value or error, is the same.  (Rounded to binary64, the rates
    can differ in the last place.) *)
Theorem mom_growth_unit_invariant (today : date) (k : R) (es : list Expense)
    (current_month : option date) :
  0 < k ->
  calculate_mom_growth today (map (scale k) es) current_month
  = calculate_mom_growth today es current_month.
Proof.
  intros Hk. unfold calculate_mom_growth.
  destruct es as [| e0 es0]; [reflexivity |].
  cbn [map].
  destruct (month_windows
              match current_month with Some d => d | None => today end)
    as [w | err]; [| reflexivity].
  cbn [bind]. cbv zeta.
  pose proof (mom_fold_scale k w (e0 :: es0) ([], [])) as Hfold.
  cbn [map fst snd scale_totals] in Hfold.
  set (scaled := fold_left (mom_bucket w) (scale k e0 :: map (scale k) es0) _).
  assert (Hscaled : scaled
                    = (scale_totals k (fst (fold_left (mom_bucket w) (e0 :: es0)
                                                      ([], []))),
                       scale_totals k (snd (fold_left (mom_bucket w) (e0 :: es0)
                                                      ([], [])))))
    by exact Hfold.
  rewrite Hscaled. cbn [fst snd]. rewrite !scale_totals_keys.
  apply mapM_ext. intros c. rewrite !scale_totals_get, (mom_rate_scale _ _ Hk).
  reflexivity.
Qed.

(** X17 at a concrete input. *)
Lemma mom_growth_unit_invariant_witness :
  calculate_mom_growth (mkdate 2024 3 20)
                       (map (scale 1300) (three_months 100 200 300)) None
  = calculate_mom_growth (mkdate 2024 3 20) (three_months 100 200 300) None.
Proof.
  apply (@mom_growth_unit_invariant (mkdate 2024 3 20) 1300
           (three_months 100 200 300) None).
  lra.
Defined.

Lemma months_of_scale (k : R) (es : list Expense) :
  months_of (map (scale k) es) = months_of es.
Proof.
  unfold months_of. rewrite filter_map_commute, map_map. reflexivity.
Qed.

Lemma existsb_in_bucket_scale (k : R) (mk : month_key) (c : string)
    (es : list Expense) :
  existsb (in_bucket mk c) (map (scale k) es) = existsb (in_bucket mk c) es.
Proof.
  induction es as [| e es IH]; [reflexivity |].
  cbn [map existsb]. rewrite IH. reflexivity.
Qed.

Lemma bucket_total_of_scale (k : R) (mk : month_key) (c : string)
    (es : list Expense) :
  bucket_total_of (map (scale k) es) mk c = k * bucket_total_of es mk c.
Proof.
  unfold bucket_total_of. rewrite filter_map_commute, map_map.
  rewrite <- Rsum_scale, map_map. reflexivity.
Qed.

Lemma data_points_scale (k : R) (k0 : month_key) (c : string) (es : list Expense) :
  data_points (map (scale k) es) k0 c
  = map (fun p => (fst p, k * snd p)) (data_points es k0 c).
Proof.
  unfold data_points. rewrite months_of_scale, map_map. cbn [fst snd].
  rewrite (filter_ext _ (fun mk => existsb (in_bucket mk c) es)
             (fun mk => existsb_in_bucket_scale k mk c es)).
  apply map_ext. intros mk. rewrite bucket_total_of_scale. reflexivity.
Qed.

Lemma ols_at_scale (k : R) (pts : list (Z * R)) (t : Z) :
  ols_at (map (fun p => (fst p, k * snd p)) pts) t = k * ols_at pts t.
Proof.
  set (pts' := map (fun p : Z * R => (fst p, k * snd p)) pts).
  assert (Hxs : xs_of pts' = xs_of pts).
  { unfold xs_of, pts'. rewrite map_map. reflexivity. }
  assert (Hys : ys_of pts' = map (Rmult k) (ys_of pts)).
  { unfold ys_of, pts'. rewrite !map_map. reflexivity. }
  assert (Hxx : sxx pts' = sxx pts).
  { unfold sxx. rewrite Hxs. unfold pts'. rewrite map_map. reflexivity. }
  assert (Hxy : sxy pts' = k * sxy pts).
  { unfold sxy. rewrite Hxs, Hys, mean_of_scale. unfold pts'.
    rewrite map_map. cbn [fst snd]. rewrite <- Rsum_scale, map_map.
    f_equal. apply map_ext. intros p. ring. }
  assert (Hslope : ols_slope pts' = k * ols_slope pts).
  { unfold ols_slope. rewrite Hxx, Hxy.
    destruct (Reqb (sxx pts) 0); [ring | unfold Rdiv; ring]. }
  unfold ols_at, ols_intercept. rewrite Hslope, Hxs, Hys, mean_of_scale. ring.
Qed.

Lemma forecast_of_scale (k : R) (es : list Expense) (k0 : month_key) (t : Z)
    (c : string) :
  0 <= k ->
  forecast_of (map (scale k) es) k0 t c = k * forecast_of es k0 t c.
Proof.
  intros Hk. unfold forecast_of. rewrite data_points_scale, length_map.
  destruct (length (data_points es k0 c) <? 2)%nat.
  - unfold ys_of. rewrite map_map. cbn [snd].
    rewrite <- (map_map snd (Rmult k)). apply mean_of_scale.
  - rewrite ols_at_scale. rewrite <- (RmaxRmult 0 (ols_at (data_points es k0 c) t) k Hk).
    rewrite Rmult_0_r. reflexivity.
Qed.

Lemma has_dated_record_scale (k : R) (es : list Expense) (c : string) :
  has_dated_record (map (scale k) es) c <-> has_dated_record es c.
Proof.
  unfold has_dated_record. split.
  - intros [e' [Hin [Hd Hc]]]. apply in_map_iff in Hin.
    destruct Hin as [e [<- Hin]]. exists e. auto.
  - intros [e [Hin [Hd Hc]]]. exists (scale k e).
    split; [apply in_map, Hin | auto].
Qed.

(** X18.  In exact arithmetic, ExpenseForecaster follows the unit of the
    amounts: with every amount multiplied by a positive factor, the
    forecast of every category is multiplied by that factor, and the
    categories forecast are the same.  (Rounded to binary64, the forecasts
    can differ from the multiples in the last places.) *)
Theorem forecast_unit_equivariant (today : date) (k : R) (es : list Expense)
    (target_month : option date) :
  0 < k ->
  exists predictions predictions',
    predict_monthly_expense today es target_month = Ok predictions
    /\ predict_monthly_expense today (map (scale k) es) target_month
       = Ok predictions'
    /\ forall c, dict_get String.eqb predictions' c
                 = option_map (Rmult k) (dict_get String.eqb predictions c).
Proof.
  intros Hk.
  destruct (predict_monthly_expense_Ok today es target_month)
    as [p [Hp [_ [Hnone Hsome]]]].
  destruct (predict_monthly_expense_Ok today (map (scale k) es) target_month)
    as [p' [Hp' [_ [Hnone' Hsome']]]].
  exists p, p'. split; [exact Hp |]. split; [exact Hp' |].
  intros c. destruct (has_dated_record_dec es c) as [Hc | Hc].
  - destruct (Hsome c Hc) as [k0 [Hk0 ->]].
    destruct (Hsome' c (proj2 (has_dated_record_scale k es c) Hc))
      as [k1 [Hk1 ->]].
    assert (Hk1' : is_earliest_month es k1).
    { unfold is_earliest_month in *. rewrite months_of_scale in Hk1. exact Hk1. }
    rewrite (is_earliest_month_unique Hk1' Hk0).
    cbn [option_map]. f_equal. apply forecast_of_scale. lra.
  - rewrite (Hnone c Hc), (Hnone' c); [reflexivity |].
    intros H. apply Hc, (has_dated_record_scale k es c), H.
Qed.

(** X18 at a concrete input. *)
Lemma forecast_unit_equivariant_witness :
  exists predictions predictions',
    predict_monthly_expense (mkdate 2024 6 1) (three_months 100 200 300) None
    = Ok predictions
    /\ predict_monthly_expense (mkdate 2024 6 1)
                               (map (scale 1300) (three_months 100 200 300)) None
       = Ok predictions'
    /\ forall c, dict_get String.eqb predictions' c
                 = option_map (Rmult 1300) (dict_get String.eqb predictions c).
Proof.
  apply (@forecast_unit_equivariant (mkdate 2024 6 1) 1300
           (three_months 100 200 300) None).
  lra.
Defined.

Lemma Rltb_scale (k x y : R) : 0 < k -> Rltb (k * x) (k * y) = Rltb x y.
Proof.
  intros Hk. destruct (Rltb x y) eqn:E.
  - apply Rltb_true in E. apply Rltb_true. nra.
  - apply Rltb_false in E. apply Rltb_false. nra.
Qed.

Lemma Rleb_scale (k x y : R) : 0 < k -> Rleb (k * x) (k * y) = Rleb x y.
Proof.
  intros Hk. unfold Rleb.
  destruct (Rle_dec (k * x) (k * y)), (Rle_dec x y);
    try reflexivity; exfalso; nra.
Qed.

Lemma np_mean_scale (k : R) (l : list R) :
  np_mean (map (Rmult k) l) = outcome_map (Rmult k) (np_mean l).
Proof.
  destruct l as [| a l]; [reflexivity |].
  unfold np_mean. cbn [map outcome_map]. f_equal.
  change (k * a :: map (Rmult k) l) with (map (Rmult k) (a :: l)).
  rewrite !py_sum_Rsum, Rsum_scale, length_map. unfold Rdiv. ring.
Qed.

Lemma py_min_scale (k : R) (l : list R) :
  0 < k -> py_min (map (Rmult k) l) = outcome_map (Rmult k) (py_min l).
Proof.
  intros Hk. destruct l as [| a l]; [reflexivity |].
  cbn [map py_min outcome_map]. f_equal. revert a.
  induction l as [| b l IH]; intros a; [reflexivity |].
  cbn [map fold_left]. rewrite (Rltb_scale _ _ Hk).
  destruct (Rltb b a); apply IH.
Qed.

Lemma py_max_scale (k : R) (l : list R) :
  0 < k -> py_max (map (Rmult k) l) = outcome_map (Rmult k) (py_max l).
Proof.
  intros Hk. destruct l as [| a l]; [reflexivity |].
  cbn [map py_max outcome_map]. f_equal. revert a.
  induction l as [| b l IH]; intros a; [reflexivity |].
  cbn [map fold_left]. rewrite (Rltb_scale _ _ Hk).
  destruct (Rltb a b); apply IH.
Qed.

Lemma np_sort_scale (k : R) (l : list R) :
  0 < k -> np_sort (map (Rmult k) l) = map (Rmult k) (np_sort l).
Proof.
  intros Hk. unfold np_sort. induction l as [| a l IH]; [reflexivity |].
  cbn [map fold_right]. rewrite IH.
  generalize (fold_right insert_sorted [] l) as s.
  induction s as [| b s IHs]; [reflexivity |].
  cbn [map insert_sorted]. rewrite (Rleb_scale _ _ Hk).
  destruct (Rleb a b); [reflexivity |]. cbn [map]. rewrite IHs. reflexivity.
Qed.

Lemma nth_scale (k : R) (l : list R) (i : nat) :
  nth i (map (Rmult k) l) 0 = k * nth i l 0.
Proof.
  revert i. induction l as [| a l IH]; intros [| i]; cbn [map nth];
    try ring; try reflexivity. apply IH.
Qed.

Lemma np_median_scale (k : R) (l : list R) :
  0 < k -> np_median (map (Rmult k) l) = outcome_map (Rmult k) (np_median l).
Proof.
  intros Hk. destruct l as [| a l]; [reflexivity |].
  unfold np_median.
  change (map (Rmult k) (a :: l)) with (k * a :: map (Rmult k) l).
  cbv zeta.
  change (k * a :: map (Rmult k) l) with (map (Rmult k) (a :: l)).
  rewrite (np_sort_scale _ Hk), length_map, !nth_scale.
  destruct (Nat.even (length (a :: l))); [| reflexivity].
  apply (np_mean_scale k [_; _]).
Qed.

Lemma np_std_scale (k : R) (l : list R) :
  0 <= k -> np_std (map (Rmult k) l) = outcome_map (Rmult k) (np_std l).
Proof.
  intros Hk. destruct l as [| a l]; [reflexivity |].
  assert (Hne : a :: l <> []) by discriminate.
  assert (Hne' : map (Rmult k) (a :: l) <> []) by discriminate.
  rewrite (np_std_Ok Hne), (np_std_Ok Hne'). cbn [outcome_map]. f_equal.
  apply population_std_scale, Hk.
Qed.

Lemma category_stat_scale (k : R) (l : list R) :
  0 < k ->
  category_stat (map (Rmult k) l) = outcome_map (scale_stat k) (category_stat l).
Proof.
  intros Hk. unfold category_stat.
  rewrite np_mean_scale, (np_median_scale _ Hk), (py_min_scale _ Hk),
    (py_max_scale _ Hk), length_map, !py_sum_Rsum, Rsum_scale.
  destruct (np_mean l) as [mean |]; [| reflexivity].
  destruct (np_median l) as [median |]; [| reflexivity].
  destruct (py_min l) as [mn |]; [| reflexivity].
  destruct (py_max l) as [mx |]; [| reflexivity].
  cbn [outcome_map bind].
  destruct (1 <? length l)%nat.
  - rewrite np_std_scale by lra.
    destruct (np_std l) as [sd |]; reflexivity.
  - cbn [bind outcome_map]. unfold scale_stat.
    cbn [s_total s_count s_mean s_median s_min s_max s_std].
    rewrite Rmult_0_r. reflexivity.
Qed.

Lemma category_data_scale (k : R) (es : list Expense) :
  category_data (map (scale k) es)
  = map (fun item => (fst item, map (Rmult k) (snd item))) (category_data es).
Proof.
  unfold category_data.
  assert (H : forall cd : dict string (list R),
             fold_left
               (fun cd expense =>
                  dict_update String.eqb [] (category expense)
                    (fun amounts => amounts ++ [amount expense]) cd)
               (map (scale k) es)
               (map (fun item => (fst item, map (Rmult k) (snd item))) cd)
             = map (fun item => (fst item, map (Rmult k) (snd item)))
                   (fold_left
                      (fun cd expense =>
                         dict_update String.eqb [] (category expense)
                           (fun amounts => amounts ++ [amount expense]) cd)
                      es cd)).
  { induction es as [| e es IH]; intros cd; [reflexivity |].
    cbn [map fold_left]. rewrite <- IH. f_equal.
    cbn [scale category amount].
    induction cd as [| [c l] cd IHcd]; [reflexivity |].
    cbn [map dict_update fst snd]. destruct (String.eqb (category e) c).
    - cbn [map fst snd]. rewrite map_app. reflexivity.
    - cbn [map fst snd]. rewrite IHcd. reflexivity. }
  apply (H []).
Qed.

(** X19.  In exact arithmetic, CategoryStatistics follows the unit of the
    amounts: with every amount multiplied by a positive factor it returns
    the same categories in the same order, with the same counts, and with
    total, mean, median, min, max and std multiplied by that factor.
    (Rounded to binary64, total, mean and std can differ from the
    multiples in the last places.) *)
Theorem category_stats_unit_equivariant (k : R) (es : list Expense) :
  0 < k ->
  exists stats,
    calculate_category_stats es = Ok stats
    /\ calculate_category_stats (map (scale k) es)
       = Ok (map (fun item => (fst item, scale_stat k (snd item))) stats).
Proof.
  intros Hk. eexists. split; [apply calculate_category_stats_Ok |].
  rewrite calculate_category_stats_Ok, category_data_scale, !map_map.
  f_equal. apply map_ext_in. intros [c l] Hin. cbn [fst snd]. f_equal.
  apply category_data_In in Hin. destruct Hin as [_ Hne].
  unfold stat_of at 1. rewrite (category_stat_scale _ Hk).
  destruct (category_stat_Ok Hne) as [-> _]. reflexivity.
Qed.

(** X19 at a concrete input. *)
Lemma category_stats_unit_equivariant_witness :
  exists stats,
    calculate_category_stats (four_hundreds_and 900) = Ok stats
    /\ calculate_category_stats (map (scale 1300) (four_hundreds_and 900))
       = Ok (map (fun item => (fst item, scale_stat 1300 (snd item))) stats).
Proof.
  apply (@category_stats_unit_equivariant 1300 (four_hundreds_and 900)). lra.
Defined.

(** ** The errors of the date parser *)

(** X20.  Every error [parse_date] raises on a string has one of three
    shapes: the "empty date string" error, for a blank string; for a
    string without [T] and without inner space, the final error that wraps
    the string and the error of [date.fromisoformat] on it; and for a
    string with a [T] or an inner space, the bare error of
    [date.fromisoformat] on the date part, raised after
    [datetime.fromisoformat] failed too, and never wrapped. *)
Theorem parse_date_errors
    (datetime_fromisoformat : string -> outcome datetime) (s : string) (e : exn) :
  parse_date datetime_fromisoformat (PyStr s) = Raise e ->
  (blank s = true /\ e = EmptyDateError)
  \/ (contains "T" (strip s) = false /\ contains " " (strip s) = false
      /\ exists cause,
          date_fromisoformat (strip s) = Raise cause
          /\ e = DateParseError (strip s) cause)
  \/ ((contains "T" (strip s) = true \/ contains " " (strip s) = true)
      /\ (exists part, date_fromisoformat part = Raise e)
      /\ (exists arg cause, datetime_fromisoformat arg = Raise cause)
      /\ ((exists arg, e = IsoformatError arg)
          \/ exists y m d, e = DateRangeError y m d)).
Proof.
  unfold parse_date.
  destruct (is_empty (strip s)) eqn:Eempty.
  { intros H. injection H as <-. left. split; [| reflexivity].
    apply strip_blank, Eempty. }
  destruct (contains "T" (strip s)) eqn:ET.
  { destruct (date_fromisoformat (split_head "T" (strip s))); [discriminate |].
    destruct (datetime_fromisoformat (replace "Z" "+00:00" (strip s)))
      as [dt | cause] eqn:Edt; [discriminate |].
    intros H. right. right. split; [left; reflexivity |].
    split; [eauto |]. split; [eauto |].
    apply date_fromisoformat_error in H.
    destruct H as [H | H]; [left; eauto | right; exact H]. }
  destruct (contains " " (strip s)) eqn:Esp.
  { destruct (date_fromisoformat (split_head " " (strip s))); [discriminate |].
    destruct (datetime_fromisoformat (strip s)) as [dt | cause] eqn:Edt;
      [discriminate |].
    intros H. right. right. split; [right; reflexivity |].
    split; [eauto |]. split; [eauto |].
    apply date_fromisoformat_error in H.
    destruct H as [H | H]; [left; eauto | right; exact H]. }
  destruct (date_fromisoformat (strip s)) as [d | cause] eqn:Ed; [discriminate |].
  intros H. injection H as <-. right. left.
  split; [reflexivity |]. split; [reflexivity |]. eauto.
Qed.

(** X20 at a concrete input: a month and a day out of range before a
    time. *)
Lemma parse_date_errors_witness :
  (blank "2024-13-45T10:00:00" = true
   /\ DateRangeError 2024 13 45 = EmptyDateError)
  \/ (contains "T" (strip "2024-13-45T10:00:00") = false
      /\ contains " " (strip "2024-13-45T10:00:00") = false
      /\ exists cause,
          date_fromisoformat (strip "2024-13-45T10:00:00") = Raise cause
          /\ DateRangeError 2024 13 45
             = DateParseError (strip "2024-13-45T10:00:00") cause)
  \/ ((contains "T" (strip "2024-13-45T10:00:00") = true
       \/ contains " " (strip "2024-13-45T10:00:00") = true)
      /\ (exists part, date_fromisoformat part = Raise (DateRangeError 2024 13 45))
      /\ (exists arg cause, datetime_fromisoformat_hms arg = Raise cause)
      /\ ((exists arg, DateRangeError 2024 13 45 = IsoformatError arg)
          \/ exists y m d, DateRangeError 2024 13 45 = DateRangeError y m d)).
Proof.
  apply (@parse_date_errors datetime_fromisoformat_hms "2024-13-45T10:00:00"
           (DateRangeError 2024 13 45)).
  reflexivity.
Defined.

(** ** The fetch window of the month-on-month tool *)

Section FetchWindow.
Local Open Scope Z_scope.

Lemma date_leb_iff (a b : date) :
  date_leb a b = true
  <-> year a < year b
      \/ (year a = year b
          /\ (month a < month b \/ (month a = month b /\ day a <= day b))).
Proof.
  unfold date_leb.
  rewrite !orb_true_iff, !andb_true_iff, !orb_true_iff, !andb_true_iff,
    !Z.ltb_lt, !Z.eqb_eq, Z.leb_le.
  tauto.
Qed.

Lemma date_leb_trans (a b c : date) :
  date_leb a b = true -> date_leb b c = true -> date_leb a c = true.
Proof. rewrite !date_leb_iff. lia. Qed.

Lemma prev_day_le (d d' : date) : prev_day d = Ok d' -> date_leb d' d = true.
Proof.
  unfold prev_day, MINYEAR. rewrite date_leb_iff.
  destruct (1 <? day d) eqn:E1.
  { intros H. injection H as <-. cbn [year month day]. lia. }
  destruct (1 <? month d) eqn:E2.
  { intros H. injection H as <-. cbn [year month day]. lia. }
  destruct (1 <? year d) eqn:E3; [| discriminate].
  intros H. injection H as <-. cbn [year month day]. lia.
Qed.

Lemma date_sub_days_le (n : nat) (d s : date) :
  date_sub_days d n = Ok s -> date_leb s d = true.
Proof.
  revert d. induction n as [| n IH]; intros d H.
  - injection H as <-. apply date_leb_iff. lia.
  - cbn [date_sub_days] in H. apply bind_Ok_inv in H.
    destruct H as [d' [Hd' H]].
    apply (@date_leb_trans _ _ _ (IH _ H) (@prev_day_le _ _ Hd')).
Qed.

Lemma date_sub_days_within (y m d : Z) (n : nat) :
  Z.of_nat n < d ->
  date_sub_days (mkdate y m d) n = Ok (mkdate y m (d - Z.of_nat n)).
Proof.
  revert d. induction n as [| n IH]; intros d H.
  - simpl. rewrite Z.sub_0_r. reflexivity.
  - cbn [date_sub_days]. unfold prev_day. cbn [year month day].
    replace (1 <? d) with true by (symmetry; apply Z.ltb_lt; lia).
    cbn [bind]. rewrite IH by lia. do 2 f_equal. lia.
Qed.

Lemma date_sub_days_plus (d : date) (a b : nat) :
  date_sub_days d (a + b)
  = (d' <- date_sub_days d a ;; date_sub_days d' b).
Proof.
  revert d. induction a as [| a IH]; intros d; [reflexivity |].
  cbn [Nat.add date_sub_days]. destruct (prev_day d); cbn [bind]; auto.
Qed.

(** The day before the first of a month is the last day of the month
    before. *)
Lemma prev_day_first (y m : Z) (d' : date) :
  1 <= m <= 12 ->
  prev_day (mkdate y m 1) = Ok d' ->
  d' = mkdate (fst (previous_month y m)) (snd (previous_month y m))
              (days_in_month (fst (previous_month y m))
                             (snd (previous_month y m))).
Proof.
  intros Hm. unfold prev_day, previous_month, MINYEAR. cbn [year month day].
  change (1 <? 1) with false. cbv iota.
  destruct (m =? 1) eqn:E1; cbn [fst snd].
  - apply Z.eqb_eq in E1. subst m. change (1 <? 1) with false. cbv iota.
    destruct (1 <? y); [| discriminate]. intros H. injection H as <-. reflexivity.
  - apply Z.eqb_neq in E1.
    replace (1 <? m) with true by (symmetry; apply Z.ltb_lt; lia).
    intros H. injection H as <-. reflexivity.
Qed.

(** Going back at least to the first day of the month before. *)
Lemma date_sub_days_reaches (y m d : Z) (n : nat) (s : date) :
  1 <= m <= 12 -> 1 <= d ->
  d + days_in_month (fst (previous_month y m)) (snd (previous_month y m)) - 1
  <= Z.of_nat n ->
  date_sub_days (mkdate y m d) n = Ok s ->
  date_leb s (mkdate (fst (previous_month y m)) (snd (previous_month y m)) 1)
  = true.
Proof.
  intros Hm Hd Hn Hs.
  set (py := fst (previous_month y m)) in *.
  set (pm := snd (previous_month y m)) in *.
  pose proof (days_in_month_bounds py pm) as Hdim.
  set (a := Z.to_nat (d - 1)).
  set (b := Z.to_nat (days_in_month py pm - 1)).
  assert (Hsplit : n = (a + (1 + (b + (n - a - 1 - b))))%nat) by lia.
  rewrite Hsplit in Hs. clear Hsplit.
  rewrite date_sub_days_plus in Hs.
  rewrite (date_sub_days_within y m) in Hs by lia. cbn [bind] in Hs.
  replace (d - Z.of_nat a) with 1 in Hs by lia.
  rewrite date_sub_days_plus in Hs.
  change (date_sub_days (mkdate y m 1) 1)
    with (d' <- prev_day (mkdate y m 1) ;; Ok d') in Hs.
  destruct (prev_day (mkdate y m 1)) as [d' |] eqn:Eprev; [| discriminate Hs].
  apply (@prev_day_first y m d' Hm) in Eprev. fold py pm in Eprev. subst d'.
  cbn [bind] in Hs.
  rewrite date_sub_days_plus in Hs.
  rewrite (date_sub_days_within py pm) in Hs by lia. cbn [bind] in Hs.
  replace (days_in_month py pm - Z.of_nat b) with 1 in Hs by lia.
  apply (@date_sub_days_le _ _ _ Hs).
Qed.

Lemma in_either_month_from (y m : Z) (e : Expense) :
  1 <= m <= 12 ->
  in_either_month y m e = true ->
  dated_from (mkdate (fst (previous_month y m)) (snd (previous_month y m)) 1) e
  = true.
Proof.
  intros Hm. unfold in_either_month, dated_in_month, dated_from, in_month.
  destruct (expense_date e) as [d |]; [| discriminate].
  rewrite orb_true_iff, !andb_true_iff, !date_leb_iff. cbn [year month day].
  unfold previous_month. destruct (m =? 1) eqn:E1; cbn [fst snd].
  - apply Z.eqb_eq in E1. lia.
  - apply Z.eqb_neq in E1. lia.
Qed.

Lemma dated_from_earlier (s s' : date) (e : Expense) :
  date_leb s s' = true -> dated_from s' e = true -> dated_from s e = true.
Proof.
  unfold dated_from. destruct (expense_date e) as [d |]; [| discriminate].
  intros H1 H2. apply (@date_leb_trans _ _ _ H1 H2).
Qed.

Lemma mom_analysis_dates_inv (today : date) (current_month : option (Z * Z))
    (target start : date) :
  valid_date today ->
  mom_analysis_dates today current_month = Ok (target, start) ->
  valid_date target
  /\ date_sub_days target 90 = Ok start
  /\ match current_month with
     | Some (y, m) => target = mkdate y m 15
     | None => target = today
     end.
Proof.
  intros Hv H. unfold mom_analysis_dates in H.
  apply bind_Ok_inv in H. destruct H as [t [Ht H]].
  apply bind_Ok_inv in H. destruct H as [s [Hs H]].
  injection H as <- <-.
  destruct current_month as [[y m] |].
  - unfold date_new in Ht. destruct (valid_ymd y m 15) eqn:E; [| discriminate].
    injection Ht as <-. repeat split; assumption.
  - injection Ht as <-. repeat split; assumption.
Qed.
End FetchWindow.

Lemma calculate_mom_growth_restrict (today : date) (es : list Expense)
    (current_month : option date) (p : Expense -> bool) :
  let ref := match current_month with Some d => d | None => today end in
  windows_exist ref ->
  (forall e, in_either_month (year ref) (month ref) e = true -> p e = true) ->
  calculate_mom_growth today (filter p es) current_month
  = calculate_mom_growth today es current_month.
Proof.
  intros ref Hw Hp. unfold calculate_mom_growth. fold ref.
  assert (Hfold : fold_left
                    (mom_bucket
                       (mkdate (fst (previous_month (year ref) (month ref)))
                               (snd (previous_month (year ref) (month ref))) 1,
                        mkdate (fst (previous_month (year ref) (month ref)))
                               (snd (previous_month (year ref) (month ref)))
                               (days_in_month
                                  (fst (previous_month (year ref) (month ref)))
                                  (snd (previous_month (year ref) (month ref)))),
                        mkdate (year ref) (month ref) 1,
                        mkdate (year ref) (month ref)
                               (days_in_month (year ref) (month ref))))
                    (filter p es) ([], [])
                  = fold_left
                      (mom_bucket
                         (mkdate (fst (previous_month (year ref) (month ref)))
                                 (snd (previous_month (year ref) (month ref))) 1,
                          mkdate (fst (previous_month (year ref) (month ref)))
                                 (snd (previous_month (year ref) (month ref)))
                                 (days_in_month
                                    (fst (previous_month (year ref) (month ref)))
                                    (snd (previous_month (year ref) (month ref)))),
                          mkdate (year ref) (month ref) 1,
                          mkdate (year ref) (month ref)
                                 (days_in_month (year ref) (month ref))))
                      es ([], [])).
  { rewrite <- (mom_bucket_filter (year ref) (month ref) (filter p es)).
    rewrite <- (mom_bucket_filter (year ref) (month ref) es).
    f_equal. rewrite filter_filter. apply filter_ext. intros e.
    destruct (in_either_month (year ref) (month ref) e) eqn:E;
      [rewrite (Hp e E); reflexivity | apply andb_false_r]. }
  destruct es as [| e0 es0]; [reflexivity |].
  rewrite (month_windows_Ok Hw) in *. cbn [bind].
  destruct (filter p (e0 :: es0)) as [| e1 l1] eqn:Ef.
  - rewrite <- Hfold. reflexivity.
  - rewrite Hfold. reflexivity.
Qed.

(** X21.  The month-on-month tool of the analysis agent fetches the records
    dated from ninety days before the reference date, which is the 15th of
    the month asked for, or today.  That date is never after the first day
    of the month before the reference month: every record
    [calculate_mom_growth] reads passes the fetch, and restricting any list
    of records to those the fetch keeps leaves the growth rates as they
    are. *)
Theorem mom_fetch_covers_both_months (today : date)
    (current_month : option (Z * Z)) (target start : date) :
  valid_date today ->
  mom_analysis_dates today current_month = Ok (target, start) ->
  (forall e, in_either_month (year target) (month target) e = true ->
             dated_from start e = true)
  /\ (~ (year target = 9999 /\ month target = 12)%Z ->
      forall es,
        calculate_mom_growth today (filter (dated_from start) es) (Some target)
        = calculate_mom_growth today es (Some target)).
Proof.
  intros Hv H.
  destruct (@mom_analysis_dates_inv _ _ _ _ Hv H) as [Hvt [Hsub _]].
  pose proof (valid_ymd_bounds _ _ _ Hvt) as (Hy & Hm & Hd & Hdim).
  assert (Hstart : date_leb start
                     (mkdate (fst (previous_month (year target) (month target)))
                             (snd (previous_month (year target) (month target))) 1)
                   = true).
  { destruct target as [y m d]. cbn [year month day] in *.
    pose proof (days_in_month_bounds (fst (previous_month y m))
                  (snd (previous_month y m))) as Hprev.
    apply (@date_sub_days_reaches y m d 90 start); try lia. exact Hsub. }
  assert (Hcover : forall e,
             in_either_month (year target) (month target) e = true ->
             dated_from start e = true).
  { intros e He. apply (@dated_from_earlier _ _ _ Hstart).
    apply in_either_month_from; [lia | exact He]. }
  split; [exact Hcover |].
  intros Hlast es.
  apply (@calculate_mom_growth_restrict today es (Some target) (dated_from start));
    [| exact Hcover].
  unfold windows_exist. repeat split; try lia.
  intros [Hy1 Hm1]. destruct target as [y m d]. cbn [year month day] in *.
  subst y m.
  assert (Hle : date_leb start (mkdate 1 1 d) = true)
    by apply (@date_sub_days_le _ _ _ Hsub).
  assert (Hn : (90 = Z.to_nat (d - 1) + (1 + (90 - Z.to_nat (d - 1) - 1)))%nat)
    by lia.
  rewrite Hn, date_sub_days_plus in Hsub.
  rewrite (date_sub_days_within 1 1) in Hsub by lia. cbn [bind] in Hsub.
  replace (d - Z.of_nat (Z.to_nat (d - 1)))%Z with 1%Z in Hsub by lia.
  rewrite date_sub_days_plus in Hsub. discriminate Hsub.
Qed.

(** X21 at a concrete input: March 2024 asked for on 20 May 2024. *)
Lemma mom_fetch_covers_both_months_witness :
  (forall e, in_either_month 2024 3 e = true ->
             dated_from (mkdate 2023 12 16) e = true)
  /\ (~ (2024 = 9999 /\ 3 = 12)%Z ->
      forall es,
        calculate_mom_growth (mkdate 2024 5 20)
          (filter (dated_from (mkdate 2023 12 16)) es) (Some (mkdate 2024 3 15))
        = calculate_mom_growth (mkdate 2024 5 20) es (Some (mkdate 2024 3 15))).
Proof.
  apply (@mom_fetch_covers_both_months (mkdate 2024 5 20) (Some (2024, 3)%Z)
           (mkdate 2024 3 15) (mkdate 2023 12 16)).
  - reflexivity.
  - vm_compute. reflexivity.
Defined.

(** ** The order of the records *)

Lemma Rsum_perm (l l' : list R) : Permutation l l' -> Rsum l = Rsum l'.
Proof. induction 1; cbn [Rsum]; lra. Qed.

Lemma filter_perm (A : Type) (p : A -> bool) (l l' : list A) :
  Permutation l l' -> Permutation (filter p l) (filter p l').
Proof.
  induction 1 as [| x l l' _ IH | x y l | l l' l'' _ IH1 _ IH2].
  - constructor.
  - cbn [filter]. destruct (p x); [constructor |]; exact IH.
  - cbn [filter]. destruct (p x), (p y); try reflexivity. constructor.
  - exact (Permutation_trans IH1 IH2).
Qed.

Lemma existsb_perm (A : Type) (p : A -> bool) (l l' : list A) :
  Permutation l l' -> existsb p l = existsb p l'.
Proof.
  induction 1 as [| x l l' _ IH | x y l | l l' l'' _ IH1 _ IH2];
    cbn [existsb]; try congruence.
  destruct (p x), (p y); reflexivity.
Qed.

Lemma mean_of_perm (l l' : list R) :
  Permutation l l' -> mean_of l = mean_of l'.
Proof.
  intros H. unfold mean_of.
  rewrite (Rsum_perm H), (Permutation_length H). reflexivity.
Qed.

Lemma population_std_perm (l l' : list R) :
  Permutation l l' -> population_std l = population_std l'.
Proof.
  intros H. unfold population_std.
  rewrite (mean_of_perm H), (Permutation_length H).
  rewrite (Rsum_perm (Permutation_map _ H)). reflexivity.
Qed.

Lemma amounts_of_perm (c : string) (es es' : list Expense) :
  Permutation es es' -> Permutation (amounts_of c es) (amounts_of c es').
Proof. intros H. unfold amounts_of. apply Permutation_map, filter_perm, H. Qed.

Lemma Rleb_false (x y : R) : Rleb x y = false -> y < x.
Proof. unfold Rleb. destruct (Rle_dec x y); [discriminate | lra]. Qed.

Lemma insert_sorted_perm (x : R) (l : list R) :
  Permutation (x :: l) (insert_sorted x l).
Proof.
  induction l as [| y l IH]; [reflexivity |].
  cbn [insert_sorted]. destruct (Rleb x y); [reflexivity |].
  apply (Permutation_trans (perm_swap y x l)). constructor. exact IH.
Qed.

Lemma np_sort_perm (l : list R) : Permutation l (np_sort l).
Proof.
  unfold np_sort. induction l as [| a l IH]; [constructor |].
  cbn [fold_right].
  apply (Permutation_trans (perm_skip a IH)), insert_sorted_perm.
Qed.

Lemma insert_sorted_sorted (x : R) (l : list R) :
  StronglySorted Rle l -> StronglySorted Rle (insert_sorted x l).
Proof.
  induction 1 as [| y l Hs IH Hall]; cbn [insert_sorted].
  - repeat constructor.
  - destruct (Rleb x y) eqn:E.
    + apply Rleb_true in E. constructor; [constructor; assumption |].
      constructor; [exact E |].
      apply Forall_forall. intros z Hz.
      rewrite Forall_forall in Hall. specialize (Hall z Hz). lra.
    + apply Rleb_false in E. constructor; [exact IH |].
      apply Forall_forall. intros z Hz.
      apply (Permutation_in _ (Permutation_sym (insert_sorted_perm x l))) in Hz.
      destruct Hz as [<- | Hz]; [lra |].
      rewrite Forall_forall in Hall. apply Hall, Hz.
Qed.

Lemma np_sort_sorted (l : list R) : StronglySorted Rle (np_sort l).
Proof.
  unfold np_sort. induction l as [| a l IH]; [constructor |].
  cbn [fold_right]. apply insert_sorted_sorted, IH.
Qed.

(** A list of numbers has one sorted arrangement. *)
Lemma sorted_perm_eq (l1 l2 : list R) :
  StronglySorted Rle l1 -> StronglySorted Rle l2 -> Permutation l1 l2 ->
  l1 = l2.
Proof.
  intros H1. revert l2. induction H1 as [| a t1 Hs1 IH Ha]; intros l2 H2 Hp.
  - apply Permutation_nil in Hp. symmetry. exact Hp.
  - destruct H2 as [| b t2 Hs2 Hb].
    + apply Permutation_sym, Permutation_nil in Hp. discriminate.
    + assert (Hab : a = b).
      { assert (Hin1 : In a (b :: t2))
          by (apply (Permutation_in _ Hp); left; reflexivity).
        assert (Hin2 : In b (a :: t1))
          by (apply (Permutation_in _ (Permutation_sym Hp)); left; reflexivity).
        rewrite Forall_forall in Ha, Hb.
        destruct Hin1 as [-> | Hin1]; [reflexivity |].
        destruct Hin2 as [-> | Hin2]; [reflexivity |].
        specialize (Ha b Hin2). specialize (Hb a Hin1). lra. }
      subst b. f_equal. apply IH; [exact Hs2 |].
      apply (Permutation_cons_inv Hp).
Qed.

Lemma np_sort_perm_eq (l l' : list R) :
  Permutation l l' -> np_sort l = np_sort l'.
Proof.
  intros H. apply sorted_perm_eq; try apply np_sort_sorted.
  apply (Permutation_trans (Permutation_sym (np_sort_perm l))).
  apply (Permutation_trans H), np_sort_perm.
Qed.

Lemma category_stat_perm (l l' : list R) :
  Permutation l l' -> category_stat l = category_stat l'.
Proof.
  intros H.
  destruct l as [| a l0] eqn:El.
  { apply Permutation_nil in H. subst l'. reflexivity. }
  destruct l' as [| a' l0'] eqn:El'.
  { apply Permutation_sym, Permutation_nil in H. discriminate. }
  rewrite <- El, <- El' in *.
  assert (Hne : l <> []) by (rewrite El; discriminate).
  assert (Hne' : l' <> []) by (rewrite El'; discriminate).
  assert (Hlen : length l = length l') by apply (Permutation_length H).
  assert (Hmean : np_mean l = np_mean l').
  { rewrite (np_mean_Ok Hne), (np_mean_Ok Hne'), (mean_of_perm H). reflexivity. }
  assert (Hmed : np_median l = np_median l').
  { unfold np_median. rewrite (np_sort_perm_eq H), Hlen.
    rewrite El, El'. reflexivity. }
  assert (Hmin : py_min l = py_min l').
  { destruct (py_min l) as [m |] eqn:Em; [| rewrite El in Em; discriminate].
    destruct (py_min l') as [m' |] eqn:Em'; [| rewrite El' in Em'; discriminate].
    apply py_min_spec in Em, Em'. destruct Em as [Hin Hle], Em' as [Hin' Hle'].
    f_equal. apply Rle_antisym.
    - apply Hle, (Permutation_in _ (Permutation_sym H)), Hin'.
    - apply Hle', (Permutation_in _ H), Hin. }
  assert (Hmax : py_max l = py_max l').
  { destruct (py_max l) as [m |] eqn:Em; [| rewrite El in Em; discriminate].
    destruct (py_max l') as [m' |] eqn:Em'; [| rewrite El' in Em'; discriminate].
    apply py_max_spec in Em, Em'. destruct Em as [Hin Hle], Em' as [Hin' Hle'].
    f_equal. apply Rle_antisym.
    - apply Hle', (Permutation_in _ H), Hin.
    - apply Hle, (Permutation_in _ (Permutation_sym H)), Hin'. }
  assert (Hstd : np_std l = np_std l').
  { rewrite (np_std_Ok Hne), (np_std_Ok Hne'), (population_std_perm H).
    reflexivity. }
  unfold category_stat.
  rewrite Hmean, Hmed, Hmin, Hmax, Hstd, Hlen, !py_sum_Rsum, (Rsum_perm H).
  reflexivity.
Qed.

(** X22.  CategoryStatistics, read by category, does not depend on the order
    of the records: a rearranged input gives every category the same
    statistics. *)
Theorem stats_order_independent (es es' : list Expense) :
  Permutation es es' ->
  exists stats stats',
    calculate_category_stats es = Ok stats
    /\ calculate_category_stats es' = Ok stats'
    /\ forall c, dict_get String.eqb stats' c = dict_get String.eqb stats c.
Proof.
  intros H. eexists. eexists.
  split; [apply calculate_category_stats_Ok |].
  split; [apply calculate_category_stats_Ok |].
  intros c. rewrite !dict_get_map_values, !category_data_get.
  pose proof (amounts_of_perm c H) as Hp.
  destruct (amounts_of c es) as [| a l] eqn:E.
  - apply Permutation_nil in Hp. rewrite Hp. reflexivity.
  - destruct (amounts_of c es') as [| a' l'] eqn:E'.
    + apply Permutation_sym, Permutation_nil in Hp. discriminate.
    + cbn [option_map]. f_equal. unfold stat_of.
      rewrite (category_stat_perm Hp). reflexivity.
Qed.

(** X22 at a concrete input. *)
Lemma stats_order_independent_witness :
  exists stats stats',
    calculate_category_stats (three_months 100 200 300) = Ok stats
    /\ calculate_category_stats (rev (three_months 100 200 300)) = Ok stats'
    /\ forall c, dict_get String.eqb stats' c = dict_get String.eqb stats c.
Proof.
  apply (@stats_order_independent (three_months 100 200 300)
           (rev (three_months 100 200 300))).
  apply Permutation_rev.
Defined.

Lemma outlier_threshold_perm (es es' : list Expense) (c : string) :
  Permutation es es' -> outlier_threshold es c = outlier_threshold es' c.
Proof.
  intros H. unfold outlier_threshold.
  rewrite (mean_of_perm (amounts_of_perm c H)),
    (population_std_perm (amounts_of_perm c H)).
  reflexivity.
Qed.

(** X23.  In exact arithmetic, the reports of OutlierDetector do not depend
    on the order of the records: a rearranged input gives the same reports,
    rearranged.  (Rounded to binary64, sums depend on the order, and a
    record whose amount is the threshold up to rounding can be reported in
    one order and not in another.) *)
Theorem outliers_order_independent (es es' : list Expense) :
  Permutation es es' ->
  exists outs outs',
    detect_outliers es = Ok outs
    /\ detect_outliers es' = Ok outs'
    /\ Permutation outs outs'.
Proof.
  intros H. eexists. eexists.
  split; [apply detect_outliers_Ok |]. split; [apply detect_outliers_Ok |].
  rewrite (filter_ext (exceeds_threshold es') (exceeds_threshold es)).
  - rewrite (map_ext (outlier_of es') (outlier_of es)).
    + apply Permutation_map, filter_perm, H.
    + intros e. unfold outlier_of.
      rewrite (outlier_threshold_perm (category e) H),
        (mean_of_perm (amounts_of_perm (category e) H)),
        (population_std_perm (amounts_of_perm (category e) H)).
      reflexivity.
  - intros e. unfold exceeds_threshold.
    rewrite (outlier_threshold_perm (category e) H). reflexivity.
Qed.

Lemma month_total_perm (es es' : list Expense) (y m : Z) (c : string) :
  Permutation es es' -> month_total es y m c = month_total es' y m c.
Proof.
  intros H. unfold month_total.
  apply Rsum_perm, Permutation_map, filter_perm, H.
Qed.

Lemma has_record_in_month_perm (es es' : list Expense) (y m : Z) (c : string) :
  Permutation es es' ->
  has_record_in_month es y m c -> has_record_in_month es' y m c.
Proof.
  intros H [e [Hin He]]. exists e. split; [| exact He].
  apply (Permutation_in _ H), Hin.
Qed.

Lemma existsb_eqb_iff (l l' : list string) (c : string) :
  (In c l <-> In c l') ->
  existsb (String.eqb c) l = existsb (String.eqb c) l'.
Proof.
  intros H.
  destruct (existsb (String.eqb c) l) eqn:E, (existsb (String.eqb c) l') eqn:E';
    try reflexivity.
  - apply existsb_eqb_In, H, existsb_eqb_In in E. congruence.
  - apply existsb_eqb_In, H, existsb_eqb_In in E'. congruence.
Qed.

(** X24.  In exact arithmetic, GrowthAnalyzer, read by category, does not
    depend on the order of the records: for a reference month whose windows
    exist, a rearranged input gives every category the same growth rate.
    (Rounded to binary64, sums depend on the order, and the rates can
    differ in the last places.) *)
Theorem mom_growth_order_independent (today : date) (es es' : list Expense)
    (current_month : option date) :
  windows_exist (match current_month with Some d => d | None => today end) ->
  Permutation es es' ->
  exists g g',
    calculate_mom_growth today es current_month = Ok g
    /\ calculate_mom_growth today es' current_month = Ok g'
    /\ forall c, dict_get String.eqb g' c = dict_get String.eqb g c.
Proof.
  intros Hw H.
  destruct (@calculate_mom_growth_Ok today es current_month (or_intror Hw))
    as [cats [Hg Hcats]].
  destruct (@calculate_mom_growth_Ok today es' current_month (or_intror Hw))
    as [cats' [Hg' Hcats']].
  eexists. eexists. split; [exact Hg |]. split; [exact Hg' |].
  intros c.
  rewrite (dict_get_map_keys
             (fun c => growth_of (month_total es' _ _ c) (month_total es' _ _ c))),
    (dict_get_map_keys
       (fun c => growth_of (month_total es _ _ c) (month_total es _ _ c))).
  rewrite (existsb_eqb_iff cats' cats c).
  - rewrite <- !(month_total_perm _ _ _ H). reflexivity.
  - rewrite Hcats, Hcats'. split.
    + intros [Hr | Hr]; [left | right];
        apply (has_record_in_month_perm (Permutation_sym H)), Hr.
    + intros [Hr | Hr]; [left | right];
        apply (has_record_in_month_perm H), Hr.
Qed.

(** X24 at a concrete input. *)
Lemma mom_growth_order_independent_witness :
  exists g g',
    calculate_mom_growth (mkdate 2024 3 20) (three_months 100 200 300) None
    = Ok g
    /\ calculate_mom_growth (mkdate 2024 3 20)
                            (rev (three_months 100 200 300)) None = Ok g'
    /\ forall c, dict_get String.eqb g' c = dict_get String.eqb g c.
Proof.
  apply (@mom_growth_order_independent (mkdate 2024 3 20)
           (three_months 100 200 300) (rev (three_months 100 200 300)) None).
  - unfold windows_exist. cbn [year month]. lia.
  - apply Permutation_rev.
Defined.

Lemma months_of_perm (es es' : list Expense) :
  Permutation es es' -> Permutation (months_of es) (months_of es').
Proof.
  intros H. apply NoDup_Permutation; try apply months_of_NoDup.
  intros k. rewrite !months_of_In. split; intros [e [Hin He]]; exists e;
    (split; [| exact He]).
  - apply (Permutation_in _ H), Hin.
  - apply (Permutation_in _ (Permutation_sym H)), Hin.
Qed.

Lemma data_points_perm (es es' : list Expense) (k0 : month_key) (c : string) :
  Permutation es es' ->
  Permutation (data_points es k0 c) (data_points es' k0 c).
Proof.
  intros H. unfold data_points.
  rewrite (filter_ext (fun k => existsb (in_bucket k c) es')
             (fun k => existsb (in_bucket k c) es)
             (fun k => eq_sym (existsb_perm (in_bucket k c) H))).
  rewrite (map_ext (fun k => (month_index k0 k, bucket_total_of es' k c))
             (fun k => (month_index k0 k, bucket_total_of es k c))).
  - apply Permutation_map, filter_perm, months_of_perm, H.
  - intros k. f_equal. unfold bucket_total_of. symmetry.
    apply Rsum_perm, Permutation_map, filter_perm, H.
Qed.

Lemma ols_at_perm (pts pts' : list (Z * R)) (t : Z) :
  Permutation pts pts' -> ols_at pts t = ols_at pts' t.
Proof.
  intros H.
  assert (Hx : mean_of (xs_of pts) = mean_of (xs_of pts'))
    by (apply mean_of_perm, Permutation_map, H).
  assert (Hy : mean_of (ys_of pts) = mean_of (ys_of pts'))
    by (apply mean_of_perm, Permutation_map, H).
  assert (Hxx : sxx pts = sxx pts').
  { unfold sxx. rewrite Hx. apply Rsum_perm, Permutation_map, H. }
  assert (Hxy : sxy pts = sxy pts').
  { unfold sxy. rewrite Hx, Hy. apply Rsum_perm, Permutation_map, H. }
  unfold ols_at, ols_intercept, ols_slope. rewrite Hx, Hy, Hxx, Hxy.
  reflexivity.
Qed.

Lemma forecast_of_perm (es es' : list Expense) (k0 : month_key) (t : Z)
    (c : string) :
  Permutation es es' -> forecast_of es k0 t c = forecast_of es' k0 t c.
Proof.
  intros H. unfold forecast_of.
  pose proof (data_points_perm k0 c H) as Hp.
  rewrite (Permutation_length Hp), (ols_at_perm t Hp).
  unfold ys_of. rewrite (mean_of_perm (Permutation_map snd Hp)). reflexivity.
Qed.

(** X25.  In exact arithmetic, ExpenseForecaster, read by category, does
    not depend on the order of the records: a rearranged input gives every
    category the same forecast.  (Rounded to binary64, sums depend on the
    order, and the forecasts can differ in the last places.) *)
Theorem forecast_order_independent (today : date) (es es' : list Expense)
    (target_month : option date) :
  Permutation es es' ->
  exists predictions predictions',
    predict_monthly_expense today es target_month = Ok predictions
    /\ predict_monthly_expense today es' target_month = Ok predictions'
    /\ forall c, dict_get String.eqb predictions' c
                 = dict_get String.eqb predictions c.
Proof.
  intros H.
  destruct (predict_monthly_expense_Ok today es target_month)
    as [p [Hp [_ [Hnone Hsome]]]].
  destruct (predict_monthly_expense_Ok today es' target_month)
    as [p' [Hp' [_ [Hnone' Hsome']]]].
  exists p, p'. split; [exact Hp |]. split; [exact Hp' |].
  assert (Hrec : forall c, has_dated_record es c <-> has_dated_record es' c).
  { intros c. split; intros [e [Hin He]]; exists e; (split; [| exact He]).
    - apply (Permutation_in _ H), Hin.
    - apply (Permutation_in _ (Permutation_sym H)), Hin. }
  intros c. destruct (has_dated_record_dec es c) as [Hc | Hc].
  - destruct (Hsome c Hc) as [k0 [Hk0 ->]].
    destruct (Hsome' c (proj1 (Hrec c) Hc)) as [k1 [Hk1 ->]].
    assert (Hk1' : is_earliest_month es k1).
    { destruct Hk1 as [Hin Hmin]. split.
      - apply (Permutation_in _ (Permutation_sym (months_of_perm H))), Hin.
      - intros k Hk. apply Hmin, (Permutation_in _ (months_of_perm H)), Hk. }
    rewrite (is_earliest_month_unique Hk1' Hk0).
    f_equal. symmetry. apply forecast_of_perm, H.
  - rewrite (Hnone c Hc), (Hnone' c); [reflexivity |].
    intros Hc'. apply Hc, Hrec, Hc'.
Qed.

(** X25 at a concrete input. *)
Lemma forecast_order_independent_witness :
  exists predictions predictions',
    predict_monthly_expense (mkdate 2024 6 1) (three_months 100 200 300) None
    = Ok predictions
    /\ predict_monthly_expense (mkdate 2024 6 1)
                               (rev (three_months 100 200 300)) None
       = Ok predictions'
    /\ forall c, dict_get String.eqb predictions' c
                 = dict_get String.eqb predictions c.
Proof.
  apply (@forecast_order_independent (mkdate 2024 6 1)
           (three_months 100 200 300) (rev (three_months 100 200 300)) None).
  apply Permutation_rev.
Defined.

(** X15.  What the dictionary form loses.  [to_dict] raises
    [AttributeError] when the date field holds a non-empty string.
    [from_dict] reads a falsy date entry, and a falsy [created_at] entry, as
    None, and returns without calling a parser when both are falsy.  A
    non-zero integer under [created_at] makes [from_dict] raise [TypeError]
    as soon as the date entry is read without error.  A datetime in the
    date field of a record without creation time, whose ISO text is that of
    its date, a [T] and the time, comes back as its date alone. *)
Theorem expense_dict_losses
    (datetime_fromisoformat : string -> outcome datetime)
    (datetime_isoformat : datetime -> string)
    (py_str : value -> string) :
  (forall e s, f_date e = VStr s -> s <> EmptyString ->
               to_dict datetime_isoformat e = Raises AttributeError)
  /\ (forall data e,
         truthy (data_get data "date") = false ->
         from_dict datetime_fromisoformat py_str data = Returns e ->
         f_date e = VNone)
  /\ (forall data e,
         truthy (data_get data "created_at") = false ->
         from_dict datetime_fromisoformat py_str data = Returns e ->
         f_created_at e = VNone)
  /\ (forall data,
         truthy (data_get data "date") = false ->
         truthy (data_get data "created_at") = false ->
         exists e, from_dict datetime_fromisoformat py_str data = Returns e)
  /\ (forall data z date_field,
         data_get data "created_at" = VInt z -> z <> 0%Z ->
         (if truthy (data_get data "date")
          then parse_date_value datetime_fromisoformat py_str
                                (data_get data "date")
          else Returns VNone) = Returns date_field ->
         from_dict datetime_fromisoformat py_str data = Raises TypeError)
  /\ (forall e dt rest,
         f_date e = VDatetime dt ->
         valid_date (dt_date dt) ->
         datetime_isoformat dt
         = (date_isoformat (dt_date dt) ++ String "T" rest)%string ->
         f_created_at e = VNone ->
         exists data e',
           to_dict datetime_isoformat e = Returns data
           /\ from_dict datetime_fromisoformat py_str data = Returns e'
           /\ f_date e' = VDate (dt_date dt)
           /\ f_date e' <> f_date e).
Proof.
  split; [| split; [| split; [| split; [| split]]]].
  - intros e s Hs Hne. unfold to_dict. rewrite Hs.
    unfold isoformat_or_none. cbn [truthy].
    destruct s; [contradiction | reflexivity].
  - intros data e Hd. unfold from_dict. rewrite Hd.
    destruct (if truthy (data_get data "created_at") then _ else _);
      [| discriminate].
    intros H. injection H as <-. reflexivity.
  - intros data e Hc. unfold from_dict. rewrite Hc.
    destruct (if truthy (data_get data "date") then _ else _);
      [| discriminate].
    intros H. injection H as <-. reflexivity.
  - intros data Hd Hc. unfold from_dict. rewrite Hd, Hc.
    eexists. reflexivity.
  - intros data z date_field Hc Hz Hd. unfold from_dict. rewrite Hd, Hc.
    cbn [truthy].
    destruct (z =? 0)%Z eqn:E; [apply Z.eqb_eq in E; contradiction |].
    reflexivity.
  - intros e dt rest Hdate Hv Hiso Hcreated.
    destruct e as [i d c ds a m cr]. cbn [f_date f_created_at] in *.
    subst d cr. unfold to_dict.
    cbn [f_date f_created_at f_id f_category f_description f_amount f_merchant
         isoformat_or_none truthy].
    eexists. eexists. split; [reflexivity |].
    unfold from_dict.
    change (data_get _ "date") with (VStr (datetime_isoformat dt)).
    change (data_get _ "created_at") with VNone.
    cbn [truthy]. rewrite Hiso.
    assert (Hne : is_empty (date_isoformat (dt_date dt) ++ String "T" rest)%string
                  = false).
    { destruct (date_isoformat_chars Hv) as [_ [c0 [t [-> _]]]]. reflexivity. }
    rewrite Hne. cbn [negb parse_date_value].
    rewrite (parse_date_iso_time datetime_fromisoformat rest Hv).
    split; [reflexivity |]. cbn [f_date]. split; [reflexivity | discriminate].
Qed.

(* ================================================================== *)
(** * Part V: the claims that rest on what Python hands over *)
(* ================================================================== *)

(** ** DateParser on every value *)





(** ** Degenerate inputs *)




(** ** What holds in exact arithmetic only *)

(** X26.  In exact arithmetic, the total of a category is its mean times
    its count, and its mean lies between its [min] and its [max].  (Rounded
    to binary64, a mean can fall below the least amount.) *)
Theorem category_mean_exact (es : list Expense) :
  exists stats,
    calculate_category_stats es = Ok stats
    /\ forall c st,
        dict_get String.eqb stats c = Some st ->
        s_total st = s_mean st * INR (s_count st)
        /\ s_min st <= s_mean st <= s_max st.
Proof.
  eexists. split; [apply calculate_category_stats_Ok |].
  intros c st Hget. apply stats_entry in Hget. destruct Hget as [Hne Hst].
  destruct (@category_stat_fields _ _ Hst) as [Hmean [_ [Hmin [Hmax [Ht Hc]]]]].
  apply py_min_spec in Hmin. destruct Hmin as [_ Hmin_le].
  apply py_max_spec in Hmax. destruct Hmax as [_ Hmax_le].
  rewrite (np_mean_Ok Hne) in Hmean. injection Hmean as Hmean.
  assert (Hn : INR (length (amounts_of c es)) <> 0).
  { apply not_0_INR. destruct (amounts_of c es); [contradiction | discriminate]. }
  split.
  - rewrite Ht, Hc, <- Hmean, py_sum_Rsum. unfold mean_of. field. exact Hn.
  - rewrite <- Hmean. apply mean_of_bounds; [exact Hne |].
    intros x Hx. split; auto.
Qed.

(** Nine equal amounts and a larger one: the threshold lies seven tenths of
    the way up. *)
Lemma threshold_nine_and_one (a x : R) :
  a <= x ->
  mean_of [a; a; a; a; a; a; a; a; a; x]
  + 2 * population_std [a; a; a; a; a; a; a; a; a; x]
  = a + 7 * (x - a) / 10.
Proof.
  intros Hax.
  assert (Hm : mean_of [a; a; a; a; a; a; a; a; a; x] = a + (x - a) / 10).
  { unfold mean_of. simpl. field. }
  unfold population_std. rewrite Hm.
  replace (INR (length [a; a; a; a; a; a; a; a; a; x])) with 10 by (simpl; lra).
  assert (Hs : Rsum (map (fun y => (y - (a + (x - a) / 10))
                                   * (y - (a + (x - a) / 10)))
                         [a; a; a; a; a; a; a; a; a; x]) / 10
               = (3 * (x - a) / 10) * (3 * (x - a) / 10)).
  { simpl. field. }
  rewrite Hs, sqrt_square by lra. field.
Qed.

Lemma detect_outliers_nine_hundreds_and :
  detect_outliers (nine_hundreds_and 1000)
  = Ok [outlier_of (nine_hundreds_and 1000) (undated "shopping" 1000)].
Proof.
  rewrite detect_outliers_Ok. f_equal.
  assert (Ht : outlier_threshold (nine_hundreds_and 1000) "shopping" = 730).
  { unfold outlier_threshold.
    change (amounts_of "shopping" (nine_hundreds_and 1000))
      with [100; 100; 100; 100; 100; 100; 100; 100; 100; 1000].
    rewrite threshold_nine_and_one by lra. lra. }
  assert (Hlow : exceeds_threshold (nine_hundreds_and 1000)
                                   (undated "shopping" 100) = false).
  { unfold exceeds_threshold. cbn [undated category amount]. rewrite Ht.
    apply Rltb_false. lra. }
  assert (Hhigh : exceeds_threshold (nine_hundreds_and 1000)
                                    (undated "shopping" 1000) = true).
  { unfold exceeds_threshold. cbn [undated category amount]. rewrite Ht.
    apply Rltb_true. lra. }
  assert (Hf : forall p : Expense -> bool,
             p (undated "shopping" 100) = false ->
             p (undated "shopping" 1000) = true ->
             filter p (nine_hundreds_and 1000) = [undated "shopping" 1000]).
  { intros p H1 H2. unfold nine_hundreds_and. cbn [filter].
    rewrite !H1, H2. reflexivity. }
  rewrite (Hf _ Hlow Hhigh). reflexivity.
Qed.

(** X16 at a concrete input: the record of 1000 is reported, and so is the
    record of 1 300 000 after the change of unit. *)
Lemma outliers_unit_invariant_witness :
  exists outs,
    detect_outliers (nine_hundreds_and 1000) = Ok outs
    /\ detect_outliers (map (scale 1300) (nine_hundreds_and 1000))
       = Ok (map (scale_outlier 1300) outs)
    /\ length outs = 1%nat.
Proof.
  destruct (@outliers_unit_invariant 1300 (nine_hundreds_and 1000))
    as [outs [Houts Hscaled]]; [lra |].
  exists outs. split; [exact Houts |]. split; [exact Hscaled |].
  rewrite detect_outliers_nine_hundreds_and in Houts.
  injection Houts as <-. reflexivity.
Defined.

(** X23 at a concrete input: the record of 1000 is reported from the list
    and from the list reversed. *)
Lemma outliers_order_independent_witness :
  exists outs outs',
    detect_outliers (nine_hundreds_and 1000) = Ok outs
    /\ detect_outliers (rev (nine_hundreds_and 1000)) = Ok outs'
    /\ Permutation outs outs'
    /\ length outs = 1%nat.
Proof.
  destruct (@outliers_order_independent (nine_hundreds_and 1000)
              (rev (nine_hundreds_and 1000)))
    as [outs [outs' [Houts [Houts' Hperm]]]]; [apply Permutation_rev |].
  exists outs, outs'. split; [exact Houts |]. split; [exact Houts' |].
  split; [exact Hperm |].
  rewrite detect_outliers_nine_hundreds_and in Houts.
  injection Houts as <-. reflexivity.
Defined.


(* ================================================================== *)
(** * Part VI: the properties that hold in floating point *)
(* ================================================================== *)

(** ** Statistics and outliers *)

Lemma exact_category_stat (l : list R) :
  category_stat_with exact l = category_stat l.
Proof. reflexivity. Qed.

Lemma exact_calculate_category_stats (es : list Expense) :
  calculate_category_stats_with exact es = calculate_category_stats es.
Proof. reflexivity. Qed.

Lemma exact_detect_outliers (es : list Expense) :
  detect_outliers_with exact es = detect_outliers es.
Proof. reflexivity. Qed.

Section FloatingPointFacts.
Variable A : arithmetic.

(** The fields of an entry are what the library returned. *)
Lemma category_stat_with_fields (l : list R) (st : CategoryStat) :
  category_stat_with A l = Ok st ->
  np_mean_of A l = Ok (s_mean st)
  /\ np_median_of A l = Ok (s_median st)
  /\ ((1 < length l)%nat -> np_std_of A l = Ok (s_std st))
  /\ ((length l <= 1)%nat -> s_std st = 0)
  /\ s_count st = length l.
Proof.
  unfold category_stat_with. intros H.
  apply bind_Ok_inv in H. destruct H as [mean [Hmean H]].
  apply bind_Ok_inv in H. destruct H as [median [Hmedian H]].
  apply bind_Ok_inv in H. destruct H as [mn [Hmn H]].
  apply bind_Ok_inv in H. destruct H as [mx [Hmx H]].
  apply bind_Ok_inv in H. destruct H as [sd [Hsd H]].
  injection H as <-. cbn [s_mean s_median s_std s_count].
  split; [exact Hmean |]. split; [exact Hmedian |].
  destruct (1 <? length l)%nat eqn:E.
  - apply Nat.ltb_lt in E. split; [intros _; exact Hsd |].
    split; [lia | reflexivity].
  - apply Nat.ltb_ge in E. injection Hsd as <-.
    split; [lia |]. split; reflexivity.
Qed.

Lemma mapM_entries (g : list R -> outcome CategoryStat)
    (d : dict string (list R)) (r : dict string CategoryStat) (c : string) :
  mapM (fun item : string * list R => st <- g (snd item) ;; Ok (fst item, st)) d
  = Ok r ->
  dict_get String.eqb r c
  = match dict_get String.eqb d c with
    | Some l => match g l with Ok st => Some st | Raise _ => None end
    | None => None
    end.
Proof.
  revert r. induction d as [| [k l] d IH]; intros r H.
  - injection H as <-. reflexivity.
  - cbn [mapM fst snd] in H.
    apply bind_Ok_inv in H. destruct H as [[k' st] [Hst H]].
    apply bind_Ok_inv in Hst. destruct Hst as [st' [Hg Hst]].
    injection Hst as <- <-.
    apply bind_Ok_inv in H. destruct H as [r' [Hr' H]].
    injection H as <-. cbn [dict_get].
    destruct (String.eqb c k); [rewrite Hg; reflexivity | apply IH, Hr'].
Qed.

(** The entry of a category holds the statistics of its amounts. *)
Lemma calculate_category_stats_with_get (es : list Expense)
    (stats : dict string CategoryStat) (c : string) :
  calculate_category_stats_with A es = Ok stats ->
  dict_get String.eqb stats c
  = match amounts_of c es with
    | [] => None
    | l => match category_stat_with A l with
           | Ok st => Some st
           | Raise _ => None
           end
    end.
Proof.
  intros H. destruct es as [| e0 es0].
  - injection H as <-. reflexivity.
  - unfold calculate_category_stats_with in H.
    rewrite (@mapM_entries _ _ _ c H), category_data_get.
    destruct (amounts_of c (e0 :: es0)); reflexivity.
Qed.

Lemma calculate_category_stats_with_entry (es : list Expense)
    (stats : dict string CategoryStat) (e : Expense) :
  calculate_category_stats_with A es = Ok stats ->
  In e es ->
  exists st,
    dict_get String.eqb stats (category e) = Some st
    /\ category_stat_with A (amounts_of (category e) es) = Ok st.
Proof.
  intros H Hin.
  pose proof (@calculate_category_stats_with_get es stats (category e) H) as Hget.
  pose proof (amounts_of_In _ _ Hin) as Hne.
  destruct (amounts_of (category e) es) as [| a l] eqn:Ea; [contradiction |].
  destruct (category_stat_with A (a :: l)) as [st | err] eqn:Est; [eauto |].
  exfalso.
  (* the statistics were computed for every group, this one included *)
  destruct es as [| e0 es0]; [destruct Hin |].
  unfold calculate_category_stats_with in H.
  assert (Hitem : In (category e, a :: l) (category_data (e0 :: es0))).
  { apply (dict_get_In String.eqb String.eqb_eq).
    rewrite category_data_get, Ea. reflexivity. }
  clear Hget. revert H Hitem. generalize (category_data (e0 :: es0)) as d.
  intros d. revert stats.
  induction d as [| item d IH]; intros stats H Hitem; [destruct Hitem |].
  cbn [mapM] in H.
  apply bind_Ok_inv in H. destruct H as [b [Hb H]].
  apply bind_Ok_inv in Hb. destruct Hb as [st' [Hg _]].
  apply bind_Ok_inv in H. destruct H as [r' [Hr' _]].
  destruct Hitem as [-> | Hitem].
  - cbn [snd] in Hg. rewrite Est in Hg. discriminate.
  - apply (IH r'); [exact Hr' | exact Hitem].
Qed.

(** When the library answers on every group, the statistics exist. *)
Lemma calculate_category_stats_with_returns (es : list Expense) :
  (forall l, l <> [] -> exists m, np_mean_of A l = Ok m) ->
  (forall l, l <> [] -> exists m, np_median_of A l = Ok m) ->
  (forall l, l <> [] -> exists m, np_std_of A l = Ok m) ->
  exists stats, calculate_category_stats_with A es = Ok stats.
Proof.
  intros Hmean Hmedian Hstd.
  destruct es as [| e0 es0]; [exists []; reflexivity |].
  unfold calculate_category_stats_with.
  assert (Hall : forall item, In item (category_data (e0 :: es0)) ->
                              snd item <> []).
  { intros [c l] Hin. apply category_data_In in Hin. tauto. }
  revert Hall. generalize (category_data (e0 :: es0)) as d.
  induction d as [| item d IH]; intros Hall; [exists []; reflexivity |].
  destruct IH as [r Hr]; [intros i Hi; apply Hall; right; exact Hi |].
  assert (Hne : snd item <> []) by (apply Hall; left; reflexivity).
  cbn [mapM]. rewrite Hr. unfold category_stat_with.
  destruct (Hmean _ Hne) as [m ->]. destruct (Hmedian _ Hne) as [md ->].
  destruct (snd item) as [| a l] eqn:El; [contradiction |].
  cbn [bind py_min py_max].
  destruct (1 <? length (a :: l))%nat.
  - destruct (Hstd (a :: l)) as [sd ->]; [discriminate |].
    cbn [bind]. eexists. reflexivity.
  - cbn [bind]. eexists. reflexivity.
Qed.

(** The loop of [detect_outliers] keeps, in order, the records above the
    cutoff of their category. *)
Lemma detect_outliers_with_loop (stats : dict string CategoryStat)
    (l : list Expense) (acc : list Outlier) :
  fold_left
    (fun outliers expense =>
       match dict_get String.eqb stats (category expense) with
       | None => outliers
       | Some st =>
           let threshold := rnd A (s_mean st + rnd A (2 * s_std st)) in
           if Rltb threshold (amount expense) then
             outliers ++
               [ {| o_id := expense_id expense;
                    o_date := option_map date_isoformat (expense_date expense);
                    o_category := category expense;
                    o_description := description expense;
                    o_amount := amount expense;
                    o_threshold := threshold;
                    o_mean := s_mean st;
                    o_std := s_std st |} ]
           else outliers
       end)
    l acc
  = acc ++ map (report_of A stats) (filter (above_threshold A stats) l).
Proof.
  revert acc. induction l as [| e l IH]; intros acc; cbn [fold_left filter].
  - cbn [map]. rewrite app_nil_r. reflexivity.
  - rewrite IH. unfold above_threshold at 2, report_of, threshold_of.
    destruct (dict_get String.eqb stats (category e)) as [st |] eqn:Eget;
      [| reflexivity].
    cbv zeta.
    destruct (Rltb (rnd A (s_mean st + rnd A (2 * s_std st))) (amount e)).
    + cbn [map]. rewrite <- app_assoc. cbn [app].
      unfold threshold_of. rewrite Eget. reflexivity.
    + reflexivity.
Qed.

Lemma detect_outliers_with_Ok (es : list Expense)
    (stats : dict string CategoryStat) :
  calculate_category_stats_with A es = Ok stats ->
  detect_outliers_with A es
  = Ok (map (report_of A stats) (filter (above_threshold A stats) es)).
Proof.
  intros H. unfold detect_outliers_with.
  destruct es as [| e0 es0]; [reflexivity |].
  rewrite H. cbn [bind]. rewrite detect_outliers_with_loop. reflexivity.
Qed.
End FloatingPointFacts.

(** In exact arithmetic the cutoff of a category is the mean of its amounts
    plus twice their population standard deviation. *)
Lemma threshold_of_exact (es : list Expense) (stats : dict string CategoryStat)
    (c : string) (st : CategoryStat) :
  calculate_category_stats_with exact es = Ok stats ->
  dict_get String.eqb stats c = Some st ->
  threshold_of exact st = outlier_threshold es c.
Proof.
  rewrite exact_calculate_category_stats, calculate_category_stats_Ok.
  intros H Hget. injection H as <-.
  rewrite dict_get_map_values, category_data_get in Hget.
  destruct (amounts_of c es) as [| a l] eqn:Ea; [discriminate |].
  injection Hget as <-.
  destruct (@category_stat_Ok (a :: l)) as [_ [_ [_ [Hm Hs]]]]; [discriminate |].
  unfold threshold_of, outlier_threshold. cbn [rnd exact].
  rewrite Hm, Hs, Ea. reflexivity.
Qed.

(** The worked example, whenever the library and the rounding are exact on
    it, as they are in binary64: every number met is an integer. *)
Lemma detect_outliers_with_four_hundreds_and_500 (A : arithmetic) (median : R) :
  np_mean_of A [100; 100; 100; 100; 500] = Ok 180 ->
  np_std_of A [100; 100; 100; 100; 500] = Ok 160 ->
  np_median_of A [100; 100; 100; 100; 500] = Ok median ->
  rnd A (2 * 160) = 320 ->
  rnd A (180 + 320) = 500 ->
  exists stats st,
    calculate_category_stats_with A (four_hundreds_and 500) = Ok stats
    /\ dict_get String.eqb stats "shopping" = Some st
    /\ threshold_of A st = 500
    /\ detect_outliers_with A (four_hundreds_and 500) = Ok [].
Proof.
  intros Hmean Hstd Hmedian H320 H500.
  assert (Hstats : exists mn mx,
             calculate_category_stats_with A (four_hundreds_and 500)
             = Ok [("shopping",
                    mkCategoryStat (sum_of A [100; 100; 100; 100; 500]) 5
                                   180 median mn mx 160)]).
  { unfold calculate_category_stats_with.
    change (category_data (four_hundreds_and 500))
      with [("shopping", [100; 100; 100; 100; 500])].
    cbn [four_hundreds_and mapM fst snd]. unfold category_stat_with.
    rewrite Hmean, Hmedian. cbn [bind py_min py_max length].
    change (1 <? 5)%nat with true. cbv iota. rewrite Hstd. cbn [bind].
    eexists. eexists. reflexivity. }
  destruct Hstats as [mn [mx Hstats]].
  eexists. eexists. split; [exact Hstats |]. split; [reflexivity |].
  assert (Ht : threshold_of A (mkCategoryStat (sum_of A [100; 100; 100; 100; 500])
                                              5 180 median mn mx 160) = 500).
  { unfold threshold_of. cbn [s_mean s_std]. rewrite H320, H500. reflexivity. }
  split; [exact Ht |].
  rewrite (@detect_outliers_with_Ok _ _ _ Hstats). f_equal.
  rewrite filter_none; [reflexivity |].
  intros e Hin. unfold above_threshold.
  assert (Hc : category e = "shopping" /\ amount e <= 500).
  { unfold four_hundreds_and in Hin. simpl in Hin.
    repeat (destruct Hin as [<- | Hin]; [simpl; split; [reflexivity | lra] |]).
    destruct Hin. }
  destruct Hc as [-> Ha]. cbn [dict_get]. rewrite String.eqb_refl, Ht.
  apply Rltb_false. exact Ha.
Qed.

(** C2 (as amended).  For every list of expense records, OutlierDetector
    returns, in input order, exactly the records whose amount strictly
    exceeds the threshold computed for their category: the mean plus twice
    the standard deviation that NumPy returns for the amounts of the
    category in the same input, multiplied and added in floating point; a
    record whose amount equals that threshold is not returned.  In exact
    arithmetic the threshold is mean + 2 x population standard deviation.
    For a category with amounts [100, 100, 100, 100, 500], where every
    number met is an integer and no rounding occurs, the threshold is 500
    and the 500-valued record is not returned.  A record valued 501 is
    returned whenever the threshold computed for its category is 500; with
    501 in place of 500 in that category the threshold is 501 in exact
    arithmetic, and the 501-valued record is not returned there. *)
Theorem outliers_strictly_above_threshold :
  (forall (A : arithmetic) (es : list Expense) (stats : dict string CategoryStat),
      calculate_category_stats_with A es = Ok stats ->
      detect_outliers_with A es
      = Ok (map (report_of A stats) (filter (above_threshold A stats) es))
      /\ forall e,
          In e es ->
          exists st,
            dict_get String.eqb stats (category e) = Some st
            /\ np_mean_of A (amounts_of (category e) es) = Ok (s_mean st)
            /\ ((1 < length (amounts_of (category e) es))%nat ->
                np_std_of A (amounts_of (category e) es) = Ok (s_std st))
            /\ ((length (amounts_of (category e) es) <= 1)%nat -> s_std st = 0)
            /\ (In e (filter (above_threshold A stats) es)
                <-> threshold_of A st < amount e)
            /\ (amount e = threshold_of A st ->
                ~ In e (filter (above_threshold A stats) es))
            /\ (threshold_of A st = 500 -> amount e = 501 ->
                In e (filter (above_threshold A stats) es)))
  /\ (forall (A : arithmetic) (es : list Expense),
         (forall l, l <> [] -> exists m, np_mean_of A l = Ok m) ->
         (forall l, l <> [] -> exists m, np_median_of A l = Ok m) ->
         (forall l, l <> [] -> exists m, np_std_of A l = Ok m) ->
         exists stats, calculate_category_stats_with A es = Ok stats)
  /\ (forall (A : arithmetic) (median : R),
         np_mean_of A [100; 100; 100; 100; 500] = Ok 180 ->
         np_std_of A [100; 100; 100; 100; 500] = Ok 160 ->
         np_median_of A [100; 100; 100; 100; 500] = Ok median ->
         rnd A (2 * 160) = 320 ->
         rnd A (180 + 320) = 500 ->
         exists stats st,
           calculate_category_stats_with A (four_hundreds_and 500) = Ok stats
           /\ dict_get String.eqb stats "shopping" = Some st
           /\ threshold_of A st = 500
           /\ detect_outliers_with A (four_hundreds_and 500) = Ok [])
  /\ (forall (es : list Expense) (stats : dict string CategoryStat)
             (c : string) (st : CategoryStat),
         calculate_category_stats_with exact es = Ok stats ->
         dict_get String.eqb stats c = Some st ->
         threshold_of exact st
         = mean_of (amounts_of c es) + 2 * population_std (amounts_of c es))
  /\ mean_of [100; 100; 100; 100; 500] + 2 * population_std [100; 100; 100; 100; 500]
     = 500
  /\ detect_outliers_with exact (four_hundreds_and 500) = Ok []
  /\ mean_of [100; 100; 100; 100; 501] + 2 * population_std [100; 100; 100; 100; 501]
     = 501
  /\ detect_outliers_with exact (four_hundreds_and 501) = Ok [].
Proof.
  split; [| split; [| split; [| split; [| split; [| split; [| split]]]]]].
  - intros A es stats Hstats.
    split; [exact (@detect_outliers_with_Ok _ _ _ Hstats) |].
    intros e Hin.
    destruct (@calculate_category_stats_with_entry _ _ _ _ Hstats Hin) as [st [Hget Hst]].
    destruct (@category_stat_with_fields _ _ _ Hst) as [Hmean [_ [Hstd [Hzero _]]]].
    exists st. split; [exact Hget |]. split; [exact Hmean |].
    split; [exact Hstd |]. split; [exact Hzero |].
    assert (Hiff : In e (filter (above_threshold A stats) es)
                   <-> threshold_of A st < amount e).
    { rewrite filter_In. unfold above_threshold. rewrite Hget, Rltb_true. tauto. }
    split; [exact Hiff |]. split.
    + intros Heq Hf. apply Hiff in Hf. lra.
    + intros Ht Ha. apply Hiff. lra.
  - intros A es. apply (@calculate_category_stats_with_returns A es).
  - apply detect_outliers_with_four_hundreds_and_500.
  - intros es stats c st H Hget. exact (@threshold_of_exact _ _ _ _ H Hget).
  - apply threshold_four_and_one. lra.
  - rewrite exact_detect_outliers. apply detect_outliers_four_hundreds_and. lra.
  - apply threshold_four_and_one. lra.
  - rewrite exact_detect_outliers. apply detect_outliers_four_hundreds_and. lra.
Qed.

(** C2 at a concrete input, in exact arithmetic: the record of 500 in the
    category [100, 100, 100, 100, 500], whose threshold is 500. *)
Lemma outliers_strictly_above_threshold_witness :
  exists stats st,
    calculate_category_stats_with exact (four_hundreds_and 500) = Ok stats
    /\ dict_get String.eqb stats "shopping" = Some st
    /\ threshold_of exact st = 500
    /\ ~ In (undated "shopping" 500)
            (filter (above_threshold exact stats) (four_hundreds_and 500)).
Proof.
  destruct outliers_strictly_above_threshold
    as [Hgen [Hret [_ [Hexact [H500 _]]]]].
  destruct (Hret exact (four_hundreds_and 500)) as [stats Hstats].
  { intros l Hl. exists (mean_of l). apply np_mean_Ok, Hl. }
  { intros l Hl. apply np_median_Ok, Hl. }
  { intros l Hl. exists (population_std l). apply np_std_Ok, Hl. }
  destruct (Hgen exact (four_hundreds_and 500) stats Hstats) as [_ Hrec].
  destruct (Hrec (undated "shopping" 500)) as [st [Hget [_ [_ [_ [_ [Heq _]]]]]]].
  { unfold four_hundreds_and. simpl. tauto. }
  assert (Ht : threshold_of exact st = 500).
  { rewrite (Hexact _ _ _ _ Hstats Hget). exact H500. }
  exists stats, st. split; [exact Hstats |]. split; [exact Hget |].
  split; [exact Ht |]. apply Heq. rewrite Ht. reflexivity.
Defined.

(** ** ExpenseForecaster in floating point *)

Lemma exact_predict_monthly_expense (today : date) (es : list Expense)
    (target_month : option date) :
  predict_monthly_expense_with exact today es target_month
  = predict_monthly_expense today es target_month.
Proof. reflexivity. Qed.

Lemma exact_bucket_total (es : list Expense) (k : month_key) (c : string) :
  bucket_total_with exact es k c = bucket_total_of es k c.
Proof.
  unfold bucket_total_with, bucket_total_of. cbn [rnd exact].
  rewrite fold_left_add. lra.
Qed.

Lemma exact_data_points (es : list Expense) (k0 : month_key) (c : string) :
  data_points_with exact es k0 c = data_points es k0 c.
Proof.
  unfold data_points_with, data_points. apply map_ext.
  intros k. rewrite exact_bucket_total. reflexivity.
Qed.

Lemma exact_fit_predict (pts : list (Z * R)) (t : Z) :
  pts <> [] ->
  fit_predict exact (map fst pts) (ys_of pts) t = Ok (ols_at pts t).
Proof.
  intros Hne. cbn [fit_predict exact]. unfold ys_of.
  destruct (linear_regression_fit_Ok Hne) as [model [Hfit Hpred]].
  rewrite Hfit. cbn [bind]. rewrite Hpred. reflexivity.
Qed.

(** Raising to zero does not move a prediction away from another. *)
Lemma Rmax_0_close (p q : R) : Rabs (Rmax 0 p - Rmax 0 q) <= Rabs (p - q).
Proof.
  unfold Rmax.
  destruct (Rle_dec 0 p), (Rle_dec 0 q); unfold Rabs;
    repeat match goal with |- context [Rcase_abs ?x] => destruct (Rcase_abs x) end;
    lra.
Qed.

Section ForecastFacts.
Variable A : arithmetic.

Lemma monthly_data_with_accumulate (es : list Expense) :
  monthly_data_with A es
  = accumulate month_key_eqb is_dated month_key_of
      (fun e month_data =>
         dict_update String.eqb 0 (category e) (fun t => rnd A (t + amount e))
                     month_data)
      [] es [].
Proof.
  unfold monthly_data_with, accumulate.
  assert (H : forall d : dict month_key (dict string R),
             fold_left
               (fun md expense =>
                  match expense_date expense with
                  | None => md
                  | Some d =>
                      dict_update month_key_eqb [] (year d, month d)
                        (fun month_data =>
                           dict_update String.eqb 0 (category expense)
                                       (fun t => rnd A (t + amount expense))
                                       month_data)
                        md
                  end) es d
             = fold_left
                 (fun d e =>
                    if is_dated e
                    then dict_update month_key_eqb [] (month_key_of e)
                           (fun month_data =>
                              dict_update String.eqb 0 (category e)
                                          (fun t => rnd A (t + amount e))
                                          month_data) d
                    else d) es d).
  { induction es as [| e es IH]; intros d; [reflexivity |].
    cbn [fold_left]. rewrite IH. unfold is_dated, month_key_of.
    destruct (expense_date e); reflexivity. }
  apply H.
Qed.

Lemma monthly_data_with_keys (es : list Expense) :
  dict_keys (monthly_data_with A es) = months_of es.
Proof.
  rewrite monthly_data_with_accumulate.
  apply accumulate_keys_list.
Qed.

(** The entry of a category in the bucket of a month: the records of the
    category in that month, added up one by one. *)
Lemma monthly_data_with_entry (es : list Expense) (k : month_key)
    (month_data : dict string R) (c : string) :
  In (k, month_data) (monthly_data_with A es) ->
  dict_get String.eqb month_data c
  = if existsb (in_bucket k c) es then Some (bucket_total_with A es k c) else None.
Proof.
  intros Hin.
  apply (dict_get_NoDup month_key_eqb month_key_eqb_eq) in Hin.
  2:{ rewrite monthly_data_with_keys. apply months_of_NoDup. }
  rewrite monthly_data_with_accumulate,
    (accumulate_get month_key_eqb month_key_eqb_eq) in Hin.
  set (L := filter (selected month_key_eqb is_dated month_key_of k) es) in Hin.
  assert (Hmd : month_data
                = accumulate String.eqb (fun _ => true) category
                             (fun e t => rnd A (t + amount e)) 0 L []).
  { destruct L; [discriminate |]. injection Hin as <-. reflexivity. }
  rewrite Hmd, (accumulate_get String.eqb String.eqb_eq).
  change (selected String.eqb (fun _ : Expense => true) category c)
    with (in_category c).
  subst L. rewrite filter_filter.
  change (fun x => selected month_key_eqb is_dated month_key_of k x && in_category c x)
    with (in_bucket k c).
  rewrite existsb_filter. unfold bucket_total_with.
  destruct (filter (in_bucket k c) es) as [| e l]; reflexivity.
Qed.

Lemma monthly_data_with_points (es : list Expense) (k0 : month_key) (c : string) :
  flat_map
    (fun item =>
       match dict_get String.eqb (snd item) c with
       | Some total => [(months_since_start (fst k0) (snd k0) (fst item), total)]
       | None => []
       end) (monthly_data_with A es)
  = data_points_with A es k0 c.
Proof.
  unfold data_points_with. rewrite <- monthly_data_with_keys. unfold dict_keys.
  assert (H : forall l : dict month_key (dict string R),
             (forall item, In item l -> In item (monthly_data_with A es)) ->
             flat_map
               (fun item =>
                  match dict_get String.eqb (snd item) c with
                  | Some total => [(months_since_start (fst k0) (snd k0) (fst item), total)]
                  | None => []
                  end) l
             = map (fun k => (month_index k0 k, bucket_total_with A es k c))
                   (filter (fun k => existsb (in_bucket k c) es) (map fst l))).
  { induction l as [| [k month_data] l IH]; intros Hsub; [reflexivity |].
    cbn [flat_map map filter fst snd].
    rewrite (@monthly_data_with_entry es k month_data c)
      by (apply Hsub; left; reflexivity).
    rewrite IH by (intros; apply Hsub; right; assumption).
    destruct (existsb (in_bucket k c) es); reflexivity. }
  apply H. auto.
Qed.

Lemma all_categories_dated_with (es : list Expense) (c : string) :
  In c (fold_left (fun s month_data => set_update String.eqb s (dict_keys month_data))
                  (dict_values (monthly_data_with A es)) [])
  <-> has_dated_record es c.
Proof.
  rewrite all_categories_In. unfold has_dated_record. split.
  - intros [[] | [month_data [Hin Hc]]].
    unfold dict_values in Hin. apply in_map_iff in Hin.
    destruct Hin as [[k md] [Heq Hin]]. simpl in Heq. subst md.
    apply (dict_get_Some_keys String.eqb String.eqb_eq) in Hc.
    destruct Hc as [v Hv].
    rewrite (@monthly_data_with_entry es k month_data c Hin) in Hv.
    destruct (existsb (in_bucket k c) es) eqn:E; [| discriminate].
    apply existsb_in_bucket in E. destruct E as [e [He [Hd [_ Hcat]]]].
    exists e. auto.
  - intros [e [Hin [Hd Hc]]]. right.
    assert (Hk : In (month_key_of e) (dict_keys (monthly_data_with A es))).
    { rewrite monthly_data_with_keys. apply months_of_In. exists e. auto. }
    unfold dict_keys in Hk. apply in_map_iff in Hk.
    destruct Hk as [[k md] [Heq Hitem]]. simpl in Heq. subst k.
    exists md. split.
    + unfold dict_values. apply in_map_iff. exists (month_key_of e, md). auto.
    + apply (dict_get_Some_keys String.eqb String.eqb_eq).
      rewrite (@monthly_data_with_entry es (month_key_of e) md c Hitem).
      replace (existsb (in_bucket (month_key_of e) c) es) with true; [eauto |].
      symmetry. apply existsb_in_bucket. exists e. auto.
Qed.

(** The data points have the month indices of the exact ones. *)
Lemma data_points_with_indices (es : list Expense) (k0 : month_key) (c : string) :
  map fst (data_points_with A es k0 c) = map fst (data_points es k0 c).
Proof.
  unfold data_points_with, data_points. rewrite !map_map. reflexivity.
Qed.

Lemma data_points_with_nonempty (es : list Expense) (k0 : month_key) (c : string) :
  has_dated_record es c -> data_points_with A es k0 c <> [].
Proof.
  intros Hrec Hnil. apply (data_points_nonempty k0 Hrec).
  pose proof (data_points_with_indices es k0 c) as H.
  rewrite Hnil in H. destruct (data_points es k0 c); [reflexivity | discriminate].
Qed.

(** The monthly totals of non-negative amounts are non-negative when
    rounding keeps the sign. *)
Lemma bucket_total_with_nonneg (es : list Expense) (k : month_key) (c : string) :
  (forall x, 0 <= x -> 0 <= rnd A x) ->
  Forall (fun e => 0 <= amount e) es ->
  0 <= bucket_total_with A es k c.
Proof.
  intros Hrnd Hpos. unfold bucket_total_with.
  assert (H : forall l a,
             Forall (fun e => 0 <= amount e) l -> 0 <= a ->
             0 <= fold_left (fun t e => rnd A (t + amount e)) l a).
  { induction l as [| e l IH]; intros a Hl Ha; [exact Ha |].
    cbn [fold_left]. inversion Hl as [| e' l' He Hl']; subst.
    apply IH; [exact Hl' |]. apply Hrnd. lra. }
  apply H; [| lra].
  apply Forall_forall. intros e He. apply filter_In in He.
  rewrite Forall_forall in Hpos. apply Hpos, He.
Qed.

Lemma data_points_with_nonneg (es : list Expense) (k0 : month_key) (c : string) :
  (forall x, 0 <= x -> 0 <= rnd A x) ->
  Forall (fun e => 0 <= amount e) es ->
  Forall (fun y => 0 <= y) (ys_of (data_points_with A es k0 c)).
Proof.
  intros Hrnd Hpos. apply Forall_forall. intros y Hy.
  unfold ys_of, data_points_with in Hy. rewrite map_map in Hy. cbn [snd] in Hy.
  apply in_map_iff in Hy. destruct Hy as [k [<- _]].
  apply bucket_total_with_nonneg; assumption.
Qed.

(** One turn of the loop over the categories stores the forecast of the
    category. *)
Lemma predict_category_with_Ok (es : list Expense) (k0 : month_key)
    (target_month : date) (predictions : dict string R) (c : string) (v : R) :
  has_dated_record es c ->
  forecast_with A es k0
    (month_index k0 (year target_month, month target_month)) c = Ok v ->
  predict_category_with A (monthly_data_with A es) (fst k0) (snd k0) target_month
                        predictions c
  = Ok (dict_set String.eqb predictions c v).
Proof.
  intros Hrec. unfold predict_category_with, forecast_with.
  rewrite category_series_points, monthly_data_with_points. cbn [fst snd].
  pose proof (data_points_with_nonempty k0 Hrec) as Hne.
  set (pts := data_points_with A es k0 c) in *.
  rewrite !length_map.
  assert (Hlen : (0 <? length pts)%nat = true).
  { apply Nat.ltb_lt. destruct pts; [contradiction | simpl; lia]. }
  rewrite Hlen. unfold ys_of, month_index. cbn [fst snd].
  destruct (length pts <? 2)%nat.
  - intros ->. reflexivity.
  - destruct (fit_predict A (map fst pts) (map snd pts) _) as [p | err].
    + intros H. injection H as <-. rewrite clamp_Rmax. reflexivity.
    + intros ->. reflexivity.
Qed.

Lemma forecast_with_returns (es : list Expense) (k0 : month_key) (t : Z)
    (c : string) :
  (forall l, l <> [] -> exists m, np_mean_of A l = Ok m) ->
  has_dated_record es c ->
  exists v, forecast_with A es k0 t c = Ok v.
Proof.
  intros Hmean Hrec. unfold forecast_with.
  pose proof (data_points_with_nonempty k0 Hrec) as Hne.
  assert (Hys : ys_of (data_points_with A es k0 c) <> []).
  { unfold ys_of. destruct (data_points_with A es k0 c);
      [contradiction | discriminate]. }
  destruct (length (data_points_with A es k0 c) <? 2)%nat; [apply Hmean, Hys |].
  destruct (fit_predict A _ _ t) as [p | err]; [eauto | apply Hmean, Hys].
Qed.

(** What [predict_monthly_expense] returns: one entry per category of the
    dated records, the forecast of the category on the timeline that starts
    at the earliest month. *)
Lemma predict_monthly_expense_with_Ok (today : date) (es : list Expense)
    (target_month : option date) :
  (forall l, l <> [] -> exists m, np_mean_of A l = Ok m) ->
  let target := match target_month with Some d => d | None => today end in
  exists predictions,
    predict_monthly_expense_with A today es target_month = Ok predictions
    /\ NoDup (dict_keys predictions)
    /\ (forall c, ~ has_dated_record es c ->
                  dict_get String.eqb predictions c = None)
    /\ (forall c, has_dated_record es c ->
                  exists k0 v,
                    is_earliest_month es k0
                    /\ forecast_with A es k0
                         (month_index k0 (year target, month target)) c = Ok v
                    /\ dict_get String.eqb predictions c = Some v).
Proof.
  intros Hmean target.
  assert (Hnone : months_of es = [] -> forall c, ~ has_dated_record es c).
  { intros Hm c [e [Hin [Hd _]]].
    assert (H : In (month_key_of e) (months_of es))
      by (apply months_of_In; exists e; auto).
    rewrite Hm in H. destruct H. }
  unfold predict_monthly_expense_with. fold target.
  destruct es as [| e0 es0].
  { exists []. split; [reflexivity |]. split; [constructor |].
    split; [reflexivity |]. intros c [e [[] _]]. }
  set (es := e0 :: es0) in *. cbv zeta.
  destruct (monthly_data_with A es) as [| item md'] eqn:Emd.
  { exists []. split; [reflexivity |]. split; [constructor |].
    split; [reflexivity |]. intros c Hc. exfalso.
    apply (Hnone (eq_trans (eq_sym (monthly_data_with_keys es)) (f_equal _ Emd)) c Hc). }
  rewrite <- Emd.
  destruct (@py_min_key_earliest (dict_keys (monthly_data_with A es)))
    as [k0 [Hmin [Hin0 Hle]]].
  { rewrite Emd. discriminate. }
  rewrite Hmin. cbn [bind].
  rewrite monthly_data_with_keys in Hin0, Hle.
  set (t := month_index k0 (year target, month target)).
  destruct (@foldM_predictions
              (predict_category_with A (monthly_data_with A es) (fst k0) (snd k0) target)
              (fun c => match forecast_with A es k0 t c with
                        | Ok v => v
                        | Raise _ => 0
                        end)
              (fold_left
                 (fun s month_data => set_update String.eqb s (dict_keys month_data))
                 (dict_values (monthly_data_with A es)) [])
              []) as [p [H1 [H2 H3]]].
  - intros c p Hc. apply all_categories_dated_with in Hc.
    destruct (@forecast_with_returns es k0 t c Hmean Hc) as [v Hv].
    rewrite Hv. apply predict_category_with_Ok; assumption.
  - constructor.
  - exists p. split; [exact H1 |]. split; [exact H2 |]. split.
    + intros c Hc. rewrite H3.
      destruct (existsb (String.eqb c) _) eqn:E; [| reflexivity].
      apply existsb_eqb_In, all_categories_dated_with in E. contradiction.
    + intros c Hc.
      destruct (@forecast_with_returns es k0 t c Hmean Hc) as [v Hv].
      exists k0, v. split; [split; assumption |]. split; [exact Hv |].
      rewrite H3, Hv.
      replace (existsb (String.eqb c) _) with true; [reflexivity |].
      symmetry. apply existsb_eqb_In, all_categories_dated_with. exact Hc.
Qed.
End ForecastFacts.

(** The two branches of the forecast of a category. *)
Lemma forecast_with_cases (A : arithmetic) (es : list Expense) (k0 : month_key)
    (t : Z) (c : string) (v : R) :
  forecast_with A es k0 t c = Ok v ->
  let pts := data_points_with A es k0 c in
  (forall p, (2 <= length pts)%nat ->
             fit_predict A (map fst pts) (ys_of pts) t = Ok p ->
             v = Rmax 0 p)
  /\ ((length pts < 2)%nat
      \/ (exists e, fit_predict A (map fst pts) (ys_of pts) t = Raise e) ->
      np_mean_of A (ys_of pts) = Ok v).
Proof.
  unfold forecast_with. intros H. cbv zeta in *.
  set (pts := data_points_with A es k0 c) in *.
  destruct (length pts <? 2)%nat eqn:Elen.
  - apply Nat.ltb_lt in Elen. split; [intros p Hp; lia |]. intros _. exact H.
  - apply Nat.ltb_ge in Elen. split.
    + intros p _ Hfit. rewrite Hfit in H. injection H as <-. reflexivity.
    + intros [Hlt | [e Hfit]]; [lia |]. rewrite Hfit in H. exact H.
Qed.

(** C4 (as amended).  For every list of expense records and target month,
    ExpenseForecaster returns a mapping with one entry per category of the
    dated records.  On the timeline of month indices that starts at the
    earliest month of the data, a category with at least two data points
    gets what the linear regression fitted to its (month index, monthly
    total) pairs predicts at the index of the target month, raised to zero
    when negative; a category with fewer than two, or one whose regression
    fails, gets the arithmetic mean of its monthly totals.  The regression
    is ordinary least squares up to the rounding of the library: the
    forecast is as close to the least-squares line, raised to zero, as the
    library's prediction is to the line, and in exact arithmetic it is that
    line, which minimises the sum of squared residuals.  On valid dates the
    month indices of a category are pairwise distinct.  Totals 100, 200, 300
    at indices 0, 1, 2 forecast 400 at index 3 up to the rounding of the
    regression, exactly 400 in exact arithmetic, and a single monthly total
    of 50 forecasts 50 for any target month. *)
Theorem forecast_fit_or_mean (today : date) (es : list Expense)
    (target_month : option date) :
  let target := match target_month with Some d => d | None => today end in
  (forall A : arithmetic,
      (forall l, l <> [] -> exists m, np_mean_of A l = Ok m) ->
      exists predictions,
        predict_monthly_expense_with A today es target_month = Ok predictions
        /\ (forall c, ~ has_dated_record es c ->
                      dict_get String.eqb predictions c = None)
        /\ (forall c, has_dated_record es c ->
             exists k0,
               is_earliest_month es k0
               /\ let pts := data_points_with A es k0 c in
                  let t := month_index k0 (year target, month target) in
                  (forall p, (2 <= length pts)%nat ->
                     fit_predict A (map fst pts) (ys_of pts) t = Ok p ->
                     dict_get String.eqb predictions c = Some (Rmax 0 p)
                     /\ Rabs (Rmax 0 p - Rmax 0 (ols_at pts t))
                        <= Rabs (p - ols_at pts t))
                  /\ ((length pts < 2)%nat
                      \/ (exists e, fit_predict A (map fst pts) (ys_of pts) t
                                    = Raise e) ->
                      exists m, np_mean_of A (ys_of pts) = Ok m
                                /\ dict_get String.eqb predictions c = Some m)
                  /\ (pts = [(0%Z, 100); (1%Z, 200); (2%Z, 300)] -> t = 3%Z ->
                      forall p,
                        fit_predict A [0; 1; 2]%Z [100; 200; 300] 3 = Ok p ->
                        exists v, dict_get String.eqb predictions c = Some v
                                  /\ Rabs (v - 400) <= Rabs (p - 400))
                  /\ (forall i, pts = [(i, 50)] -> np_mean_of A [50] = Ok 50 ->
                      dict_get String.eqb predictions c = Some 50)
                  /\ (Forall (fun e => forall d, expense_date e = Some d ->
                                                 valid_date d) es ->
                      NoDup (map fst pts))
                  /\ forall a b,
                      squared_error pts (ols_intercept pts) (ols_slope pts)
                      <= squared_error pts a b))
  /\ exists predictions,
      predict_monthly_expense_with exact today es target_month = Ok predictions
      /\ predict_monthly_expense today es target_month = Ok predictions
      /\ (forall c, ~ has_dated_record es c ->
                    dict_get String.eqb predictions c = None)
      /\ (forall c, has_dated_record es c ->
           exists k0,
             is_earliest_month es k0
             /\ data_points_with exact es k0 c = data_points es k0 c
             /\ let pts := data_points es k0 c in
                let t := month_index k0 (year target, month target) in
                ((2 <= length pts)%nat ->
                 fit_predict exact (map fst pts) (ys_of pts) t = Ok (ols_at pts t)
                 /\ dict_get String.eqb predictions c = Some (Rmax 0 (ols_at pts t)))
                /\ ((length pts < 2)%nat ->
                    dict_get String.eqb predictions c = Some (mean_of (ys_of pts)))
                /\ (pts = [(0%Z, 100); (1%Z, 200); (2%Z, 300)] -> t = 3%Z ->
                    dict_get String.eqb predictions c = Some 400)
                /\ (forall i, pts = [(i, 50)] ->
                    dict_get String.eqb predictions c = Some 50)).
Proof.
  intros target. split.
  - intros A Hmean.
    destruct (@predict_monthly_expense_with_Ok A today es target_month Hmean)
      as [p [Hp [_ [Hnone Hsome]]]].
    exists p. split; [exact Hp |]. split; [exact Hnone |].
    intros c Hc. destruct (Hsome c Hc) as [k0 [v [Hk0 [Hv Hget]]]].
    fold target in Hv.
    exists k0. split; [exact Hk0 |]. cbv zeta.
    destruct (forecast_with_cases _ _ _ _ _ Hv) as [Hfit Hmeanv].
    pose proof (data_points_with_nonempty A k0 Hc) as Hne.
    split; [| split; [| split; [| split; [| split]]]].
    + intros q Hlen Hq. rewrite Hget, (Hfit q Hlen Hq).
      split; [reflexivity | apply Rmax_0_close].
    + intros Hor. exists v. split; [apply Hmeanv, Hor | exact Hget].
    + intros Hpts Ht q Hq. exists v. split; [exact Hget |].
      assert (Hvq : v = Rmax 0 q).
      { apply Hfit.
        - rewrite Hpts. simpl. lia.
        - rewrite Hpts, Ht. exact Hq. }
      rewrite Hvq. replace 400 with (Rmax 0 400) at 1 by (apply Rmax_right; lra).
      apply Rmax_0_close.
    + intros i Hpts H50.
      assert (Hm : np_mean_of A (ys_of (data_points_with A es k0 c)) = Ok v).
      { apply Hmeanv. left. rewrite Hpts. simpl. lia. }
      rewrite Hpts in Hm. cbn [ys_of map snd] in Hm. rewrite H50 in Hm.
      injection Hm as <-. exact Hget.
    + intros Hvalid. rewrite data_points_with_indices.
      apply data_points_distinct, Hvalid.
    + intros a b. apply ols_minimises. exact Hne.
  - destruct (predict_monthly_expense_Ok today es target_month)
      as [p [Hp [_ [Hnone Hsome]]]].
    exists p. split; [exact Hp |]. split; [exact Hp |]. split; [exact Hnone |].
    intros c Hc. destruct (Hsome c Hc) as [k0 [Hk0 Hval]]. fold target in Hval.
    exists k0. split; [exact Hk0 |]. split; [apply exact_data_points |].
    cbv zeta. unfold forecast_of in Hval.
    pose proof (data_points_nonempty k0 Hc) as Hne.
    split; [| split; [| split]].
    + intros Hlen. split; [apply exact_fit_predict, Hne |].
      rewrite Hval.
      replace (length (data_points es k0 c) <? 2)%nat with false; [reflexivity |].
      symmetry. apply Nat.ltb_ge. exact Hlen.
    + intros Hlt. rewrite Hval.
      replace (length (data_points es k0 c) <? 2)%nat with true; [reflexivity |].
      symmetry. apply Nat.ltb_lt. exact Hlt.
    + intros Hpts Ht. rewrite Hval, Hpts, Ht. cbn [length Nat.ltb Nat.leb].
      rewrite ols_at_three_points. f_equal.
      replace ((5 * 100 + 2 * 200 - 300) / 6 + (300 - 100) / 2 * 3) with 400 by field.
      apply Rmax_right. lra.
    + intros i Hpts. rewrite Hval, Hpts. cbn [length Nat.ltb Nat.leb].
      unfold mean_of, ys_of. simpl. f_equal. field.
Qed.

(** C4 at a concrete input, in exact arithmetic: 100, 200 and 300 in
    January, February and March 2024, forecast for April 2024.  The
    regression predicts 400 and the forecast is 400. *)
Lemma forecast_fit_or_mean_witness :
  has_dated_record (three_months 100 200 300) "food"
  /\ exists predictions k0,
      predict_monthly_expense_with exact (mkdate 2024 6 1)
                                   (three_months 100 200 300)
                                   (Some (mkdate 2024 4 1)) = Ok predictions
      /\ predict_monthly_expense (mkdate 2024 6 1) (three_months 100 200 300)
                                 (Some (mkdate 2024 4 1)) = Ok predictions
      /\ is_earliest_month (three_months 100 200 300) k0
      /\ data_points_with exact (three_months 100 200 300) k0 "food"
         = [(0%Z, 100); (1%Z, 200); (2%Z, 300)]
      /\ month_index k0 (2024, 4)%Z = 3%Z
      /\ fit_predict exact [0; 1; 2]%Z [100; 200; 300] 3 = Ok 400
      /\ dict_get String.eqb predictions "food" = Some 400.
Proof.
  assert (Hrec : has_dated_record (three_months 100 200 300) "food").
  { exists (dated 2024 1 10 "food" 100). simpl. auto. }
  split; [exact Hrec |].
  destruct (forecast_fit_or_mean (mkdate 2024 6 1) (three_months 100 200 300)
              (Some (mkdate 2024 4 1))) as [Hgen _].
  destruct (Hgen exact) as [p [Hp [_ Hsome]]].
  { intros l Hl. exists (mean_of l). apply np_mean_Ok, Hl. }
  destruct (Hsome "food" Hrec) as [k0 [Hk0 [_ [_ [H400 _]]]]].
  assert (Hk : k0 = (2024, 1)%Z)
    by (apply (is_earliest_month_unique Hk0 (three_months_earliest 100 200 300))).
  assert (Hpts : data_points_with exact (three_months 100 200 300) k0 "food"
                 = [(0%Z, 100); (1%Z, 200); (2%Z, 300)]).
  { rewrite exact_data_points, Hk, three_months_points, !Rplus_0_r. reflexivity. }
  assert (Ht : month_index k0 (2024, 4)%Z = 3%Z) by (rewrite Hk; reflexivity).
  assert (Hfit : fit_predict exact [0; 1; 2]%Z [100; 200; 300] 3 = Ok 400).
  { change (fit_predict exact (map fst [(0%Z, 100); (1%Z, 200); (2%Z, 300)])
                        (ys_of [(0%Z, 100); (1%Z, 200); (2%Z, 300)]) 3 = Ok 400).
    rewrite exact_fit_predict by discriminate.
    rewrite ols_at_three_points. f_equal. field. }
  destruct (H400 Hpts Ht 400 Hfit) as [v [Hget Hclose]].
  assert (Hv : v = 400).
  { replace (400 - 400) with 0 in Hclose by lra. rewrite Rabs_R0 in Hclose.
    destruct (Req_dec (v - 400) 0) as [H0 | H0]; [lra |].
    apply Rabs_pos_lt in H0. lra. }
  subst v.
  exists p, k0. repeat (split; [assumption |]). exact Hget.
Defined.

(** C8.  With non-negative amounts, ExpenseForecaster returns a mapping,
    with an entry for each category of the dated records and no other, and
    every value in it is non-negative: where the regression predicts a
    negative value the entry is 0, where it predicts a non-negative value
    the entry is that value, and where the mean is used the mean is
    non-negative.  This holds in floating point, where rounding keeps the
    sign and the mean of non-negative numbers is non-negative. *)
Theorem forecast_nonnegative (A : arithmetic) (today : date) (es : list Expense)
    (target_month : option date) :
  (forall x, 0 <= x -> 0 <= rnd A x) ->
  (forall l, l <> [] -> exists m, np_mean_of A l = Ok m) ->
  (forall l m, Forall (fun x => 0 <= x) l -> np_mean_of A l = Ok m -> 0 <= m) ->
  Forall (fun e => 0 <= amount e) es ->
  let target := match target_month with Some d => d | None => today end in
  exists predictions,
    predict_monthly_expense_with A today es target_month = Ok predictions
    /\ (forall c v, In (c, v) predictions -> 0 <= v)
    /\ NoDup (dict_keys predictions)
    /\ (forall c, In c (dict_keys predictions) <-> has_dated_record es c)
    /\ forall c, has_dated_record es c ->
         exists k0,
           is_earliest_month es k0
           /\ let pts := data_points_with A es k0 c in
              let t := month_index k0 (year target, month target) in
              (forall p, (2 <= length pts)%nat ->
                 fit_predict A (map fst pts) (ys_of pts) t = Ok p ->
                 (p < 0 -> dict_get String.eqb predictions c = Some 0)
                 /\ (0 <= p -> dict_get String.eqb predictions c = Some p))
              /\ ((length pts < 2)%nat
                  \/ (exists e, fit_predict A (map fst pts) (ys_of pts) t
                                = Raise e) ->
                  exists m, np_mean_of A (ys_of pts) = Ok m
                            /\ 0 <= m
                            /\ dict_get String.eqb predictions c = Some m).
Proof.
  intros Hrnd Hmean Hmean_pos Hpos target.
  destruct (@predict_monthly_expense_with_Ok A today es target_month Hmean)
    as [p [Hp [Hnd [Hnone Hsome]]]].
  fold target in Hsome.
  assert (Hcases : forall c, has_dated_record es c ->
            exists k0 v,
              is_earliest_month es k0
              /\ dict_get String.eqb p c = Some v
              /\ 0 <= v
              /\ (forall q, (2 <= length (data_points_with A es k0 c))%nat ->
                    fit_predict A (map fst (data_points_with A es k0 c))
                                (ys_of (data_points_with A es k0 c))
                                (month_index k0 (year target, month target)) = Ok q ->
                    v = Rmax 0 q)
              /\ ((length (data_points_with A es k0 c) < 2)%nat
                  \/ (exists e,
                        fit_predict A (map fst (data_points_with A es k0 c))
                                    (ys_of (data_points_with A es k0 c))
                                    (month_index k0 (year target, month target))
                        = Raise e) ->
                  np_mean_of A (ys_of (data_points_with A es k0 c)) = Ok v)).
  { intros c Hc. destruct (Hsome c Hc) as [k0 [v [Hk0 [Hv Hget]]]].
    exists k0, v. split; [exact Hk0 |]. split; [exact Hget |].
    destruct (forecast_with_cases _ _ _ _ _ Hv) as [Hfit Hm].
    split; [| split; [exact Hfit | exact Hm]].
    unfold forecast_with in Hv.
    destruct (length (data_points_with A es k0 c) <? 2)%nat.
    - apply (Hmean_pos _ _ (data_points_with_nonneg A k0 c Hrnd Hpos) Hv).
    - destruct (fit_predict A _ _ _) as [q | err].
      + injection Hv as <-. apply Rmax_l.
      + apply (Hmean_pos _ _ (data_points_with_nonneg A k0 c Hrnd Hpos) Hv). }
  exists p. split; [exact Hp |]. split; [| split; [exact Hnd | split]].
  - intros c v Hin.
    apply (dict_get_NoDup String.eqb String.eqb_eq _ _ _ Hnd) in Hin.
    destruct (has_dated_record_dec es c) as [Hc | Hc].
    + destruct (Hcases c Hc) as [k0 [v' [_ [Hget [Hv' _]]]]].
      rewrite Hget in Hin. injection Hin as <-. exact Hv'.
    + rewrite (Hnone c Hc) in Hin. discriminate.
  - intros c. rewrite (dict_get_Some_keys String.eqb String.eqb_eq). split.
    + intros [v Hv]. destruct (has_dated_record_dec es c) as [Hc | Hc];
        [exact Hc |]. rewrite (Hnone c Hc) in Hv. discriminate.
    + intros Hc. destruct (Hcases c Hc) as [k0 [v [_ [Hget _]]]]. eauto.
  - intros c Hc. destruct (Hcases c Hc) as [k0 [v [Hk0 [Hget [Hv [Hfit Hm]]]]]].
    exists k0. split; [exact Hk0 |]. cbv zeta. split.
    + intros q Hlen Hq. rewrite Hget, (Hfit q Hlen Hq). split; intros Hsign.
      * rewrite Rmax_left by lra. reflexivity.
      * rewrite Rmax_right by lra. reflexivity.
    + intros Hor. exists v. split; [apply Hm, Hor |]. split; [exact Hv | exact Hget].
Qed.

Lemma np_mean_nonneg (l : list R) (m : R) :
  Forall (fun x => 0 <= x) l -> np_mean l = Ok m -> 0 <= m.
Proof.
  intros Hl H. destruct l as [| a l]; [discriminate |].
  rewrite np_mean_Ok in H by discriminate. injection H as <-.
  unfold mean_of. apply Rsum_nonneg in Hl.
  assert (Hn : 0 < INR (length (a :: l))) by (apply lt_0_INR; simpl; lia).
  unfold Rdiv. apply Rmult_le_pos; [exact Hl |].
  left. apply Rinv_0_lt_compat, Hn.
Qed.

(** C8 at a concrete input, in exact arithmetic: a falling trend, 300, 200
    and 100, whose line is at -200 in June; the forecast is 0. *)
Lemma forecast_nonnegative_witness :
  Forall (fun e => 0 <= amount e) (three_months 300 200 100)
  /\ exists predictions,
      predict_monthly_expense (mkdate 2024 6 1) (three_months 300 200 100)
                              (Some (mkdate 2024 6 1)) = Ok predictions
      /\ (forall c v, In (c, v) predictions -> 0 <= v)
      /\ (forall c, In c (dict_keys predictions)
                    <-> has_dated_record (three_months 300 200 100) c)
      /\ dict_get String.eqb predictions "food" = Some 0.
Proof.
  assert (Hpos : Forall (fun e => 0 <= amount e) (three_months 300 200 100)).
  { repeat constructor; simpl; lra. }
  split; [exact Hpos |].
  destruct (@forecast_nonnegative exact (mkdate 2024 6 1) (three_months 300 200 100)
              (Some (mkdate 2024 6 1)))
    as [p [Hp [Hval [_ [Hkeys Hsome]]]]].
  { intros x Hx. exact Hx. }
  { intros l Hl. exists (mean_of l). apply np_mean_Ok, Hl. }
  { apply np_mean_nonneg. }
  { exact Hpos. }
  exists p. split; [exact Hp |]. split; [exact Hval |]. split; [exact Hkeys |].
  destruct (Hsome "food") as [k0 [Hk0 [Hfit _]]].
  { exists (dated 2024 1 10 "food" 300). simpl. auto. }
  assert (Hk : k0 = (2024, 1)%Z)
    by (apply (is_earliest_month_unique Hk0 (three_months_earliest 300 200 100))).
  subst k0. cbv zeta in Hfit.
  rewrite exact_data_points, three_months_points, !Rplus_0_r in Hfit.
  destruct (Hfit (-200)) as [Hneg _].
  - simpl. lia.
  - rewrite exact_fit_predict by discriminate. f_equal.
    change (month_index (2024, 1)%Z (year (mkdate 2024 6 1), month (mkdate 2024 6 1)))
      with 5%Z.
    rewrite ols_at_three_points. field.
  - apply Hneg. lra.
Defined.
